(** * XCom replication engine (xcom_base.cc): shallow embedding and properties

    The development follows the layout of [xcom_base.cc]:
    - machine integers and the wire-level data model (synodes, ballots,
      messages, sites, Paxos machines);
    - the definition of majority;
    - the acceptor / proposer / learner message handlers, over an explicit
      store of [pax_msg] objects (the C code shares messages by pointer);
    - forced configurations ([force_pax_machine]);
    - the event horizon ([too_far]);
    - the executor (delay FIFO, exit handling);
    - the proposer's waiting loop ([wakeup_delay]);
    - validation of configuration changes ([can_execute_cfgchange]);
    - further functions: the acknowledgements of a proposal and the
      two-phase push, the predecessor of a synode, the ring of dead sites,
      [max_synode], log sequence numbers, the leader of a site, the snapshots
      received while booting, and the delay of a task that waits for a
      message.

    Conventions.  A C integer of width w is a [Z]; every operation that can
    leave the range has its wrap-around written out ([u64], [u32], [i32]).
    A double the code computes with (a round-trip time, a delay, the time
    of a push) is a binary64 number ([float]), and its operations are the
    IEEE 754 ones; a time stamp that is only stored is a rational ([Q]).
    A nullable pointer is an [option]; a dereference that
    the C code performs without a null check makes the modelled function
    return [None] (the C behaviour is undefined there).  Assertions are
    compiled out.  Calls that leave the Paxos machine (sends, wake-ups, the
    lifecycle FSM, the cache accounting) are recorded as [event]s, in call
    order.  Reference counts of messages are not modelled: the store never
    frees. *)

From Stdlib Require Import ZArith QArith Floats Lia Bool List.
From stdpp Require Import gmap strings list.

#[local] Set Warnings "-inexact-float".

Local Open Scope Z_scope.

(** ** Machine integers *)

Definition INT32_MAX : Z := 2147483647.
Definition INT32_MIN : Z := -2147483648.

(** Unsigned 64-bit and 32-bit wrap-around (uint64_t, uint32_t). *)
Definition u64 (z : Z) : Z := z mod 2 ^ 64.
Definition u32 (z : Z) : Z := z mod 2 ^ 32.

(** Two's complement wrap-around of a signed 32-bit integer (int32_t). *)
Definition i32 (z : Z) : Z := (z + 2 ^ 31) mod 2 ^ 32 - 2 ^ 31.

Definition is_u64 (z : Z) : Prop := 0 <= z < 2 ^ 64.
Definition is_u32 (z : Z) : Prop := 0 <= z < 2 ^ 32.
Definition is_i32 (z : Z) : Prop := INT32_MIN <= z <= INT32_MAX.

(** The C macros MAX and MIN. *)
Definition MAX (x y : Z) : Z := if x >? y then x else y.
Definition MIN (x y : Z) : Z := if x <? y then x else y.

(** ** Wire-level enumerations

    The enumerations are declared in the protocol header, outside
    xcom_base.cc; the constructors are the tags the code uses. *)

Inductive pax_op : Type :=
| client_msg | initial_op | prepare_op | ack_prepare_op | ack_prepare_empty_op
| accept_op | ack_accept_op | multi_ack_accept_op | learn_op | tiny_learn_op
| recover_learn_op | skip_op | read_op | i_am_alive_op | are_you_alive_op
| need_boot_op | gcs_snapshot_op | die_op | xcom_client_reply.

Inductive pax_msg_type : Type := normal | no_op | multi_no_op.

Inductive cargo_type : Type :=
| app_type | unified_boot_type | add_node_type | remove_node_type
| force_config_type | set_event_horizon_type | get_event_horizon_type
| get_synode_app_data_type | set_cache_limit | set_notify_truly_remove
| xcom_boot_type | view_msg | convert_into_local_server_type
| x_terminate_and_exit | exit_type | reset_type | remove_reset_type
| enable_arbitrator | disable_arbitrator.

Inductive cons_type : Type := cons_majority | cons_all.

Inductive client_reply_code : Type := REQUEST_OK | REQUEST_FAIL | REQUEST_RETRY.

#[global] Instance pax_op_eq_dec : EqDecision pax_op.
Proof. solve_decision. Defined.
#[global] Instance pax_msg_type_eq_dec : EqDecision pax_msg_type.
Proof. solve_decision. Defined.
#[global] Instance cargo_type_eq_dec : EqDecision cargo_type.
Proof. solve_decision. Defined.
#[global] Instance cons_type_eq_dec : EqDecision cons_type.
Proof. solve_decision. Defined.
#[global] Instance client_reply_code_eq_dec : EqDecision client_reply_code.
Proof. solve_decision. Defined.

(** ** Synodes and ballots *)

(** synode_no: [group_id] is a uint32_t, [msgno] a uint64_t, [node] a node_no
    (uint32_t). *)
Record synode_no : Type := mk_synode {
  group_id : Z;
  msgno : Z;
  node : Z
}.

Definition null_synode : synode_no := mk_synode 0 0 0.

(** Modelled from the spec: synode_eq, synode_lt and synode_gt are defined
    outside xcom_base.cc.  "Total order: lexicographic on
    (msgno, node); group_id partitions namespaces." *)
Definition synode_eq (x y : synode_no) : bool :=
  (group_id x =? group_id y) && (msgno x =? msgno y) && (node x =? node y).

Definition synode_lt (x y : synode_no) : bool :=
  (msgno x <? msgno y) || ((msgno x =? msgno y) && (node x <? node y)).

Definition synode_gt (x y : synode_no) : bool :=
  (msgno x >? msgno y) || ((msgno x =? msgno y) && (node x >? node y)).

(** ballot: [cnt] is an int32_t, [bal_node] a node_no. *)
Record ballot : Type := mk_ballot {
  cnt : Z;
  bal_node : Z
}.

(** Modelled from the spec: eq_ballot and gt_ballot are defined outside
    xcom_base.cc.  "Ballot: {cnt: i32, node: u16}. Ordered
    lexicographically." *)
Definition eq_ballot (x y : ballot) : bool :=
  (cnt x =? cnt y) && (bal_node x =? bal_node y).

Definition gt_ballot (x y : ballot) : bool :=
  (cnt x >? cnt y) || ((cnt x =? cnt y) && (bal_node x >? bal_node y)).

(** The order the spec speaks of: [x] is not greater than [y]. *)
Definition ballot_le (x y : ballot) : Prop :=
  cnt x < cnt y \/ (cnt x = cnt y /\ bal_node x <= bal_node y).

(** ** Nodes, application data, messages *)

Record node_address : Type := mk_node_address {
  address : string;
  uuid : string;
  min_proto : Z;
  max_proto : Z
}.

(** app_data, by value.  [a_nodes] and [a_event_horizon] are the members of
    the union [body.app_u_u] used by configuration commands; [a_payload]
    stands for the opaque client payload. *)
Record app_data : Type := mk_app_data {
  a_unique_id : synode_no;
  a_group_id : Z;
  a_lsn : Z;
  a_app_key : synode_no;
  a_consensus : cons_type;
  a_chosen : bool;
  a_c_t : cargo_type;
  a_nodes : list node_address;
  a_event_horizon : Z;
  a_payload : string
}.

Record pax_msg : Type := mk_pax_msg {
  m_to : Z;
  m_from : Z;
  m_max_synode : synode_no;
  m_reply_to : ballot;
  m_proposal : ballot;
  m_op : pax_op;
  m_synode : synode_no;
  m_msg_type : pax_msg_type;
  m_a : option app_data;
  m_cli_err : client_reply_code;
  m_force_delivery : bool;
  m_delivered_msg : synode_no
}.

Definition set_m_op (o : pax_op) (m : pax_msg) : pax_msg :=
  mk_pax_msg (m_to m) (m_from m) (m_max_synode m) (m_reply_to m) (m_proposal m)
    o (m_synode m) (m_msg_type m) (m_a m) (m_cli_err m) (m_force_delivery m)
    (m_delivered_msg m).

Definition set_m_msg_type (t : pax_msg_type) (m : pax_msg) : pax_msg :=
  mk_pax_msg (m_to m) (m_from m) (m_max_synode m) (m_reply_to m) (m_proposal m)
    (m_op m) (m_synode m) t (m_a m) (m_cli_err m) (m_force_delivery m)
    (m_delivered_msg m).

Definition set_m_synode (s : synode_no) (m : pax_msg) : pax_msg :=
  mk_pax_msg (m_to m) (m_from m) (m_max_synode m) (m_reply_to m) (m_proposal m)
    (m_op m) s (m_msg_type m) (m_a m) (m_cli_err m) (m_force_delivery m)
    (m_delivered_msg m).

Definition set_m_proposal (b : ballot) (m : pax_msg) : pax_msg :=
  mk_pax_msg (m_to m) (m_from m) (m_max_synode m) (m_reply_to m) b
    (m_op m) (m_synode m) (m_msg_type m) (m_a m) (m_cli_err m)
    (m_force_delivery m) (m_delivered_msg m).

Definition set_m_reply_to (b : ballot) (m : pax_msg) : pax_msg :=
  mk_pax_msg (m_to m) (m_from m) (m_max_synode m) b (m_proposal m)
    (m_op m) (m_synode m) (m_msg_type m) (m_a m) (m_cli_err m)
    (m_force_delivery m) (m_delivered_msg m).

Definition set_m_a (a : option app_data) (m : pax_msg) : pax_msg :=
  mk_pax_msg (m_to m) (m_from m) (m_max_synode m) (m_reply_to m) (m_proposal m)
    (m_op m) (m_synode m) (m_msg_type m) a (m_cli_err m) (m_force_delivery m)
    (m_delivered_msg m).

Definition set_m_force_delivery (f : bool) (m : pax_msg) : pax_msg :=
  mk_pax_msg (m_to m) (m_from m) (m_max_synode m) (m_reply_to m) (m_proposal m)
    (m_op m) (m_synode m) (m_msg_type m) (m_a m) (m_cli_err m) f
    (m_delivered_msg m).

Definition set_a_chosen (c : bool) (a : app_data) : app_data :=
  mk_app_data (a_unique_id a) (a_group_id a) (a_lsn a) (a_app_key a)
    (a_consensus a) c (a_c_t a) (a_nodes a) (a_event_horizon a) (a_payload a).

Definition set_a_key (k : synode_no) (a : app_data) : app_data :=
  mk_app_data (a_unique_id a) (group_id k) (a_lsn a) k
    (a_consensus a) (a_chosen a) (a_c_t a) (a_nodes a) (a_event_horizon a)
    (a_payload a).

(** A zeroed message; it is what a read through a pointer outside the store
    yields in the model. *)
Definition pax_msg_zero : pax_msg :=
  mk_pax_msg 0 0 null_synode (mk_ballot 0 0) (mk_ballot 0 0) client_msg
    null_synode normal None REQUEST_OK false null_synode.

#[global] Instance pax_msg_inhabited : Inhabited pax_msg := populate pax_msg_zero.

(** ** Sites *)

(** site_def.  [event_horizon] is a uint32_t, [x_proto] the numeric value of
    the protocol version, [max_conn_rtt] a double. *)
Record site_def : Type := mk_site_def {
  start : synode_no;
  boot_key : synode_no;
  nodeno : Z;
  nodes : list node_address;
  event_horizon : Z;
  x_proto : Z;
  max_conn_rtt : float
}.


(** VOID_NODE_NO is (node_no)-1; the macro lives in a header outside
    xcom_base.cc. *)
Definition VOID_NODE_NO : Z := 2 ^ 32 - 1.

(** Modelled from the spec: get_maxnodes and get_nodeno are accessors of the
    site definition declared outside xcom_base.cc; a null site has no
    nodes and no local node number. *)
Definition get_maxnodes (site : option site_def) : Z :=
  match site with
  | Some s => Z.of_nat (length (nodes s))
  | None => 0
  end.

Definition get_nodeno (site : option site_def) : Z :=
  match site with
  | Some s => nodeno s
  | None => VOID_NODE_NO
  end.

(** ** Node sets *)

(** bit_set: the words of [bits.bits_val], each a uint32_t. *)
Definition bit_set : Type := list Z.

(** Modelled from the spec: BIT_ISSET, BIT_SET and BIT_ZERO are macros of a
    header outside xcom_base.cc; "bitsets of nodes that answered".
    Bit [i] is bit [i mod 32] of word [i / 32]; a word outside the array reads
    as zero and a write outside the array is dropped. *)
Definition BIT_ISSET (i : Z) (s : bit_set) : bool :=
  Z.testbit (nth (Z.to_nat (i / 32)) s 0) (i mod 32).

Definition BIT_SET (i : Z) (s : bit_set) : bit_set :=
  let w := Z.to_nat (i / 32) in
  <[ w := Z.lor (nth w s 0) (Z.shiftl 1 (i mod 32)) ]> s.

Definition BIT_ZERO (s : bit_set) : bit_set := map (fun _ => 0) s.

(** ** The history of sites *)

(** Modelled from the spec: the site history ([site_defs]) and its accessors
    get_site_def, find_site_def and find_next_site_def are defined outside
    xcom_base.cc.  "A history is kept in reverse start order so any executed
    synod resolves to exactly one active site via find_site_def(synod) =
    latest site with site.start <= synod."  The list holds the most recent
    site first.  A pointer to a site is the pair of its position in the
    history and the record it points to, so that the pointer comparison of
    [is_latest_config] is a comparison of positions. *)
Definition site_ptr : Type := nat * site_def.

Definition get_site_def (site_defs : list site_def) : option site_ptr :=
  match site_defs with
  | [] => None
  | s :: _ => Some (0%nat, s)
  end.

Definition find_site_def (site_defs : list site_def) (synode : synode_no)
  : option site_ptr :=
  list_find (fun s => synode_lt synode (start s) = false) site_defs.

(** Modelled from the spec: find_next_site_def scans the history from its
    oldest entry and returns the first site that starts after [synode]
    ("the first pending site_def, i.e. with the smallest start synod that is
    greater than" the given one). *)
Fixpoint find_next_from (i : nat) (l : list site_def) (synode : synode_no)
  : option site_ptr :=
  match l with
  | [] => None
  | s :: l' =>
      match find_next_from (S i) l' synode with
      | Some r => Some r
      | None => if synode_gt (start s) synode then Some (i, s) else None
      end
  end.

Definition find_next_site_def (site_defs : list site_def) (synode : synode_no)
  : option site_ptr :=
  find_next_from 0 site_defs synode.

(** The history is in reverse start order: no site starts after one that
    precedes it in the list. *)
Fixpoint reverse_start_order (l : list site_def) : bool :=
  match l with
  | [] => true
  | s :: l' =>
      forallb (fun t => negb (synode_gt (start t) (start s))) l'
      && reverse_start_order l'
  end.

(** ** Definition of majority *)

(** The counting loop of [majority]: the number of set bits below [i]. *)
Fixpoint count_answered (nodeset : bit_set) (i : nat) : Z :=
  match i with
  | O => 0
  | S j => count_answered nodeset j
           + (if BIT_ISSET (Z.of_nat j) nodeset then 1 else 0)
  end.

Definition max_check (site : option site_def) : Z := get_maxnodes site.

(** [majority nodeset s all delay force]; the global [forced_config] is the
    first argument.  [all], [delay] and [force] are C ints used as truth
    values. *)
Definition majority (forced_config : option site_def) (nodeset : bit_set)
    (s : option site_def) (all : bool) (delay : bool) (force : bool) : bool :=
  let max := max_check s in
  let ok := count_answered nodeset (Z.to_nat max) in
  if force then ok =? get_maxnodes forced_config
  else if all then ok =? max else ok >? max / 2.

(** The spec's reading of the answered set: the members of the site, by
    position, whose bit is set. *)
Definition answered (nodeset : bit_set) (s : option site_def) : gset nat :=
  list_to_set
    (filter (fun i => BIT_ISSET (Z.of_nat i) nodeset = true)
       (seq 0 (Z.to_nat (get_maxnodes s)))).

(** Modelled from the spec: node_exists is defined outside xcom_base.cc; a
    node is in a list when its address matches an entry ("the local address
    matches a new member"). *)
Definition node_exists (name : node_address) (l : list node_address) : bool :=
  existsb (fun n => String.eqb (address n) (address name)) l.

(** Member [i] of [site] answered and is also a node of the forced
    configuration [fc]. *)
Definition answered_by_forced_member (fc site : site_def) (nodeset : bit_set)
    (i : nat) : bool :=
  BIT_ISSET (Z.of_nat i) nodeset
  && match nodes site !! i with
     | Some n => node_exists n (nodes fc)
     | None => false
     end.

(** The answered set restricted to the members that are also nodes of the
    forced configuration (the spec's "responses from nodes absent in
    forced_config are ignored"). *)
Definition answered_in_forced (forced_config : option site_def)
    (nodeset : bit_set) (s : option site_def) : gset nat :=
  match s, forced_config with
  | Some site, Some fc =>
      list_to_set
        (filter (fun i => answered_by_forced_member fc site nodeset i = true)
           (seq 0 (length (nodes site))))
  | _, _ => ∅
  end.

(** ** Paxos machines *)

(** A pointer to a [pax_msg] is an address in the message store. *)
Record proposer_t : Type := mk_proposer {
  bal : ballot;
  prep_nodeset : bit_set;
  sent_prop : ballot;
  prop_nodeset : bit_set;
  prop_msg : option nat;
  sent_learn : ballot
}.

Record acceptor_t : Type := mk_acceptor {
  promise : ballot;
  acc_msg : option nat
}.

Record learner_t : Type := mk_learner {
  lrn_msg : option nat
}.

(** pax_machine.  [last_modified] is a double holding a time stamp;
    [force_delivery] and [enforcer] are C ints used as truth values. *)
Record pax_machine : Type := mk_pax_machine {
  synode : synode_no;
  last_modified : Q;
  proposer : proposer_t;
  acceptor : acceptor_t;
  learner : learner_t;
  op : pax_op;
  force_delivery : bool;
  enforcer : bool
}.

Definition set_last_modified (t : Q) (p : pax_machine) : pax_machine :=
  mk_pax_machine (synode p) t (proposer p) (acceptor p) (learner p) (op p)
    (force_delivery p) (enforcer p).

Definition set_proposer (x : proposer_t) (p : pax_machine) : pax_machine :=
  mk_pax_machine (synode p) (last_modified p) x (acceptor p) (learner p) (op p)
    (force_delivery p) (enforcer p).

Definition set_acceptor (x : acceptor_t) (p : pax_machine) : pax_machine :=
  mk_pax_machine (synode p) (last_modified p) (proposer p) x (learner p) (op p)
    (force_delivery p) (enforcer p).

Definition set_learner (x : learner_t) (p : pax_machine) : pax_machine :=
  mk_pax_machine (synode p) (last_modified p) (proposer p) (acceptor p) x (op p)
    (force_delivery p) (enforcer p).

Definition set_force (f e : bool) (p : pax_machine) : pax_machine :=
  mk_pax_machine (synode p) (last_modified p) (proposer p) (acceptor p)
    (learner p) (op p) f e.

Definition set_bal (b : ballot) (x : proposer_t) : proposer_t :=
  mk_proposer b (prep_nodeset x) (sent_prop x) (prop_nodeset x) (prop_msg x)
    (sent_learn x).

Definition set_prep_nodeset (s : bit_set) (x : proposer_t) : proposer_t :=
  mk_proposer (bal x) s (sent_prop x) (prop_nodeset x) (prop_msg x)
    (sent_learn x).

Definition set_sent_prop (b : ballot) (x : proposer_t) : proposer_t :=
  mk_proposer (bal x) (prep_nodeset x) b (prop_nodeset x) (prop_msg x)
    (sent_learn x).

Definition set_prop_nodeset (s : bit_set) (x : proposer_t) : proposer_t :=
  mk_proposer (bal x) (prep_nodeset x) (sent_prop x) s (prop_msg x)
    (sent_learn x).

Definition set_prop_msg (m : option nat) (x : proposer_t) : proposer_t :=
  mk_proposer (bal x) (prep_nodeset x) (sent_prop x) (prop_nodeset x) m
    (sent_learn x).

(** Calls that leave the machine, in the order the handlers make them. *)
Inductive event : Type :=
| Ev_task_wakeup (s : synode_no)
| Ev_activate_sweeper
| Ev_add_cache_size (s : synode_no)
| Ev_shrink_cache
| Ev_xcom_fsm_net_boot (a : app_data)
| Ev_start_force_config (c_t : cargo_type) (a : app_data)
| Ev_log_ignored_forced_config (a : app_data)
| Ev_update_max_synode (m : pax_msg)
| Ev_send_read (s : synode_no)
| Ev_send_propose_msg (m : pax_msg)
| Ev_send_reply (m : pax_msg)
| Ev_prepare_msg (m : pax_msg)
| Ev_oom_abort.

(** What a handler works on: the machine [p] it is given, the store of
    messages, and the calls made so far. *)
Record world : Type := mk_world {
  w_p : pax_machine;
  w_msgs : gmap nat pax_msg;
  w_out : list event
}.

Definition with_p (p : pax_machine) (w : world) : world :=
  mk_world p (w_msgs w) (w_out w).

Definition with_msgs (h : gmap nat pax_msg) (w : world) : world :=
  mk_world (w_p w) h (w_out w).

Definition emit (e : event) (w : world) : world :=
  mk_world (w_p w) (w_msgs w) (w_out w ++ [e]).

(** [*q] for a message pointer [q]. *)
Definition msg_at (w : world) (q : nat) : pax_msg := w_msgs w !!! q.

Definition is_learn_op (o : pax_op) : bool :=
  bool_decide (o = learn_op) || bool_decide (o = tiny_learn_op).

Definition finished (w : world) : bool :=
  match lrn_msg (learner (w_p w)) with
  | Some q => is_learn_op (m_op (msg_at w q))
  | None => false
  end.

Definition accepted (w : world) : bool :=
  match acc_msg (acceptor (w_p w)) with
  | Some q => negb (bool_decide (m_op (msg_at w q) = initial_op))
  | None => false
  end.

Definition accepted_noop (w : world) : bool :=
  accepted w
  && match acc_msg (acceptor (w_p w)) with
     | Some q => bool_decide (m_msg_type (msg_at w q) = no_op)
     | None => false
     end.

Definition noop_match (w : world) (pm : nat) : bool :=
  bool_decide (m_msg_type (msg_at w pm) = no_op) && accepted_noop w.

(** IS_CONS_ALL(p); [None] when [p->proposer.msg] is null. *)
Definition IS_CONS_ALL (w : world) : option bool :=
  q ← prop_msg (proposer (w_p w));
  Some match m_a (msg_at w q) with
       | Some a => bool_decide (a_consensus a = cons_all)
       | None => false
       end.

Definition prep_majority (forced_config : option site_def)
    (site : option site_def) (w : world) : option bool :=
  q ← prop_msg (proposer (w_p w));
  all ← IS_CONS_ALL w;
  Some (majority forced_config (prep_nodeset (proposer (w_p w))) site all
          (cnt (bal (proposer (w_p w))) =? 1)
          (m_force_delivery (msg_at w q) || force_delivery (w_p w))).

Definition prop_majority (forced_config : option site_def)
    (site : option site_def) (w : world) : option bool :=
  q ← prop_msg (proposer (w_p w));
  all ← IS_CONS_ALL w;
  Some (majority forced_config (prop_nodeset (proposer (w_p w))) site all
          (cnt (bal (proposer (w_p w))) =? 1)
          (m_force_delivery (msg_at w q) || force_delivery (w_p w))).

(** ** Message handlers *)

Section Xcom.

(** copy_app_data is defined outside xcom_base.cc; it returns the copy
    of a payload, or null when memory is exhausted. *)
Variable copy_app_data : option app_data -> option app_data.

(** EVENT_HORIZON_MIN is a constant of a header outside xcom_base.cc. *)
Variable EVENT_HORIZON_MIN : Z.

(** Numeric values of the protocol versions the code compares against
    ("at least version 5 (x_1_4)"; later versions are numbered
    consecutively). *)
Definition x_1_4 : Z := 5.
Definition x_1_8 : Z := 9.

Definition first_protocol_that_ignores_intermediate_forced_configs_or_views
  : Z := x_1_8.

Definition should_ignore_forced_config_or_view (protocol_version : Z) : bool :=
  protocol_version
  >=? first_protocol_that_ignores_intermediate_forced_configs_or_views.

(** [p->op = op; p->reply_to = p->proposal] *)
Definition prepare (o : pax_op) (m : pax_msg) : pax_msg :=
  set_m_reply_to (m_proposal m) (set_m_op o m).

Definition skip_value (m : pax_msg) : pax_msg :=
  set_m_msg_type no_op (set_m_op learn_op m).

Definition set_learn_type (m : pax_msg) : pax_msg :=
  set_m_msg_type (match m_a m with Some _ => normal | None => no_op end)
    (set_m_op learn_op m).

Definition brand_app_data (m : pax_msg) : pax_msg :=
  match m_a m with
  | Some a => set_m_a (Some (set_a_key (m_synode m) a)) m
  | None => m
  end.

Definition init_propose_msg (m : pax_msg) : pax_msg :=
  brand_app_data (set_m_reply_to (m_proposal m) (set_m_op accept_op m)).

Definition init_learn_msg (m : pax_msg) : pax_msg :=
  brand_app_data (set_m_reply_to (m_proposal (set_learn_type m))
                    (set_learn_type m)).

(** CLONE_PAX_MSG: a fresh copy of the message without its payload. *)
Definition CLONE_PAX_MSG (x : pax_msg) : pax_msg := set_m_a None x.

(** [safe_app_data_copy(&target, source)]: the target with the copied
    payload, or null (and [oom_abort] raised) when the copy failed. *)
Definition safe_app_data_copy (w : world) (target : pax_msg)
    (source : option app_data) : world * option pax_msg :=
  match copy_app_data source, source with
  | None, Some _ => (emit Ev_oom_abort w, None)
  | c, _ => (w, Some (set_m_a c target))
  end.

Definition create_learn_msg_for_ignorant_node (w : world) (pm : nat)
    (synode : synode_no) : option (world * option pax_msg) :=
  q ← lrn_msg (learner (w_p w));
  let lm := msg_at w q in
  let reply := CLONE_PAX_MSG (msg_at w pm) in
  let reply := set_m_synode synode reply in
  let reply := set_m_proposal (m_proposal lm) reply in
  let reply := set_m_msg_type (m_msg_type lm) reply in
  let '(w, reply) := safe_app_data_copy w reply (m_a lm) in
  Some (w, set_learn_type <$> reply).

(** SEND_REPLY, when the reply is not null. *)
Definition send_reply (r : world * option pax_msg) : world :=
  match r.2 with
  | Some reply => emit (Ev_send_reply reply) r.1
  | None => r.1
  end.

Definition teach_ignorant_node (w : world) (pm : nat) (synode : synode_no)
  : option world :=
  send_reply <$> create_learn_msg_for_ignorant_node w pm synode.

Definition handle_read (w : world) (pm : nat) : option world :=
  if finished w then teach_ignorant_node w pm (m_synode (msg_at w pm))
  else Some w.

Definition create_ack_prepare_msg (w : world) (pm : nat) (synode : synode_no)
  : option (world * option pax_msg) :=
  let reply := set_m_synode synode (CLONE_PAX_MSG (msg_at w pm)) in
  if accepted w then
    q ← acc_msg (acceptor (w_p w));
    let am := msg_at w q in
    let reply := set_m_proposal (m_proposal am) reply in
    let reply := set_m_msg_type (m_msg_type am) reply in
    let reply := set_m_op ack_prepare_op reply in
    Some (safe_app_data_copy w reply (m_a am))
  else Some (w, Some (set_m_op ack_prepare_empty_op reply)).

(** [now] is the value of task_now() at the call. *)
Definition handle_simple_prepare (now : Q) (w : world) (pm : nat)
    (synode : synode_no) : option (world * option pax_msg) :=
  if finished w then create_learn_msg_for_ignorant_node w pm synode
  else
    let greater :=
      gt_ballot (m_proposal (msg_at w pm)) (promise (acceptor (w_p w))) in
    if greater || noop_match w pm then
      let w := with_p (set_last_modified now (w_p w)) w in
      let w :=
        if greater then
          with_p (set_acceptor
                    (mk_acceptor (m_proposal (msg_at w pm))
                       (acc_msg (acceptor (w_p w)))) (w_p w)) w
        else w in
      create_ack_prepare_msg w pm synode
    else Some (w, None).

Definition handle_prepare (now : Q) (w : world) (pm : nat) : option world :=
  send_reply <$> handle_simple_prepare now w pm (m_synode (msg_at w pm)).

Definition create_ack_accept_msg (m : pax_msg) (synode : synode_no)
    (skip_flag : bool) : pax_msg :=
  let reply := CLONE_PAX_MSG m in
  let reply :=
    if skip_flag then set_m_op multi_ack_accept_op reply
    else set_m_op ack_accept_op reply in
  set_m_synode synode reply.

Definition handle_simple_accept (now : Q) (w : world) (m : nat)
    (synode : synode_no) (skip_flag : bool) : option (world * option pax_msg) :=
  if finished w then create_learn_msg_for_ignorant_node w m synode
  else if negb (gt_ballot (promise (acceptor (w_p w)))
                  (m_proposal (msg_at w m)))
          || noop_match w m then
    let w := with_p (set_last_modified now (w_p w)) w in
    let w := with_p (set_acceptor (mk_acceptor (promise (acceptor (w_p w)))
                                     (Some m)) (w_p w)) w in
    Some (w, Some (create_ack_accept_msg (msg_at w m) synode skip_flag))
  else Some (w, None).

Definition do_learn (w : world) (m : nat) : world :=
  let w :=
    match m_a (msg_at w m) with
    | Some a =>
        with_msgs (<[ m := set_m_a (Some (set_a_chosen true a)) (msg_at w m) ]>
                     (w_msgs w)) w
    | None => w
    end in
  let p := w_p w in
  let p := set_acceptor (mk_acceptor (promise (acceptor p)) (Some m)) p in
  let p := set_learner (mk_learner (Some m)) p in
  emit Ev_shrink_cache (emit (Ev_add_cache_size (synode p)) (with_p p w)).

(** handle_learn.  The installers handle_add_node, handle_remove_node and
    install_node_group and the call of start_force_config on their result are
    recorded as one event carrying the command; what start_force_config does
    to a machine of the cache is [force_pax_machine] below, followed by the
    clearing of both node sets. *)
Definition handle_learn (site_defs : list site_def) (now : Q) (w : world)
    (m : nat) : option world :=
  let w := with_p (set_last_modified now (w_p w)) w in
  w ← (if finished w then Some w
       else
         let w := emit Ev_activate_sweeper w in
         let w := do_learn w m in
         let msg := msg_at w m in
         let w :=
           match m_a msg with
           | Some a =>
               if bool_decide (a_c_t a = unified_boot_type)
               then emit (Ev_xcom_fsm_net_boot a) w else w
           | None => w
           end in
         match m_a msg with
         | Some a =>
             if m_force_delivery msg then
               match a_c_t a with
               | add_node_type | remove_node_type =>
                   site ← find_site_def site_defs (synode (w_p w));
                   if should_ignore_forced_config_or_view (x_proto site.2)
                   then Some (emit (Ev_log_ignored_forced_config a) w)
                   else Some (emit (Ev_start_force_config (a_c_t a) a) w)
               | force_config_type =>
                   Some (emit (Ev_start_force_config force_config_type a) w)
               | _ => Some w
               end
             else Some w
         | None => Some w
         end);
  Some (emit (Ev_task_wakeup (synode (w_p w))) w).

Definition handle_tiny_learn (site_defs : list site_def) (now : Q) (w : world)
    (m : nat) : option world :=
  match acc_msg (acceptor (w_p w)) with
  | Some q =>
      if eq_ballot (m_proposal (msg_at w q)) (m_proposal (msg_at w m)) then
        let w := with_msgs (<[ q := set_m_op learn_op (msg_at w q) ]> (w_msgs w))
                   w in
        let w := with_p (set_last_modified now (w_p w)) w in
        let w := emit (Ev_update_max_synode (msg_at w m)) w in
        handle_learn site_defs now w q
      else Some (emit (Ev_send_read (m_synode (msg_at w m))) w)
  | None => Some (emit (Ev_send_read (m_synode (msg_at w m))) w)
  end.

Definition handle_skip (now : Q) (w : world) (m : nat) : world :=
  let w :=
    if negb (finished w) then
      let w := with_p (set_last_modified now (w_p w)) w in
      let w := with_msgs (<[ m := skip_value (msg_at w m) ]> (w_msgs w)) w in
      do_learn w m
    else w in
  emit (Ev_task_wakeup (synode (w_p w))) w.

Definition check_propose (forced_config : option site_def)
    (site : option site_def) (w : world) : option (world * bool) :=
  ok ← prep_majority forced_config site w;
  q ← prop_msg (proposer (w_p w));
  if (ok : bool) then
    let p := w_p w in
    let msg := set_m_proposal (bal (proposer p)) (msg_at w q) in
    let p := set_proposer (set_prop_nodeset (BIT_ZERO (prop_nodeset (proposer p)))
                             (proposer p)) p in
    let msg := init_propose_msg (set_m_synode (synode p) msg) in
    let p := set_proposer (set_sent_prop (bal (proposer p)) (proposer p)) p in
    Some (mk_world p (<[ q := msg ]> (w_msgs w)) (w_out w), true)
  else Some (w, false).

Definition handle_simple_ack_prepare (forced_config : option site_def)
    (site : option site_def) (w : world) (m : nat) : option (world * bool) :=
  let w :=
    if negb (get_nodeno site =? VOID_NODE_NO) then
      with_p (set_proposer
                (set_prep_nodeset
                   (BIT_SET (m_from (msg_at w m))
                      (prep_nodeset (proposer (w_p w))))
                   (proposer (w_p w))) (w_p w)) w
    else w in
  w ← (if bool_decide (m_op (msg_at w m) = ack_prepare_op) then
         q ← prop_msg (proposer (w_p w));
         if gt_ballot (m_proposal (msg_at w m)) (m_proposal (msg_at w q))
         then Some (with_p (set_proposer
                              (set_prop_msg (Some m) (proposer (w_p w)))
                              (w_p w)) w)
         else Some w
       else Some w);
  if gt_ballot (m_reply_to (msg_at w m)) (sent_prop (proposer (w_p w)))
  then check_propose forced_config site w
  else Some (w, false).

Definition handle_ack_prepare (forced_config : option site_def)
    (site : option site_def) (w : world) (m : nat) : option world :=
  if finished w then Some w
  else if negb (m_from (msg_at w m) =? VOID_NODE_NO)
          && eq_ballot (bal (proposer (w_p w))) (m_reply_to (msg_at w m)) then
    r ← handle_simple_ack_prepare forced_config site w m;
    let w := (r : world * bool).1 in
    if r.2 then
      q ← prop_msg (proposer (w_p w));
      Some (emit (Ev_send_propose_msg (msg_at w q)) w)
    else Some w
  else Some w.

(** ** Forced configurations *)

(** [force_pax_machine(p, enforcer)].  The division is C's (truncating); the
    sum is stored in an int32_t. *)
Definition force_pax_machine (p : pax_machine) (enforcer_arg : bool)
  : pax_machine :=
  let p :=
    if negb (enforcer p) then
      if enforcer_arg then
        let b := bal (proposer p) in
        let delta := i32 ((INT32_MAX - MAX (cnt b) 0) ÷ 3) in
        set_proposer
          (set_bal (mk_ballot (i32 (cnt b + delta)) (bal_node b)) (proposer p))
          p
      else p
    else p in
  set_force true enforcer_arg p.

(** The body of the loop of [force_interval] for one machine of the cache:
    the enforcer mark of an already forcing machine is extended, the machine
    is forced, and its old node sets are cleared.  The result carries the
    enforcer flag for the next machine. *)
Definition force_interval_step (p : pax_machine) (enforcer_arg : bool)
  : pax_machine * bool :=
  let enforcer_arg := if enforcer p then true else enforcer_arg in
  let p := force_pax_machine p enforcer_arg in
  let x := proposer p in
  let x := set_prep_nodeset (BIT_ZERO (prep_nodeset x)) x in
  let x := set_prop_nodeset (BIT_ZERO (prop_nodeset x)) x in
  (set_proposer x p, enforcer_arg).

(** ** Pushing a value (proposer side) *)

Definition prepare_push_3p (site : option site_def) (p : pax_machine)
    (msg : pax_msg) (msgno_arg : synode_no) (msg_type : pax_msg_type)
  : pax_machine * pax_msg :=
  let x := proposer p in
  let x := set_prep_nodeset (BIT_ZERO (prep_nodeset x)) x in
  let maxcnt := MAX (cnt (bal x)) (cnt (promise (acceptor p))) in
  let x := set_bal (mk_ballot (i32 (maxcnt + 1)) (get_nodeno site)) x in
  let p := set_proposer x p in
  let msg := set_m_synode msgno_arg msg in
  let msg := set_m_proposal (bal x) msg in
  let msg := set_m_msg_type msg_type msg in
  let msg := set_m_force_delivery (force_delivery p) msg in
  (p, msg).

(** What [push_msg_3p] hands over to [prepare_msg]: the message with its
    operation set, sent to the acceptors. *)
Definition init_prepare_msg (m : pax_msg) : pax_msg := prepare prepare_op m.

Definition push_msg_3p (wait_forced_config : bool) (site : option site_def)
    (p : pax_machine) (msg : pax_msg) (msgno_arg : synode_no)
    (msg_type : pax_msg_type) : pax_machine * pax_msg :=
  let p := if wait_forced_config then force_pax_machine p true else p in
  let '(p, msg) := prepare_push_3p site p msg msgno_arg msg_type in
  (p, init_prepare_msg msg).

(** ** The event horizon *)

(** The loop of [first_event_horizon_reconfig].  Every iteration moves to a
    site that starts later, so the length of the history bounds the number of
    iterations; [None] is "out of fuel". *)
Fixpoint first_event_horizon_reconfig_loop (fuel : nat)
    (site_defs : list site_def) (active_event_horizon : Z)
    (next_config : option site_ptr) : option (option site_ptr) :=
  match next_config with
  | None => Some None
  | Some c =>
      if negb (active_event_horizon =? event_horizon c.2) then Some (Some c)
      else
        match fuel with
        | O => None
        | S fuel' =>
            first_event_horizon_reconfig_loop fuel' site_defs
              active_event_horizon
              (find_next_site_def site_defs (start c.2))
        end
  end.

(** [None] when there is no active configuration (a null dereference in C). *)
Definition first_event_horizon_reconfig (site_defs : list site_def)
    (executed_msg : synode_no) : option (option site_ptr) :=
  active_config ← find_site_def site_defs executed_msg;
  first_event_horizon_reconfig_loop (length site_defs) site_defs
    (event_horizon active_config.2)
    (find_next_site_def site_defs (start active_config.2)).

Definition is_latest_config (site_defs : list site_def) (config : site_ptr)
  : option bool :=
  latest_config ← get_site_def site_defs;
  Some (config.1 =? latest_config.1)%nat.

Definition too_far_threshold (executed_msg : synode_no)
    (active_event_horizon : Z) : Z :=
  u64 (msgno executed_msg + active_event_horizon).

Definition too_far_threshold_new_event_horizon_pending
    (site_defs : list site_def) (executed_msg : synode_no)
    (new_config : site_def) : option Z :=
  let last_executed := msgno executed_msg in
  active_config ← find_site_def site_defs executed_msg;
  let active_event_horizon := event_horizon active_config.2 in
  let possibly_unsafe_threshold := u64 (last_executed + active_event_horizon) in
  let start_new_event_horizon := msgno (start new_config) in
  let new_event_horizon := event_horizon new_config in
  let maximum_safe_threshold :=
    u64 (u64 (start_new_event_horizon - 1) + new_event_horizon) in
  Some (MIN possibly_unsafe_threshold maximum_safe_threshold).

Definition too_far (site_defs : list site_def) (executed_msg : synode_no)
    (s : synode_no) : option bool :=
  threshold ←
    match find_site_def site_defs executed_msg with
    | Some active_config =>
        pending_config ← first_event_horizon_reconfig site_defs executed_msg;
        latest ← is_latest_config site_defs active_config;
        let no_event_horizon_reconfig_pending :=
          match pending_config : option site_ptr with
          | None => true
          | Some _ => false
          end in
        if (latest : bool) || no_event_horizon_reconfig_pending then
          Some (too_far_threshold executed_msg (event_horizon active_config.2))
        else
          match pending_config with
          | Some c =>
              too_far_threshold_new_event_horizon_pending site_defs
                executed_msg c.2
          | None => None
          end
    | None => Some (too_far_threshold executed_msg EVENT_HORIZON_MIN)
    end;
  Some (msgno s >=? (threshold : Z)).

(** ** The executor *)

Definition FIFO_SIZE : Z := 1000.

(** delay_fifo: [df_n], [df_front] and [df_rear] are C ints, [df_q] the
    array of FIFO_SIZE synodes. *)
Record delay_fifo_t : Type := mk_delay_fifo {
  df_n : Z;
  df_front : Z;
  df_rear : Z;
  df_q : list synode_no
}.

Definition addone (i : Z) : Z := Z.rem (i + 1) FIFO_SIZE.

Definition fifo_empty (f : delay_fifo_t) : bool := df_n f <=? 0.

Definition fifo_full (f : delay_fifo_t) : bool := df_n f >=? FIFO_SIZE.

Definition fifo_insert (s : synode_no) (f : delay_fifo_t) : delay_fifo_t :=
  if negb (fifo_full f) then
    mk_delay_fifo (df_n f + 1) (df_front f) (addone (df_rear f))
      (<[ Z.to_nat (df_rear f) := s ]> (df_q f))
  else f.

Definition fifo_extract (f : delay_fifo_t) : synode_no * delay_fifo_t :=
  if negb (fifo_empty f) then
    (nth (Z.to_nat (df_front f)) (df_q f) null_synode,
     mk_delay_fifo (df_n f - 1) (addone (df_front f)) (df_rear f) (df_q f))
  else (null_synode, f).

Definition fifo_front (f : delay_fifo_t) : synode_no :=
  if negb (fifo_empty f) then nth (Z.to_nat (df_front f)) (df_q f) null_synode
  else null_synode.

(** Extraction of everything the queue holds, in order; the queue holds at
    most [fuel] entries. *)
Fixpoint fifo_drain (fuel : nat) (f : delay_fifo_t) : list synode_no :=
  match fuel with
  | O => []
  | S fuel' =>
      if fifo_empty f then []
      else (fifo_extract f).1 :: fifo_drain fuel' (fifo_extract f).2
  end.

(** The states of the executor: the function [xc->state] points to, null
    when the executor stops. *)
Inductive exec_fp : Type := x_fetch | x_execute | x_terminate.

#[global] Instance exec_fp_eq_dec : EqDecision exec_fp.
Proof. solve_decision. Defined.

Record execute_context : Type := mk_execute_context {
  exit_synode : synode_no;
  delivery_limit : synode_no;
  state : option exec_fp;
  exit_flag : bool;
  inform_index : Z
}.

(** The globals the executor reads and writes. *)
Record xcom_globals : Type := mk_xcom_globals {
  executed_msg : synode_no;
  delivered_msg : synode_no;
  max_synode : synode_no;
  site_defs : list site_def;
  delay_fifo : delay_fifo_t;
  sweeper_activations : nat
}.

(** [set_max_synode]: the assignment and the activation of the sweeper. *)
Definition set_max_synode (synode : synode_no) (g : xcom_globals)
  : xcom_globals :=
  mk_xcom_globals (executed_msg g) (delivered_msg g) synode (site_defs g)
    (delay_fifo g) (S (sweeper_activations g)).


Definition set_delay_fifo (f : delay_fifo_t) (g : xcom_globals)
  : xcom_globals :=
  mk_xcom_globals (executed_msg g) (delivered_msg g) (max_synode g)
    (site_defs g) f (sweeper_activations g).

Definition SET_EXECUTED_MSG (s : synode_no) (g : xcom_globals) : xcom_globals :=
  mk_xcom_globals s (delivered_msg g) (max_synode g) (site_defs g)
    (delay_fifo g) (sweeper_activations g).

Definition set_delivered_msg (s : synode_no) (g : xcom_globals)
  : xcom_globals :=
  mk_xcom_globals (executed_msg g) s (max_synode g) (site_defs g)
    (delay_fifo g) (sweeper_activations g).

Definition incr_synode (l : list site_def) (synode : synode_no) : synode_no :=
  let n := u32 (node synode + 1) in
  if n >=? get_maxnodes (snd <$> find_site_def l synode)
  then mk_synode (group_id synode) (u64 (msgno synode + 1)) 0
  else mk_synode (group_id synode) (msgno synode) n.

Definition incr_msgno (l : list site_def) (s : synode_no) : synode_no :=
  let ret := mk_synode (group_id s) (u64 (msgno s + 1)) (node s) in
  mk_synode (group_id ret) (msgno ret)
    (get_nodeno (snd <$> find_site_def l ret)).





Definition x_check_exit (g : xcom_globals) (xc : execute_context) : bool :=
  exit_flag xc
  && negb (synode_lt (executed_msg g) (exit_synode xc))
  && negb (synode_lt (delivered_msg g) (delivery_limit xc)).

Definition set_state (st : option exec_fp) (xc : execute_context)
  : execute_context :=
  mk_execute_context (exit_synode xc) (delivery_limit xc) st (exit_flag xc)
    (inform_index xc).

(** The loop of [x_check_execute_inform]: entries of the queue that
    [executed_msg] has reached are extracted, one inform index each.  The
    sends of inform_removed and the collection of servers leave the state
    modelled here unchanged. *)
Fixpoint x_check_execute_inform_loop (fuel : nat) (g : xcom_globals)
    (xc : execute_context) : xcom_globals * execute_context :=
  match fuel with
  | O => (g, xc)
  | S fuel' =>
      if negb (fifo_empty (delay_fifo g))
         && negb (synode_lt (executed_msg g) (fifo_front (delay_fifo g)))
      then
        x_check_execute_inform_loop fuel'
          (set_delay_fifo (fifo_extract (delay_fifo g)).2 g)
          (mk_execute_context (exit_synode xc) (delivery_limit xc) (state xc)
             (exit_flag xc) (inform_index xc - 1))
      else (g, xc)
  end.

(** Every iteration removes an entry, so the number of entries bounds the
    number of iterations. *)
Definition x_check_execute_inform (g : xcom_globals) (xc : execute_context)
  : xcom_globals * execute_context * bool :=
  if fifo_empty (delay_fifo g) then (g, xc, true)
  else if negb (synode_lt (executed_msg g) (fifo_front (delay_fifo g))) then
    (x_check_execute_inform_loop (Z.to_nat (df_n (delay_fifo g))) g xc, true)
  else (g, xc, false).

Definition x_check_increment_fetch (g : xcom_globals) (xc : execute_context)
  : xcom_globals * execute_context :=
  if x_check_exit g xc then (g, set_state (Some x_terminate) xc)
  else
    let g := SET_EXECUTED_MSG (incr_synode (site_defs g) (executed_msg g)) g in
    let '(g, xc, inform) := x_check_execute_inform g xc in
    if inform : bool then (g, set_state (Some x_execute) xc) else (g, xc).

Definition x_check_increment_execute (g : xcom_globals) (xc : execute_context)
  : xcom_globals * execute_context :=
  if x_check_exit g xc then (g, set_state (Some x_terminate) xc)
  else
    let g := set_delivered_msg (incr_synode (site_defs g) (delivered_msg g)) g in
    if synode_eq (delivered_msg g) (executed_msg g)
    then (g, set_state (Some x_fetch) xc) else (g, xc).

Definition x_terminate_step (xc : execute_context) : execute_context :=
  set_state None xc.

(** ** The proposer's waiting loop *)

(** The loop [while (retval > maximum_threshold) retval /= 1.3]; [None] is
    "out of fuel". *)
Fixpoint wakeup_delay_reduce (fuel : nat) (retval maximum_threshold : float)
  : option float :=
  if PrimFloat.ltb maximum_threshold retval then
    match fuel with
    | O => None
    | S fuel' =>
        wakeup_delay_reduce fuel' (PrimFloat.div retval 1.3%float)
          maximum_threshold
    end
  else Some retval.

(** [wakeup_delay(site, old)], operation for operation. *)
Definition wakeup_delay (fuel : nat) (site : site_def) (old : float)
  : option float :=
  let retval :=
    if PrimFloat.eqb 0%float old
    then PrimFloat.add 0.001%float (max_conn_rtt site)
    else PrimFloat.mul old 1.4%float in
  let minimum_threshold := 0.005%float in
  let maximum_threshold := 0.5%float in
  let candidate_threshold := PrimFloat.mul (max_conn_rtt site) 10%float in
  let candidate_threshold :=
    if PrimFloat.ltb candidate_threshold minimum_threshold
    then minimum_threshold else candidate_threshold in
  let maximum_threshold :=
    if PrimFloat.ltb candidate_threshold maximum_threshold
    then candidate_threshold else maximum_threshold in
  wakeup_delay_reduce fuel retval maximum_threshold.

(** The variables of [proposer_task] that its waiting loop uses. *)
Record proposer_env : Type := mk_proposer_env {
  ep_msgno : synode_no;
  ep_prepare_msg : pax_msg;
  ep_start_push : float;
  ep_delay : float;
  ep_site : option site_def
}.

(** How one pass through the body of [while (!finished(ep->p))] ends. *)
Inductive wait_result : Type :=
| Wait_retry_new
| Wait_break
| Wait_continue (ep : proposer_env) (w : world).

(** One pass: the task sleeps for the new delay, wakes up at time [now] with
    the machine as [w] holds it, and pushes again when three seconds have
    gone by since the last push.  [None] when the site is null or the delay
    loop runs out of fuel. *)
Definition proposer_wait_pass (fuel : nat) (wait_forced_config : bool)
    (ep : proposer_env) (w : world) (now : float) : option wait_result :=
  site ← ep_site ep;
  delay ← wakeup_delay fuel site (ep_delay ep);
  let ep := mk_proposer_env (ep_msgno ep) (ep_prepare_msg ep) (ep_start_push ep)
              delay (ep_site ep) in
  if negb (synode_eq (ep_msgno ep) (synode (w_p w)))
     || negb (bool_decide (is_Some (prop_msg (proposer (w_p w)))))
  then Some Wait_retry_new
  else if finished w then Some Wait_break
  else if PrimFloat.leb (PrimFloat.add (ep_start_push ep) 3.0%float) now then
    let '(p, msg) := push_msg_3p wait_forced_config (ep_site ep) (w_p w)
                       (ep_prepare_msg ep) (ep_msgno ep) normal in
    let ep := mk_proposer_env (ep_msgno ep) msg now (ep_delay ep) (ep_site ep) in
    Some (Wait_continue ep (emit (Ev_prepare_msg msg) (with_p p w)))
  else Some (Wait_continue ep w).

(** ** Validation of configuration changes *)

(** Functions and constants the validation calls that are defined outside
    xcom_base.cc: the upper bound of the event horizon, the protocol version
    from which IPv6 is understood, the parser of "address:port" ([None] when
    it reports an error), the reachability test, the failure detector's
    questions, and the position of an address in a site. *)
Variable EVENT_HORIZON_MAX : Z.
Variable minimum_ipv6_version : Z.
Variable get_ip_and_port : string -> option (string * Z).
Variable is_node_v4_reachable : string -> bool.
Variable ask_for_detector_if_added_ok : list node_address -> bool.
Variable find_nodeno : option site_def -> string -> Z.
Variable may_be_dead : site_def -> Z -> bool.

Definition backwards_compatible (event_horizon_arg : Z) : bool :=
  event_horizon_arg =? EVENT_HORIZON_MIN.

Definition first_event_horizon_aware_protocol : Z := x_1_4.

Definition reconfigurable_event_horizon (protocol_version : Z) : bool :=
  protocol_version >=? first_event_horizon_aware_protocol.

Fixpoint add_node_unsafe_against_ipv4_old_nodes_loop
    (nodes_to_add : list node_address) : bool :=
  match nodes_to_add with
  | [] => false
  | n :: rest =>
      match get_ip_and_port (address n) with
      | None => true
      | Some (node_addr, _) =>
          if negb (is_node_v4_reachable node_addr) then true
          else add_node_unsafe_against_ipv4_old_nodes_loop rest
      end
  end.

Definition add_node_unsafe_against_ipv4_old_nodes (l : list site_def)
    (a : app_data) : bool :=
  match get_site_def l with
  | Some latest_config =>
      if x_proto latest_config.2 >=? minimum_ipv6_version then false
      else add_node_unsafe_against_ipv4_old_nodes_loop (a_nodes a)
  | None => add_node_unsafe_against_ipv4_old_nodes_loop (a_nodes a)
  end.

(** [identity] is the result of cfg_app_xcom_get_identity(). *)
Definition add_node_adding_own_address (identity : node_address)
    (a : app_data) : bool :=
  node_exists identity (a_nodes a).

Definition unsafe_against_event_horizon (l : list site_def)
    (n : node_address) : option bool :=
  if reconfigurable_event_horizon (max_proto n) then Some false
  else
    latest_config ← get_site_def l;
    Some (negb (backwards_compatible (event_horizon latest_config.2))).

Fixpoint add_node_unsafe_against_event_horizon_loop (l : list site_def)
    (nodes_to_add : list node_address) : option bool :=
  match nodes_to_add with
  | [] => Some false
  | n :: rest =>
      unsafe ← unsafe_against_event_horizon l n;
      if (unsafe : bool) then Some true
      else add_node_unsafe_against_event_horizon_loop l rest
  end.

Definition add_node_unsafe_against_event_horizon (l : list site_def)
    (a : app_data) : option bool :=
  add_node_unsafe_against_event_horizon_loop l (a_nodes a).

(** The loop of [allow_add_node] that looks for an old incarnation. *)
Fixpoint allow_add_node_loop (l : list site_def) (executed : synode_no)
    (nodes_to_change : list node_address) : option bool :=
  match nodes_to_change with
  | [] => Some false
  | n :: rest =>
      new_site_def ← get_site_def l;
      if node_exists n (nodes new_site_def.2) then Some true
      else
        valid_site_def ← find_site_def l executed;
        if node_exists n (nodes valid_site_def.2) then Some true
        else allow_add_node_loop l executed rest
  end.

Definition allow_add_node (l : list site_def) (executed : synode_no)
    (a : app_data) : option bool :=
  unsafe ← add_node_unsafe_against_event_horizon l a;
  if (unsafe : bool) then Some false
  else if add_node_unsafe_against_ipv4_old_nodes l a then Some false
  else
    old_incarnation ← allow_add_node_loop l executed (a_nodes a);
    if (old_incarnation : bool) then Some false
    else if negb (ask_for_detector_if_added_ok (a_nodes a)) then Some false
    else Some true.

(** Modelled from the spec: node_exists_with_uid is defined outside
    xcom_base.cc; "already present by UID or by address" - the address and
    the UID both match. *)
Definition node_exists_with_uid (name : node_address) (l : list node_address)
  : bool :=
  existsb (fun n => String.eqb (address n) (address name)
                    && String.eqb (uuid n) (uuid name)) l.

Fixpoint allow_remove_node_loop (new_site_def : site_def)
    (nodes_to_change : list node_address) : bool :=
  match nodes_to_change with
  | [] => true
  | n :: rest =>
      if negb (node_exists_with_uid n (nodes new_site_def)) then false
      else allow_remove_node_loop new_site_def rest
  end.

Definition allow_remove_node (l : list site_def) (a : app_data) : option bool :=
  match a_nodes a with
  | [] => Some true
  | _ => new_site_def ← get_site_def l;
         Some (allow_remove_node_loop new_site_def.2 (a_nodes a))
  end.

Inductive allow_event_horizon_result : Type :=
| EVENT_HORIZON_ALLOWED | EVENT_HORIZON_INVALID | EVENT_HORIZON_UNCHANGEABLE.

Definition allow_event_horizon (l : list site_def) (event_horizon_arg : Z)
  : option allow_event_horizon_result :=
  if (event_horizon_arg <? EVENT_HORIZON_MIN)
     || (event_horizon_arg >? EVENT_HORIZON_MAX)
  then Some EVENT_HORIZON_INVALID
  else
    latest_config ← get_site_def l;
    if negb (reconfigurable_event_horizon (x_proto latest_config.2))
    then Some EVENT_HORIZON_UNCHANGEABLE
    else Some EVENT_HORIZON_ALLOWED.

Definition unsafe_event_horizon_reconfiguration (l : list site_def)
    (a : app_data) : option bool :=
  error_code ← allow_event_horizon l (a_event_horizon a);
  Some match error_code with
       | EVENT_HORIZON_INVALID | EVENT_HORIZON_UNCHANGEABLE => true
       | EVENT_HORIZON_ALLOWED => false
       end.

Fixpoint are_there_dead_nodes_in_new_config_loop (l : list site_def)
    (nodes_to_change : list node_address) : option bool :=
  match nodes_to_change with
  | [] => Some false
  | n :: rest =>
      let site := snd <$> get_site_def l in
      let node_found := find_nodeno site (address n) in
      if node_found =? get_nodeno site
      then are_there_dead_nodes_in_new_config_loop l rest
      else if node_found =? VOID_NODE_NO then Some true
      else
        s ← site;
        if may_be_dead s node_found then Some true
        else are_there_dead_nodes_in_new_config_loop l rest
  end.

Definition are_there_dead_nodes_in_new_config (l : list site_def)
    (a : app_data) : option bool :=
  are_there_dead_nodes_in_new_config_loop l (a_nodes a).

(** [can_execute_cfgchange(p)], with the globals it reads: the identity of
    the local node, the history of sites and [executed_msg].  The model reads
    the node list of the command whatever its cargo type. *)
Definition can_execute_cfgchange (identity : node_address)
    (l : list site_def) (executed : synode_no) (p : pax_msg)
  : option client_reply_code :=
  if msgno executed <=? 2 then
    a ← m_a p;
    if add_node_adding_own_address identity a then Some REQUEST_FAIL
    else Some REQUEST_RETRY
  else
    match m_a p with
    | None => Some REQUEST_OK
    | Some a =>
        if negb (a_group_id a =? 0)
           && negb (a_group_id a =? group_id executed)
        then Some REQUEST_FAIL
        else
          add_ok ← (if bool_decide (a_c_t a = add_node_type)
                    then allow_add_node l executed a else Some true);
          if negb add_ok then Some REQUEST_FAIL
          else
            remove_ok ← (if bool_decide (a_c_t a = remove_node_type)
                         then allow_remove_node l a else Some true);
            if negb remove_ok then Some REQUEST_FAIL
            else
              unsafe_eh ← (if bool_decide (a_c_t a = set_event_horizon_type)
                           then unsafe_event_horizon_reconfiguration l a
                           else Some false);
              if (unsafe_eh : bool) then Some REQUEST_FAIL
              else
                dead ← (if bool_decide (a_c_t a = force_config_type)
                        then are_there_dead_nodes_in_new_config l a
                        else Some false);
                if (dead : bool) then Some REQUEST_FAIL else Some REQUEST_OK
    end.

(** ** Runs of a machine *)

(** The messages a machine is handed by dispatch_op, with the arguments of
    the handler.  For an accept the step is the acceptor's decision
    ([handle_simple_accept]) and the sending of its reply. *)
Inductive input : Type :=
| In_read (pm : nat)
| In_prepare (pm : nat)
| In_accept (m : nat) (skip_flag : bool)
| In_ack_prepare (forced_config site : option site_def) (m : nat)
| In_learn (m : nat)
| In_tiny_learn (m : nat)
| In_skip (m : nat).

(** An input together with what the globals hold when it is handled: the
    history of sites and the time. *)
Record arrival : Type := mk_arrival {
  arr_sites : list site_def;
  arr_now : Q;
  arr_input : input
}.

Definition handle (w : world) (x : arrival) : option world :=
  match arr_input x with
  | In_read pm => handle_read w pm
  | In_prepare pm => handle_prepare (arr_now x) w pm
  | In_accept m skip_flag =>
      send_reply <$> handle_simple_accept (arr_now x) w m
                       (m_synode (msg_at w m)) skip_flag
  | In_ack_prepare forced_config site m =>
      handle_ack_prepare forced_config site w m
  | In_learn m => handle_learn (arr_sites x) (arr_now x) w m
  | In_tiny_learn m => handle_tiny_learn (arr_sites x) (arr_now x) w m
  | In_skip m => Some (handle_skip (arr_now x) w m)
  end.

Fixpoint run (w : world) (l : list arrival) : option world :=
  match l with
  | [] => Some w
  | x :: l' => w' ← handle w x; run w' l'
  end.

(** What the learner holds: the ballot and the value of [learner.msg]. *)
Definition learned_value (w : world)
  : option (ballot * pax_msg_type * option app_data) :=
  q ← lrn_msg (learner (w_p w));
  Some (m_proposal (msg_at w q), m_msg_type (msg_at w q), m_a (msg_at w q)).

(** Two worlds agree on what the messages carry: the same ballot, type and
    payload at every address, and every message that was a learn message
    still is one. *)
Definition msgs_agree (w w' : world) : Prop :=
  forall q,
    m_proposal (msg_at w' q) = m_proposal (msg_at w q)
    /\ m_msg_type (msg_at w' q) = m_msg_type (msg_at w q)
    /\ m_a (msg_at w' q) = m_a (msg_at w q)
    /\ (is_learn_op (m_op (msg_at w q)) = true ->
        is_learn_op (m_op (msg_at w' q)) = true).

(** The learner of [w'] holds what the learner of [w] holds. *)
Definition same_learner (w w' : world) : Prop :=
  lrn_msg (learner (w_p w')) = lrn_msg (learner (w_p w))
  /\ learned_value w' = learned_value w
  /\ finished w' = true.

(** The number of sites of the history that start after [syn]. *)
Definition later_sites (l : list site_def) (syn : synode_no) : nat :=
  length (filter (fun c => synode_gt (start c) syn = true) l).



(** [k] divisions by [d], as the loops of [wakeup_delay] and
    [wakeup_delay_for_perf] perform them. *)
Fixpoint divided (d : float) (k : nat) (x : float) : float :=
  match k with
  | O => x
  | S k' => divided d k' (PrimFloat.div x d)
  end.

(** The place of a binary64 number in the order of the numbers: the
    numbers that are not NaN compare as their ranks do.  The rank of a
    positive number grows with its exponent and, for one exponent, with its
    mantissa; +infinity has rank 2^64, above every finite number; the two
    zeros (and NaN, which compares with nothing) have rank 0. *)
Definition SFrank (x : spec_float) : Z :=
  match x with
  | S754_zero _ | S754_nan => 0
  | S754_infinity s => if s then - 2 ^ 64 else 2 ^ 64
  | S754_finite s m e =>
      let r := (e + 1075) * 2 ^ 53 + Zpos m in if s then - r else r
  end.

Definition frank (x : float) : Z := SFrank (Prim2SF x).

(** ** Sample states

    Concrete sites, messages and machines; the examples at the end of the
    file run the model on them. *)

Definition sample_node (addr : string) : node_address :=
  mk_node_address addr EmptyString 1 10.

(** A site of [ns] that starts at message [start_msgno] with event horizon
    [eh]; the local node has number [local_nodeno] in it. *)
Definition sample_site (start_msgno eh local_nodeno : Z)
    (ns : list node_address) : site_def :=
  mk_site_def (mk_synode 1 start_msgno 0) (mk_synode 1 0 0) local_nodeno ns eh
    10 0.002%float.

Definition sample_site3 : site_def :=
  sample_site 1 10 0
    [sample_node "10.0.0.1:33061"; sample_node "10.0.0.2:33061";
     sample_node "10.0.0.3:33061"].

(** The forced configuration of nodes 0 and 1 of [sample_site3]. *)
Definition sample_forced_config : site_def :=
  sample_site 1 10 0
    [sample_node "10.0.0.1:33061"; sample_node "10.0.0.2:33061"].

(** A history with a pending reconfiguration of the event horizon: the site
    that starts at message 45 has horizon 2, the active one has 10. *)
Definition sample_history : list site_def :=
  [sample_site 45 2 0 (nodes sample_site3); sample_site3].


(** A configuration without members, which the local node is not part of. *)
Definition sample_empty_site : site_def := sample_site 100 10 VOID_NODE_NO [].

Definition sample_msg (o : pax_op) (t : pax_msg_type) (b : ballot)
    (a : option app_data) : pax_msg :=
  mk_pax_msg 0 1 null_synode b b o (mk_synode 1 7 0) t a REQUEST_OK false
    null_synode.

Definition sample_app_data (c : cargo_type) (ns : list node_address)
  : app_data :=
  mk_app_data null_synode 0 0 null_synode cons_majority false c ns 0 "x".

(** The store: 1 is an accepted no_op, 2 a no_op prepare with a small
    ballot, 3 a prepare with a large ballot, 4 a learned value, 5 a tiny
    learn for the ballot of 4. *)
Definition sample_msgs : gmap nat pax_msg :=
  <[ 1%nat := sample_msg accept_op no_op (mk_ballot 5 0) None ]>
  (<[ 2%nat := sample_msg prepare_op no_op (mk_ballot 3 1) None ]>
  (<[ 3%nat := sample_msg prepare_op normal (mk_ballot 7 1) None ]>
  (<[ 4%nat := sample_msg tiny_learn_op normal (mk_ballot 5 0)
                 (Some (sample_app_data app_type [])) ]>
  (<[ 5%nat := sample_msg tiny_learn_op normal (mk_ballot 5 0) None ]> ∅)))).

Definition sample_machine (acc lrn : option nat) : pax_machine :=
  mk_pax_machine (mk_synode 1 7 0) 0
    (mk_proposer (mk_ballot (-1) 0) [0] (mk_ballot 0 0) [0] None (mk_ballot 0 0))
    (mk_acceptor (mk_ballot 5 0) acc) (mk_learner lrn) initial_op false false.

(** A machine that has accepted the no_op, and one that has learned. *)
Definition sample_accepted : world :=
  mk_world (sample_machine (Some 1%nat) None) sample_msgs [].

Definition sample_learned : world :=
  mk_world (sample_machine (Some 4%nat) (Some 4%nat)) sample_msgs [].

Definition sample_arrivals : list arrival :=
  map (mk_arrival sample_history 1)
    [In_prepare 3; In_learn 3; In_tiny_learn 5; In_skip 2;
     In_ack_prepare None (Some sample_site3) 3; In_accept 3 false].

(** A full delay FIFO: a thousand insertions into the empty one. *)
Definition sample_full_fifo : delay_fifo_t :=
  Nat.iter 1000 (fun f => fifo_insert (mk_synode 1 (df_n f) 0) f)
    (mk_delay_fifo 0 0 0 (repeat null_synode 1000)).

Definition sample_globals : xcom_globals :=
  mk_xcom_globals (mk_synode 1 40 0) (mk_synode 1 40 0) (mk_synode 1 60 0)
    [sample_empty_site; sample_site3]
    (mk_delay_fifo 0 0 0 (repeat null_synode 1000)) 0.

Definition sample_context : execute_context :=
  mk_execute_context null_synode null_synode (Some x_fetch) false (-1).

(** The waiting proposer of message 7, before its first wait. *)
Definition sample_proposer_env : proposer_env :=
  mk_proposer_env (mk_synode 1 7 0)
    (sample_msg initial_op normal (mk_ballot 0 0) None) 0%float 0%float
    (Some sample_site3).

(** A booted node (message 100 executed) that is not a member of the
    configuration, and the request to add its own address. *)
Definition sample_identity : node_address := sample_node "10.0.0.9:33061".

Definition sample_site_without_me : site_def :=
  sample_site 1 10 VOID_NODE_NO (nodes sample_site3).

Definition sample_add_self : pax_msg :=
  sample_msg client_msg normal (mk_ballot 0 0)
    (Some (sample_app_data add_node_type [sample_identity])).

(** A machine that is proposing message 3 and has not learned. *)
Definition sample_proposing : world :=
  mk_world
    (set_proposer
       (set_prop_msg (Some 3%nat) (proposer (sample_machine None None)))
       (sample_machine None None)) sample_msgs [].

(** The absent copy function, when memory is not exhausted. *)
Definition copy_app_data_ok (a : option app_data) : option app_data := a.

(** ** The proposer: accept acknowledgements and the two-phase push *)

Definition set_sent_learn (b : ballot) (x : proposer_t) : proposer_t :=
  mk_proposer (bal x) (prep_nodeset x) (sent_prop x) (prop_nodeset x)
    (prop_msg x) b.

(** [create_tiny_learn_msg(pm, p)]: the clone has no payload, so its type
    is taken from the payload of [p], and branding it changes nothing. *)
Definition create_tiny_learn_msg (pm : pax_machine) (p : pax_msg) : pax_msg :=
  let tiny_learn_msg := CLONE_PAX_MSG p in
  let tiny_learn_msg :=
    set_m_msg_type (match m_a p with Some _ => normal | None => no_op end)
      tiny_learn_msg in
  let tiny_learn_msg := set_m_op tiny_learn_op tiny_learn_msg in
  let tiny_learn_msg := set_m_reply_to (bal (proposer pm)) tiny_learn_msg in
  brand_app_data tiny_learn_msg.

Definition no_duplicate_payload : bool := true.

(** [check_learn(site, p)]: the learn message to send, if any.  The node
    number is tested first, so a node outside the site does not look at its
    proposal. *)
Definition check_learn (forced_config : option site_def)
    (site : option site_def) (w : world) : option (world * option pax_msg) :=
  if negb (get_nodeno site =? VOID_NODE_NO) then
    ok ← prop_majority forced_config site w;
    if (ok : bool) then
      q ← prop_msg (proposer (w_p w));
      let w := with_msgs (<[ q := set_m_synode (synode (w_p w)) (msg_at w q) ]>
                            (w_msgs w)) w in
      let r :=
        if no_duplicate_payload then
          (w, create_tiny_learn_msg (w_p w) (msg_at w q))
        else
          let w := with_msgs (<[ q := init_learn_msg (msg_at w q) ]> (w_msgs w))
                     w in
          (w, msg_at w q) in
      let w := r.1 in
      let w := with_p (set_proposer
                         (set_sent_learn (bal (proposer (w_p w)))
                            (proposer (w_p w))) (w_p w)) w in
      Some (w, Some r.2)
    else Some (w, None)
  else Some (w, None).

Definition handle_simple_ack_accept (forced_config : option site_def)
    (site : option site_def) (w : world) (m : nat)
  : option (world * option pax_msg) :=
  if negb (get_nodeno site =? VOID_NODE_NO)
     && negb (m_from (msg_at w m) =? VOID_NODE_NO)
     && eq_ballot (bal (proposer (w_p w))) (m_reply_to (msg_at w m)) then
    let w := with_p (set_proposer
                       (set_prop_nodeset
                          (BIT_SET (m_from (msg_at w m))
                             (prop_nodeset (proposer (w_p w))))
                          (proposer (w_p w))) (w_p w)) w in
    if gt_ballot (m_proposal (msg_at w m)) (sent_learn (proposer (w_p w)))
    then check_learn forced_config site w
    else Some (w, None)
  else Some (w, None).

(** [prepare_push_2p(site, p)]; [None] when [p->proposer.msg] is null. *)
Definition prepare_push_2p (site : option site_def) (w : world)
  : option world :=
  let p := w_p w in
  let x := set_prop_nodeset (BIT_ZERO (prop_nodeset (proposer p))) (proposer p) in
  let x := set_bal (mk_ballot 0 (get_nodeno site)) x in
  let p := set_proposer x p in
  q ← prop_msg (proposer p);
  let msg := set_m_proposal (bal (proposer p)) (msg_at w q) in
  let msg := set_m_synode (synode p) msg in
  let msg := set_m_force_delivery (force_delivery p) msg in
  Some (mk_world p (<[ q := msg ]> (w_msgs w)) (w_out w)).

(** [push_msg_2p]: the proposal is sent at once, without a prepare. *)
Definition push_msg_2p (site : option site_def) (w : world) : option world :=
  w ← prepare_push_2p site w;
  q ← prop_msg (proposer (w_p w));
  let w := with_msgs (<[ q := init_propose_msg (msg_at w q) ]> (w_msgs w)) w in
  Some (emit (Ev_send_propose_msg (msg_at w q)) w).

(** ** Synodes: the predecessor *)

(** [decr_synode]: the site is looked up after the message number has been
    decremented; both decrements are unsigned. *)
Definition decr_synode (l : list site_def) (synode_arg : synode_no)
  : synode_no :=
  let ret := synode_arg in
  let ret :=
    if node ret =? 0 then
      let ret := mk_synode (group_id ret) (u64 (msgno ret - 1)) (node ret) in
      mk_synode (group_id ret) (msgno ret)
        (get_maxnodes (snd <$> find_site_def l ret))
    else ret in
  mk_synode (group_id ret) (msgno ret) (u32 (node ret - 1)).

(** ** Dead sites *)

(** dead_sites: [ds_n] is a C int, [ds_id] the array of MAX_DEAD group
    ids; MAX_DEAD is a constant of a header outside xcom_base.cc. *)
Variable MAX_DEAD : Z.

Record dead_sites_t : Type := mk_dead_sites {
  ds_n : Z;
  ds_id : list Z
}.

Definition bury_site (id : Z) (d : dead_sites_t) : dead_sites_t :=
  if negb (id =? 0) then
    mk_dead_sites (Z.rem (ds_n d + 1) MAX_DEAD)
      (<[ Z.to_nat (Z.rem (ds_n d) MAX_DEAD) := id ]> (ds_id d))
  else d.

(** The loop of [is_dead_site] over the entries it visits. *)
Fixpoint is_dead_site_loop (ids : list Z) (id : Z) : bool :=
  match ids with
  | [] => false
  | x :: rest =>
      if x =? id then true
      else if x =? 0 then false
      else is_dead_site_loop rest id
  end.

Definition is_dead_site (id : Z) (d : dead_sites_t) : bool :=
  is_dead_site_loop (take (Z.to_nat MAX_DEAD) (ds_id d)) id.

(** ** The largest synode seen *)

(** get_group_id is defined outside xcom_base.cc: the group id of a
    site. *)
Variable get_group_id : option site_def -> Z.

(** [update_max_synode(p)], with the globals it reads.  The field
    [p->group_id] is the argument [p_group_id]. *)
Definition update_max_synode (d : dead_sites_t) (p_group_id : Z) (p : pax_msg)
    (g : xcom_globals) : xcom_globals :=
  if is_dead_site p_group_id d then g
  else if (get_group_id (snd <$> get_site_def (site_defs g)) =? 0)
          || (group_id (max_synode g) =? 0) then
    set_max_synode (m_synode p) g
  else if group_id (max_synode g) =? group_id (m_synode p) then
    let g :=
      if synode_gt (m_synode p) (max_synode g)
      then set_max_synode (m_synode p) g else g in
    if synode_gt (m_max_synode p) (max_synode g)
    then set_max_synode (m_max_synode p) g else g
  else g.

(** ** Log sequence numbers *)

Definition initialize_lsn (n : Z) : Z := n.

(** [assign_lsn()]: the new value of the counter [lsn], which is also the
    result; [max_synode_arg] is the global [max_synode]. *)
Definition assign_lsn (max_synode_arg : synode_no) (lsn : Z) : Z :=
  let lsn := if lsn =? 0 then initialize_lsn (msgno max_synode_arg) else lsn in
  u64 (lsn + 1).

(** ** The next message number of the local node *)

(** [first_free_synode(msgno)]; [None] when there is no site at all (a null
    dereference in C). *)
Definition first_free_synode (l : list site_def) (msgno_arg : synode_no)
  : option synode_no :=
  match find_site_def l msgno_arg with
  | None =>
      site ← get_site_def l;
      Some (start site.2)
  | Some site =>
      let retval := msgno_arg in
      let retval :=
        if msgno retval =? 0
        then mk_synode (group_id retval) 1 (node retval) else retval in
      let retval :=
        mk_synode (group_id retval) (msgno retval) (get_nodeno (Some site.2)) in
      if synode_lt retval msgno_arg then Some (incr_msgno l retval)
      else Some retval
  end.

(** ** The leader of a site *)

(** The loop of [leader]: the candidates from [leader_arg] on are tried
    until one is not suspected; when the candidates are used up the result
    is 0. *)
Fixpoint leader_loop (s : site_def) (fuel : nat) (leader_arg : Z) : Z :=
  match fuel with
  | O => 0
  | S fuel' =>
      if negb (may_be_dead s leader_arg) then leader_arg
      else leader_loop s fuel' (leader_arg + 1)
  end.

Definition leader (s : option site_def) : Z :=
  match s with
  | Some site => leader_loop site (Z.to_nat (get_maxnodes s)) 0
  | None => 0
  end.

(** [iamthegreatest(s)]; [None] when [s] is null. *)
Definition iamthegreatest (s : option site_def) : option bool :=
  site ← s;
  Some (leader s =? nodeno site).

(** ** Snapshots received while booting *)

(** [snapshots] is an array of NSERVERS ints; NSERVERS is a constant of a
    header outside xcom_base.cc.  A write outside the array is dropped
    and a read outside it yields 0. *)
Definition note_snapshot (node_arg : Z) (snapshots : list Z) : list Z :=
  if negb (node_arg =? VOID_NODE_NO)
  then <[ Z.to_nat node_arg := 1 ]> snapshots
  else snapshots.

Definition reset_snapshot_mask (snapshots : list Z) : list Z :=
  map (fun _ => 0) snapshots.

(** The loop of [got_all_snapshots], from node [i] on. *)
Fixpoint got_all_snapshots_loop (snapshots : list Z) (fuel : nat) (i : Z)
  : bool :=
  match fuel with
  | O => true
  | S fuel' =>
      if nth (Z.to_nat i) snapshots 0 =? 0 then false
      else got_all_snapshots_loop snapshots fuel' (i + 1)
  end.

Definition got_all_snapshots (l : list site_def) (snapshots : list Z) : bool :=
  let max := get_maxnodes (snd <$> get_site_def l) in
  if 0 =? max then false
  else got_all_snapshots_loop snapshots (Z.to_nat max) 0.

(** What [better_snapshot] compares: the greatest boot key of the
    configurations of a snapshot (config_max_boot_key, defined outside
    xcom_base.cc) and the bounds of its log. *)
Record snapshot_rank : Type := mk_snapshot_rank {
  sr_boot_key : synode_no;
  sr_log_start : synode_no;
  sr_log_end : synode_no
}.

(** [better_snapshot(gcs)]: [gcs] is the rank of the snapshot, [have] the
    boot key of the latest site with [log_start_max] and [log_end_max]. *)
Definition better_snapshot (gcs have : snapshot_rank) : bool :=
  synode_gt (sr_boot_key gcs) (sr_boot_key have)
  || (synode_eq (sr_boot_key gcs) (sr_boot_key have)
      && (synode_gt (sr_log_start gcs) (sr_log_start have)
          || (synode_eq (sr_log_start gcs) (sr_log_start have)
              && synode_gt (sr_log_end gcs) (sr_log_end have)))).

(** ** The delay of a task that waits for a message *)

(** The loop [while (retval > max_wait_time) retval /= 1.31415926] of
    [wakeup_delay_for_perf]; [None] is "out of fuel". *)
Fixpoint wakeup_delay_for_perf_reduce (fuel : nat)
    (retval max_wait_time : float) : option float :=
  if PrimFloat.ltb max_wait_time retval then
    match fuel with
    | O => None
    | S fuel' =>
        wakeup_delay_for_perf_reduce fuel'
          (PrimFloat.div retval 1.31415926%float) max_wait_time
    end
  else Some retval.

(** The value [wakeup_delay_for_perf(old, max_wait_time)] starts its loop
    with; [median_time_arg] and [drand] are the results of median_time() and
    xcom_drand48(), which are defined outside xcom_base.cc. *)
Definition wakeup_delay_for_perf_start (median_time_arg drand old : float)
  : float :=
  if PrimFloat.eqb 0%float old then
    let m := PrimFloat.div median_time_arg 100%float in
    let m :=
      if PrimFloat.eqb m 0%float || PrimFloat.ltb 0.003%float m
      then 0.001%float else m in
    PrimFloat.add (PrimFloat.add 0.001%float (PrimFloat.mul 5.0%float m))
      (PrimFloat.mul m drand)
  else PrimFloat.mul old 1.4142136%float.

(** [wakeup_delay_for_perf(old, max_wait_time)]. *)
Definition wakeup_delay_for_perf (fuel : nat) (median_time_arg drand : float)
    (old max_wait_time : float) : option float :=
  let retval := wakeup_delay_for_perf_start median_time_arg drand old in
  wakeup_delay_for_perf_reduce fuel retval max_wait_time.
(** ** Invariants and abstractions used by the properties *)

(** The indices of the delay FIFO stay within the array, and [df_rear] is
    [df_n] places after [df_front], cyclically. *)
Definition fifo_wf (f : delay_fifo_t) : Prop :=
  0 <= df_n f <= FIFO_SIZE
  /\ 0 <= df_front f < FIFO_SIZE
  /\ df_rear f = (df_front f + df_n f) mod FIFO_SIZE
  /\ length (df_q f) = Z.to_nat FIFO_SIZE.

(** What the queue holds, oldest entry first. *)
Definition fifo_contents (f : delay_fifo_t) : list synode_no :=
  map (fun i => nth (Z.to_nat ((df_front f + Z.of_nat i) mod FIFO_SIZE))
                  (df_q f) null_synode)
    (seq 0 (Z.to_nat (df_n f))).

(** ** Further sample states *)

(** The sample store with seven more messages: 6 is an accept request for a
    client value with the small ballot (2,1), 7 one with the ballot (6,1),
    8 a prepare with the ballot (9,2), 9 an empty acknowledgement of the
    prepare with the ballot (7,1), 10 an acknowledgement of the accept
    request with that ballot, 11 an acknowledgement of the prepare that
    reports a no_op accepted with the ballot (5,0), 12 a client value that
    has not been proposed yet. *)
Definition sample_msgs2 : gmap nat pax_msg :=
  <[ 6%nat := sample_msg accept_op normal (mk_ballot 2 1)
                (Some (sample_app_data app_type [])) ]>
  (<[ 7%nat := sample_msg accept_op normal (mk_ballot 6 1)
                 (Some (sample_app_data app_type [])) ]>
  (<[ 8%nat := sample_msg prepare_op normal (mk_ballot 9 2) None ]>
  (<[ 9%nat := sample_msg ack_prepare_empty_op normal (mk_ballot 7 1) None ]>
  (<[ 10%nat := sample_msg ack_accept_op normal (mk_ballot 7 1) None ]>
  (<[ 11%nat := mk_pax_msg 0 1 null_synode (mk_ballot 7 1) (mk_ballot 5 0)
                  ack_prepare_op (mk_synode 1 7 0) no_op None REQUEST_OK false
                  null_synode ]>
  (<[ 12%nat := sample_msg client_msg normal (mk_ballot 0 0)
                  (Some (sample_app_data app_type [])) ]>
     sample_msgs)))))).

(** A machine that has promised (5,0) and accepted nothing. *)
Definition sample_promised : world :=
  mk_world (sample_machine None None) sample_msgs2 [].

(** A proposer of message 3 with ballot (7,1) whose prepare has been
    acknowledged by nodes 0 and 1 of [sample_site3]. *)
Definition sample_prepared : world :=
  mk_world
    (set_proposer
       (mk_proposer (mk_ballot 7 1) [3] (mk_ballot 0 0) [0] (Some 3%nat)
          (mk_ballot 0 0))
       (sample_machine None None)) sample_msgs2 [].

(** The same proposer after its proposal with ballot (7,1) has been
    acknowledged by node 0. *)
Definition sample_proposed : world :=
  mk_world
    (set_proposer
       (mk_proposer (mk_ballot 7 1) [3] (mk_ballot 7 1) [1] (Some 3%nat)
          (mk_ballot 0 0))
       (sample_machine None None)) sample_msgs2 [].

(** A machine as the cache hands it out: nothing promised, accepted or
    learned. *)
Definition sample_fresh_machine : pax_machine :=
  mk_pax_machine (mk_synode 1 7 0) 0
    (mk_proposer (mk_ballot (-1) 0) [0] (mk_ballot 0 0) [0] None (mk_ballot 0 0))
    (mk_acceptor (mk_ballot 0 0) None) (mk_learner None) initial_op false false.

(** Requests to remove the second node of [sample_site3] and to set the
    event horizon to 25. *)
Definition sample_remove_second : pax_msg :=
  sample_msg client_msg normal (mk_ballot 0 0)
    (Some (sample_app_data remove_node_type [sample_node "10.0.0.2:33061"])).

Definition sample_set_event_horizon : pax_msg :=
  sample_msg client_msg normal (mk_ballot 0 0)
    (Some (mk_app_data null_synode 0 0 null_synode cons_majority false
             set_event_horizon_type [] 25 "x")).

(** The invariant of the ring of dead sites: the cursor is inside the
    array, the entries before the cursor are group ids, and the entries
    from the cursor on are still zero unless the ring has wrapped around. *)
Definition dead_sites_wf (d : dead_sites_t) : Prop :=
  0 <= ds_n d < MAX_DEAD
  /\ length (ds_id d) = Z.to_nat MAX_DEAD
  /\ Forall (fun x => x <> 0) (take (Z.to_nat (ds_n d)) (ds_id d))
  /\ (Forall (fun x => x = 0) (drop (Z.to_nat (ds_n d)) (ds_id d))
      \/ Forall (fun x => x <> 0) (ds_id d)).

(** Successive calls of [assign_lsn], one for every value [max_synode] has
    at a call: the numbers handed out. *)
Fixpoint assign_lsns (ms : list synode_no) (lsn : Z) : list Z :=
  match ms with
  | [] => []
  | m :: rest => assign_lsn m lsn :: assign_lsns rest (assign_lsn m lsn)
  end.

(** A ring of four dead sites of which two have been buried. *)
Definition sample_dead_sites : dead_sites_t := mk_dead_sites 2 [11; 12; 0; 0].

(** A proposer of the client value 12 whose prepare with ballot (7,1) has
    been acknowledged by node 0 only. *)
Definition sample_preparing : world :=
  mk_world
    (set_proposer
       (mk_proposer (mk_ballot 7 1) [1] (mk_ballot 0 0) [0] (Some 12%nat)
          (mk_ballot 0 0))
       (sample_machine None None)) sample_msgs2 [].

(** * Properties *)

(** ** Machine integers *)

Lemma i32_small (z : Z) : is_i32 z -> i32 z = z.
Proof.
  unfold is_i32, i32, INT32_MIN, INT32_MAX. intros H.
  rewrite Z.mod_small; lia.
Qed.

Lemma u64_small (z : Z) : is_u64 z -> u64 z = z.
Proof. unfold is_u64, u64. intros H. apply Z.mod_small. lia. Qed.

Lemma MAX_max (x y : Z) : MAX x y = Z.max x y.
Proof. unfold MAX. destruct (Z.gtb_spec x y); lia. Qed.

Lemma MIN_min (x y : Z) : MIN x y = Z.min x y.
Proof. unfold MIN. destruct (Z.ltb_spec x y); lia. Qed.

(** ** Ballots *)

Lemma gt_ballot_le (x y : ballot) : gt_ballot x y = true -> ballot_le y x.
Proof.
  unfold gt_ballot, ballot_le. intros H.
  apply orb_true_iff in H as [H | H].
  - left. lia.
  - apply andb_true_iff in H as [H1 H2]. right. lia.
Qed.

Lemma not_gt_ballot_le (x y : ballot) : gt_ballot x y = false -> ballot_le x y.
Proof.
  unfold gt_ballot, ballot_le. intros H.
  apply orb_false_iff in H as [H1 H2].
  apply andb_false_iff in H2.
  destruct (Z.eq_dec (cnt x) (cnt y)) as [E | E]; [right | left]; lia.
Qed.

Lemma ballot_le_refl (x : ballot) : ballot_le x x.
Proof. unfold ballot_le. right. lia. Qed.

Lemma ballot_le_trans (x y z : ballot) :
  ballot_le x y -> ballot_le y z -> ballot_le x z.
Proof. unfold ballot_le. lia. Qed.

(** ** Forced configurations *)

(** C8. On the forcing node ([enforcer_arg] set) a machine that is not yet
    an enforcer gets exactly (INT32_MAX - max(cnt, 0)) / 3 added to
    [proposer.bal.cnt], for every signed 32-bit [cnt] (-1 included); the sum
    is again a signed 32-bit integer, so the stored value is the exact sum;
    a machine already marked as enforcer keeps its [cnt], and so does a
    machine forced on a node that is not the forcing node. *)
Theorem force_pax_machine_bump (p : pax_machine) :
  is_i32 (cnt (bal (proposer p))) ->
  let c := cnt (bal (proposer p)) in
  (enforcer p = false ->
     cnt (bal (proposer (force_pax_machine p true)))
     = c + (INT32_MAX - Z.max c 0) / 3
     /\ is_i32 (c + (INT32_MAX - Z.max c 0) / 3))
  /\ (enforcer p = true ->
        forall e, cnt (bal (proposer (force_pax_machine p e))) = c)
  /\ cnt (bal (proposer (force_pax_machine p false))) = c.
Proof.
  intros Hc c. subst c.
  assert (Hq : (INT32_MAX - Z.max (cnt (bal (proposer p))) 0) ÷ 3
               = (INT32_MAX - Z.max (cnt (bal (proposer p))) 0) / 3).
  { apply Z.quot_div_nonneg; unfold is_i32, INT32_MAX, INT32_MIN in *; lia. }
  assert (Hr : is_i32 (cnt (bal (proposer p))
                       + (INT32_MAX - Z.max (cnt (bal (proposer p))) 0) / 3)).
  { unfold is_i32, INT32_MAX, INT32_MIN in *.
    pose proof (Z.div_mod (2147483647 - Z.max (cnt (bal (proposer p))) 0) 3
                  ltac:(lia)) as Hd.
    pose proof (Z.mod_pos_bound
                  (2147483647 - Z.max (cnt (bal (proposer p))) 0) 3
                  ltac:(lia)) as Hm.
    lia. }
  split; [| split].
  - intros He. split; [| exact Hr].
    unfold force_pax_machine. rewrite He. simpl.
    rewrite MAX_max, Hq.
    rewrite (i32_small ((INT32_MAX - _) / 3)).
    + apply i32_small, Hr.
    + unfold is_i32, INT32_MAX, INT32_MIN in *.
      pose proof (Z.div_mod (2147483647 - Z.max (cnt (bal (proposer p))) 0) 3
                    ltac:(lia)) as Hd.
      pose proof (Z.mod_pos_bound
                    (2147483647 - Z.max (cnt (bal (proposer p))) 0) 3
                    ltac:(lia)) as Hm.
      lia.
  - intros He e. unfold force_pax_machine. rewrite He. reflexivity.
  - unfold force_pax_machine. destruct (enforcer p); reflexivity.
Qed.

(** ** The delay FIFO *)

(** C10. Inserting into a delay FIFO that already holds FIFO_SIZE (1000)
    entries returns the FIFO as it was: the synode is dropped, nothing is
    signalled (the function has no result besides the queue), and the count
    and the order of extraction of the entries are the same. *)
Theorem fifo_insert_full_unchanged (s : synode_no) (f : delay_fifo_t) :
  df_n f = FIFO_SIZE ->
  fifo_insert s f = f
  /\ df_n (fifo_insert s f) = FIFO_SIZE
  /\ forall fuel, fifo_drain fuel (fifo_insert s f) = fifo_drain fuel f.
Proof.
  intros Hn.
  assert (E : fifo_insert s f = f).
  { unfold fifo_insert, fifo_full. rewrite Hn. reflexivity. }
  rewrite E. auto.
Qed.

(** ** Majority *)

Lemma count_answered_filter (nodeset : bit_set) (n : nat) :
  count_answered nodeset n
  = Z.of_nat (length (filter (fun i => BIT_ISSET (Z.of_nat i) nodeset = true)
                        (seq 0 n))).
Proof.
  induction n as [| n IH]; [reflexivity |].
  rewrite seq_S, filter_app, length_app. cbn [count_answered plus].
  rewrite IH, filter_cons, filter_nil.
  destruct (decide (BIT_ISSET (Z.of_nat n) nodeset = true)) as [E | E].
  - rewrite E. cbn [length]. lia.
  - apply not_true_is_false in E. rewrite E. cbn [length]. lia.
Qed.

(** The loop of [majority] counts the answered set. *)
Lemma count_answered_size (nodeset : bit_set) (s : option site_def) :
  count_answered nodeset (Z.to_nat (get_maxnodes s))
  = Z.of_nat (size (answered nodeset s)).
Proof.
  rewrite count_answered_filter. unfold answered.
  rewrite size_list_to_set; [reflexivity |].
  apply NoDup_filter, NoDup_seq.
Qed.

(** C4 (amended). Over a site with N members and answered set S: without
    force and without cons_all, majority holds exactly when |S| > N/2
    (equivalently 2|S| > N); without force and with cons_all, exactly when
    |S| = N; with force, exactly when |S| - still counted over all N members
    of the site - equals the number of nodes of forced_config, whatever
    cons_all says. *)
Theorem majority_spec (forced_config : option site_def) (nodeset : bit_set)
    (s : option site_def) (delay : bool) :
  let N := get_maxnodes s in
  let S := Z.of_nat (size (answered nodeset s)) in
  (majority forced_config nodeset s false delay false = true
   <-> S > N / 2)
  /\ (S > N / 2 <-> 2 * S > N)
  /\ (majority forced_config nodeset s true delay false = true <-> S = N)
  /\ (forall all,
        majority forced_config nodeset s all delay true = true
        <-> S = get_maxnodes forced_config).
Proof.
  intros N S. unfold majority, max_check. cbn iota.
  rewrite count_answered_size. fold N S.
  rewrite Z.gtb_ltb, Z.ltb_lt, !Z.eqb_eq.
  pose proof (Z.div_mod N 2 ltac:(lia)) as Hd.
  pose proof (Z.mod_pos_bound N 2 ltac:(lia)) as Hm.
  repeat split; intros; lia.
Qed.

(** ** Message handlers *)

Lemma msgs_agree_refl (w : world) : msgs_agree w w.
Proof. intros q. auto. Qed.

Lemma msgs_agree_same (w w' : world) :
  w_msgs w' = w_msgs w -> msgs_agree w w'.
Proof. intros E q. unfold msg_at. rewrite E. auto. Qed.

Lemma msgs_agree_trans (w1 w2 w3 : world) :
  msgs_agree w1 w2 -> msgs_agree w2 w3 -> msgs_agree w1 w3.
Proof.
  intros H12 H23 q. destruct (H12 q) as (A1 & A2 & A3 & A4).
  destruct (H23 q) as (B1 & B2 & B3 & B4).
  repeat split; try congruence. auto.
Qed.

Lemma msgs_agree_set_learn_op (w : world) (q : nat) :
  msgs_agree w
    (with_msgs (<[ q := set_m_op learn_op (msg_at w q) ]> (w_msgs w)) w).
Proof.
  intros r. unfold msg_at, with_msgs. cbn [w_msgs].
  destruct (decide (q = r)) as [-> | Hne].
  - rewrite lookup_total_insert_eq. cbn. auto.
  - rewrite lookup_total_insert_ne by done. auto.
Qed.

Lemma same_learner_intro (w w' : world) :
  finished w = true ->
  lrn_msg (learner (w_p w')) = lrn_msg (learner (w_p w)) ->
  msgs_agree w w' ->
  same_learner w w'.
Proof.
  intros Hf Hl Ha. unfold same_learner, learned_value, finished in *.
  rewrite Hl. destruct (lrn_msg (learner (w_p w))) as [q |]; [| discriminate].
  destruct (Ha q) as (A1 & A2 & A3 & A4). cbn.
  rewrite A1, A2, A3. auto.
Qed.

Lemma same_learner_trans (w1 w2 w3 : world) :
  same_learner w1 w2 -> same_learner w2 w3 -> same_learner w1 w3.
Proof.
  intros (A1 & A2 & A3) (B1 & B2 & B3). repeat split; congruence.
Qed.

Lemma finished_learner (w : world) :
  finished w = true -> is_Some (lrn_msg (learner (w_p w))).
Proof.
  unfold finished. destruct (lrn_msg (learner (w_p w))); [eauto | discriminate].
Qed.

(** A reply to a machine that has learned leaves the machine and the store
    alone. *)
Lemma create_learn_msg_for_ignorant_node_finished (w : world) (pm : nat)
    (s : synode_no) :
  finished w = true ->
  exists w' r,
    create_learn_msg_for_ignorant_node w pm s = Some (w', r)
    /\ w_p w' = w_p w /\ w_msgs w' = w_msgs w.
Proof.
  intros Hf. destruct (finished_learner w Hf) as [q Hq].
  unfold create_learn_msg_for_ignorant_node, safe_app_data_copy. rewrite Hq. cbn.
  destruct (copy_app_data (m_a (msg_at w q))), (m_a (msg_at w q)); cbn; eauto.
Qed.

Lemma send_reply_p (r : world * option pax_msg) :
  w_p (send_reply r) = w_p r.1 /\ w_msgs (send_reply r) = w_msgs r.1.
Proof. unfold send_reply. destruct r as [w [m |]]; cbn; auto. Qed.

Lemma handle_learn_finished (l : list site_def) (now : Q) (w : world) (m : nat) :
  finished w = true ->
  handle_learn l now w m
  = Some (emit (Ev_task_wakeup (synode (w_p w)))
            (with_p (set_last_modified now (w_p w)) w)).
Proof.
  intros Hf. unfold handle_learn.
  change (finished (with_p (set_last_modified now (w_p w)) w)) with (finished w).
  rewrite Hf. reflexivity.
Qed.

(** One step on a machine that has learned: the step is defined and the
    learner holds what it held. *)
Lemma handle_keeps_learner (w : world) (x : arrival) :
  finished w = true ->
  exists w', handle w x = Some w' /\ same_learner w w'.
Proof.
  intros Hf. unfold handle. destruct (arr_input x) as [pm | pm | m sf | fc site m | m | m | m].
  - unfold handle_read, teach_ignorant_node. rewrite Hf.
    destruct (create_learn_msg_for_ignorant_node_finished w pm
                (m_synode (msg_at w pm)) Hf) as (w' & r & E & Ep & Em).
    rewrite E. cbn. eexists; split; [reflexivity |].
    destruct (send_reply_p (w', r)) as [Sp Sm]. cbn in Sp, Sm.
    apply same_learner_intro; [done | congruence |].
    apply msgs_agree_same. congruence.
  - unfold handle_prepare, handle_simple_prepare. rewrite Hf.
    destruct (create_learn_msg_for_ignorant_node_finished w pm
                (m_synode (msg_at w pm)) Hf) as (w' & r & E & Ep & Em).
    rewrite E. cbn. eexists; split; [reflexivity |].
    destruct (send_reply_p (w', r)) as [Sp Sm]. cbn in Sp, Sm.
    apply same_learner_intro; [done | congruence |].
    apply msgs_agree_same. congruence.
  - unfold handle_simple_accept. rewrite Hf.
    destruct (create_learn_msg_for_ignorant_node_finished w m
                (m_synode (msg_at w m)) Hf) as (w' & r & E & Ep & Em).
    rewrite E. cbn. eexists; split; [reflexivity |].
    destruct (send_reply_p (w', r)) as [Sp Sm]. cbn in Sp, Sm.
    apply same_learner_intro; [done | congruence |].
    apply msgs_agree_same. congruence.
  - unfold handle_ack_prepare. rewrite Hf. eexists; split; [reflexivity |].
    apply same_learner_intro; [done | done | apply msgs_agree_refl].
  - rewrite handle_learn_finished by done. eexists; split; [reflexivity |].
    apply same_learner_intro; [done | reflexivity |].
    apply msgs_agree_same. reflexivity.
  - unfold handle_tiny_learn.
    destruct (acc_msg (acceptor (w_p w))) as [q |].
    + destruct (eq_ballot _ _).
      * set (w1 := with_msgs (<[ q := set_m_op learn_op (msg_at w q) ]> (w_msgs w)) w).
        assert (S1 : same_learner w w1).
        { apply same_learner_intro; [done | reflexivity |].
          apply msgs_agree_set_learn_op. }
        set (w2 := emit _ (with_p _ w1)).
        assert (S2 : same_learner w1 w2).
        { apply same_learner_intro; [apply S1 | reflexivity |].
          apply msgs_agree_same. reflexivity. }
        rewrite handle_learn_finished by apply S2.
        eexists; split; [reflexivity |].
        eapply same_learner_trans; [exact S1 |].
        eapply same_learner_trans; [exact S2 |].
        apply same_learner_intro; [apply S2 | reflexivity |].
        apply msgs_agree_same. reflexivity.
      * eexists; split; [reflexivity |].
        apply same_learner_intro; [done | reflexivity |].
        apply msgs_agree_same. reflexivity.
    + eexists; split; [reflexivity |].
      apply same_learner_intro; [done | reflexivity |].
      apply msgs_agree_same. reflexivity.
  - unfold handle_skip. rewrite Hf. cbn. eexists; split; [reflexivity |].
    apply same_learner_intro; [done | reflexivity |].
    apply msgs_agree_same. reflexivity.
Qed.

(** C2. Once the machine is finished ([learner.msg] is set to a learn
    message), every run of learn, tiny-learn, skip and ack-prepare messages -
    and of read, prepare and accept messages as well - is defined and leaves
    [learner.msg] pointing to the same message, with the same ballot, type
    and payload; the machine stays finished. *)
Theorem learner_msg_never_changes (w : world) (l : list arrival) :
  finished w = true ->
  exists w',
    run w l = Some w'
    /\ lrn_msg (learner (w_p w')) = lrn_msg (learner (w_p w))
    /\ learned_value w' = learned_value w
    /\ finished w' = true.
Proof.
  revert w. induction l as [| x l IH]; intros w Hf.
  - exists w. cbn. auto.
  - destruct (handle_keeps_learner w x Hf) as (w1 & E1 & S1).
    destruct (IH w1 ltac:(apply S1)) as (w' & E & A1 & A2 & A3).
    exists w'. cbn. rewrite E1. cbn. split; [exact E |].
    destruct S1 as (B1 & B2 & B3). repeat split; congruence.
Qed.

(** *** The promise of the acceptor *)

Lemma safe_app_data_copy_p (w : world) (t : pax_msg) (a : option app_data) :
  w_p (safe_app_data_copy w t a).1 = w_p w
  /\ w_msgs (safe_app_data_copy w t a).1 = w_msgs w.
Proof.
  unfold safe_app_data_copy. destruct (copy_app_data a), a; cbn; auto.
Qed.

Lemma create_learn_msg_for_ignorant_node_p (w w' : world) (pm : nat)
    (s : synode_no) (r : option pax_msg) :
  create_learn_msg_for_ignorant_node w pm s = Some (w', r) ->
  w_p w' = w_p w /\ w_msgs w' = w_msgs w.
Proof.
  unfold create_learn_msg_for_ignorant_node. intros H.
  destruct (lrn_msg (learner (w_p w))) as [q |]; [| discriminate]. cbn in H.
  match type of H with
  | context [safe_app_data_copy ?a ?b ?c] =>
      pose proof (safe_app_data_copy_p a b c) as Hs;
      destruct (safe_app_data_copy a b c) as [w1 r1]
  end.
  cbn in *. inversion H; subst. exact Hs.
Qed.

Lemma create_ack_prepare_msg_p (w w' : world) (pm : nat) (s : synode_no)
    (r : option pax_msg) :
  create_ack_prepare_msg w pm s = Some (w', r) ->
  w_p w' = w_p w /\ w_msgs w' = w_msgs w.
Proof.
  unfold create_ack_prepare_msg. intros H.
  destruct (accepted w).
  - destruct (acc_msg (acceptor (w_p w))) as [q |]; [| discriminate]. cbn in H.
    match type of H with
    | context [safe_app_data_copy ?a ?b ?c] =>
        pose proof (safe_app_data_copy_p a b c) as Hs;
        destruct (safe_app_data_copy a b c) as [w1 r1]
    end.
    cbn in *. inversion H; subst. exact Hs.
  - inversion H; subst. auto.
Qed.

(** The acceptor's phase 1 decision: the promise is kept, or replaced by the
    ballot of the prepare when that ballot is greater. *)
Lemma handle_simple_prepare_promise (now : Q) (w w' : world) (pm : nat)
    (s : synode_no) (r : option pax_msg) :
  handle_simple_prepare now w pm s = Some (w', r) ->
  promise (acceptor (w_p w')) = promise (acceptor (w_p w))
  \/ (promise (acceptor (w_p w')) = m_proposal (msg_at w pm)
      /\ gt_ballot (m_proposal (msg_at w pm)) (promise (acceptor (w_p w)))
         = true).
Proof.
  unfold handle_simple_prepare. intros H.
  destruct (finished w).
  - apply create_learn_msg_for_ignorant_node_p in H as [Hp _].
    left. congruence.
  - destruct (gt_ballot (m_proposal (msg_at w pm)) (promise (acceptor (w_p w))))
      eqn:Hg; cbn in H.
    + apply create_ack_prepare_msg_p in H as [Hp _]. right.
      rewrite Hp. cbn. auto.
    + destruct (noop_match w pm).
      * apply create_ack_prepare_msg_p in H as [Hp _]. left.
        rewrite Hp. reflexivity.
      * inversion H; subst. auto.
Qed.

Lemma handle_simple_accept_promise (now : Q) (w w' : world) (m : nat)
    (s : synode_no) (sf : bool) (r : option pax_msg) :
  handle_simple_accept now w m s sf = Some (w', r) ->
  promise (acceptor (w_p w')) = promise (acceptor (w_p w)).
Proof.
  unfold handle_simple_accept. intros H.
  destruct (finished w).
  - apply create_learn_msg_for_ignorant_node_p in H as [Hp _]. congruence.
  - destruct (negb _ || _); inversion H; subst; reflexivity.
Qed.

Lemma do_learn_promise (w : world) (m : nat) :
  promise (acceptor (w_p (do_learn w m))) = promise (acceptor (w_p w)).
Proof. unfold do_learn. destruct (m_a (msg_at w m)); reflexivity. Qed.

Lemma handle_learn_promise (l : list site_def) (now : Q) (w w' : world)
    (m : nat) :
  handle_learn l now w m = Some w' ->
  promise (acceptor (w_p w')) = promise (acceptor (w_p w)).
Proof.
  unfold handle_learn. intros H.
  destruct (finished (with_p (set_last_modified now (w_p w)) w)).
  - cbn in H. inversion H; subst. reflexivity.
  - cbv zeta in H.
    match type of H with
    | context [do_learn ?a ?b] =>
        assert (Hd : promise (acceptor (w_p (do_learn a b)))
                     = promise (acceptor (w_p w)))
          by (rewrite do_learn_promise; reflexivity);
        generalize dependent (do_learn a b)
    end.
    intros w1 H Hd. rewrite <- Hd. clear Hd.
    repeat (case_match; simplify_option_eq); reflexivity.
Qed.

Lemma handle_tiny_learn_promise (l : list site_def) (now : Q) (w w' : world)
    (m : nat) :
  handle_tiny_learn l now w m = Some w' ->
  promise (acceptor (w_p w')) = promise (acceptor (w_p w)).
Proof.
  unfold handle_tiny_learn. intros H.
  destruct (acc_msg (acceptor (w_p w))) as [q |].
  - destruct (eq_ballot _ _).
    + apply handle_learn_promise in H. rewrite H. reflexivity.
    + inversion H; subst. reflexivity.
  - inversion H; subst. reflexivity.
Qed.

Lemma handle_skip_promise (now : Q) (w : world) (m : nat) :
  promise (acceptor (w_p (handle_skip now w m))) = promise (acceptor (w_p w)).
Proof.
  unfold handle_skip. destruct (finished w); [reflexivity |].
  cbn [negb]. cbv zeta. cbn [emit w_p].
  rewrite do_learn_promise. reflexivity.
Qed.

Lemma check_propose_acceptor (fc site : option site_def) (w w' : world)
    (b : bool) :
  check_propose fc site w = Some (w', b) ->
  acceptor (w_p w') = acceptor (w_p w).
Proof.
  unfold check_propose. intros H.
  destruct (prep_majority fc site w) as [ok |]; [| discriminate]. cbn in H.
  destruct (prop_msg (proposer (w_p w))) as [q |]; [| discriminate]. cbn in H.
  destruct ok; inversion H; subst; reflexivity.
Qed.

Lemma handle_simple_ack_prepare_acceptor (fc site : option site_def)
    (w w' : world) (m : nat) (b : bool) :
  handle_simple_ack_prepare fc site w m = Some (w', b) ->
  acceptor (w_p w') = acceptor (w_p w).
Proof.
  unfold handle_simple_ack_prepare. cbv zeta.
  set (w1 := if negb (get_nodeno site =? VOID_NODE_NO) then _ else w).
  assert (E1 : acceptor (w_p w1) = acceptor (w_p w)).
  { subst w1. destruct (negb _); reflexivity. }
  clearbody w1. intros H.
  apply bind_Some in H as (w2 & H2 & H).
  assert (E2 : acceptor (w_p w2) = acceptor (w_p w1)).
  { destruct (bool_decide _); [| inversion H2; subst; reflexivity].
    apply bind_Some in H2 as (q & _ & H2).
    destruct (gt_ballot _ _); inversion H2; subst; reflexivity. }
  destruct (gt_ballot _ _).
  - apply check_propose_acceptor in H. congruence.
  - inversion H; subst. congruence.
Qed.

Lemma handle_ack_prepare_acceptor (fc site : option site_def) (w w' : world)
    (m : nat) :
  handle_ack_prepare fc site w m = Some w' ->
  acceptor (w_p w') = acceptor (w_p w).
Proof.
  unfold handle_ack_prepare. intros H.
  destruct (finished w); [inversion H; subst; reflexivity |].
  destruct (_ && _); [| inversion H; subst; reflexivity].
  destruct (handle_simple_ack_prepare fc site w m) as [[w1 b] |] eqn:E;
    [| discriminate].
  apply handle_simple_ack_prepare_acceptor in E. cbn in H.
  destruct b.
  - destruct (prop_msg (proposer (w_p w1))); [| discriminate].
    cbn in H. inversion H; subst. exact E.
  - inversion H; subst. exact E.
Qed.

(** One step never lowers the promise. *)
Lemma handle_promise_monotone (w w' : world) (x : arrival) :
  handle w x = Some w' ->
  ballot_le (promise (acceptor (w_p w))) (promise (acceptor (w_p w'))).
Proof.
  unfold handle. intros H.
  destruct (arr_input x) as [pm | pm | m sf | fc site m | m | m | m].
  - unfold handle_read, teach_ignorant_node in H.
    destruct (finished w).
    + destruct (create_learn_msg_for_ignorant_node _ _ _) as [[w1 r] |] eqn:E;
        [| discriminate].
      apply create_learn_msg_for_ignorant_node_p in E as [Ep _].
      cbn in H. inversion H; subst.
      destruct (send_reply_p (w1, r)) as [Sp _]. cbn in Sp.
      rewrite Sp, Ep. apply ballot_le_refl.
    + inversion H; subst. apply ballot_le_refl.
  - unfold handle_prepare in H.
    destruct (handle_simple_prepare _ _ _ _) as [[w1 r] |] eqn:E;
      [| discriminate].
    cbn in H. inversion H; subst.
    destruct (send_reply_p (w1, r)) as [Sp _]. cbn in Sp. rewrite Sp.
    apply handle_simple_prepare_promise in E as [E | [E G]]; rewrite E.
    + apply ballot_le_refl.
    + apply gt_ballot_le, G.
  - destruct (handle_simple_accept _ _ _ _ _) as [[w1 r] |] eqn:E;
      [| discriminate].
    cbn in H. inversion H; subst.
    destruct (send_reply_p (w1, r)) as [Sp _]. cbn in Sp. rewrite Sp.
    apply handle_simple_accept_promise in E. rewrite E. apply ballot_le_refl.
  - apply handle_ack_prepare_acceptor in H. rewrite H. apply ballot_le_refl.
  - apply handle_learn_promise in H. rewrite H. apply ballot_le_refl.
  - apply handle_tiny_learn_promise in H. rewrite H. apply ballot_le_refl.
  - inversion H; subst. rewrite handle_skip_promise. apply ballot_le_refl.
Qed.

(** Forcing a machine, as start_force_config does for every machine of the
    pipeline, touches neither the acceptor nor the learner. *)
Lemma force_interval_step_keeps_roles (p : pax_machine) (e : bool) :
  acceptor (force_interval_step p e).1 = acceptor p
  /\ learner (force_interval_step p e).1 = learner p.
Proof.
  unfold force_interval_step, force_pax_machine.
  destruct (enforcer p), e; split; reflexivity.
Qed.

(** C3. [acceptor.promise] never decreases: whatever messages a machine
    handles (prepare, accept, learn, skip, and read, ack-prepare and
    tiny-learn as well), the promise after the run is not smaller than the
    promise before it; forcing a machine leaves the promise as it is. *)
Theorem promise_monotone (w w' : world) (l : list arrival) :
  run w l = Some w' ->
  ballot_le (promise (acceptor (w_p w))) (promise (acceptor (w_p w')))
  /\ forall e,
       promise (acceptor (force_pax_machine (w_p w') e))
       = promise (acceptor (w_p w'))
       /\ promise (acceptor (force_interval_step (w_p w') e).1)
          = promise (acceptor (w_p w')).
Proof.
  intros H. split.
  - revert w H. induction l as [| x l IH]; intros w H; cbn in H.
    + inversion H; subst. apply ballot_le_refl.
    + destruct (handle w x) as [w1 |] eqn:E; [| discriminate]. cbn in H.
      eapply ballot_le_trans; [eapply handle_promise_monotone, E |].
      apply IH, H.
  - intros e. split.
    + unfold force_pax_machine. destruct (enforcer (w_p w')), e; reflexivity.
    + destruct (force_interval_step_keeps_roles (w_p w') e) as [E _].
      rewrite E. reflexivity.
Qed.

(** *** The prepare handler *)

Lemma accepted_acc_msg (w : world) :
  accepted w = true -> is_Some (acc_msg (acceptor (w_p w))).
Proof.
  unfold accepted. destruct (acc_msg (acceptor (w_p w))); [eauto | discriminate].
Qed.

(** C1 (amended). The prepare handler, for a machine [p] and a prepare
    message [m]:
    - if [p] has learned a value, the reply is a learn message carrying the
      learned ballot and payload (the copy of the payload succeeding), and
      [p] is left as it was;
    - otherwise, if [m]'s ballot is greater than the promise, or [m] is a
      no_op and [p] has accepted a no_op, the promise becomes [m]'s ballot
      when that ballot is greater and is kept when it is not; the reply is
      ack_prepare carrying the accepted ballot, type and payload when a value
      is accepted, else ack_prepare_empty;
    - in every other case there is no reply and nothing changes. *)
Theorem handle_simple_prepare_spec (now : Q) (w : world) (pm : nat)
    (s : synode_no) :
  let greater :=
    gt_ballot (m_proposal (msg_at w pm)) (promise (acceptor (w_p w))) in
  (forall q,
     finished w = true ->
     lrn_msg (learner (w_p w)) = Some q ->
     copy_app_data (m_a (msg_at w q)) = m_a (msg_at w q) ->
     exists reply,
       handle_simple_prepare now w pm s = Some (w, Some reply)
       /\ m_op reply = learn_op
       /\ m_synode reply = s
       /\ m_proposal reply = m_proposal (msg_at w q)
       /\ m_a reply = m_a (msg_at w q))
  /\ (finished w = false ->
      greater || noop_match w pm = true ->
      exists w' r,
        handle_simple_prepare now w pm s = Some (w', r)
        /\ promise (acceptor (w_p w'))
           = (if greater then m_proposal (msg_at w pm)
              else promise (acceptor (w_p w)))
        /\ acc_msg (acceptor (w_p w')) = acc_msg (acceptor (w_p w))
        /\ learner (w_p w') = learner (w_p w)
        /\ w_msgs w' = w_msgs w
        /\ (accepted w = false ->
            exists reply,
              r = Some reply /\ m_op reply = ack_prepare_empty_op
              /\ m_synode reply = s)
        /\ (forall q,
              accepted w = true ->
              acc_msg (acceptor (w_p w)) = Some q ->
              copy_app_data (m_a (msg_at w q)) = m_a (msg_at w q) ->
              exists reply,
                r = Some reply /\ m_op reply = ack_prepare_op
                /\ m_synode reply = s
                /\ m_proposal reply = m_proposal (msg_at w q)
                /\ m_msg_type reply = m_msg_type (msg_at w q)
                /\ m_a reply = m_a (msg_at w q)))
  /\ (finished w = false ->
      greater || noop_match w pm = false ->
      handle_simple_prepare now w pm s = Some (w, None)).
Proof.
  intros greater. split; [| split].
  - intros q Hf Hq Hc. unfold handle_simple_prepare. rewrite Hf.
    unfold create_learn_msg_for_ignorant_node, safe_app_data_copy.
    rewrite Hq. cbn. rewrite Hc.
    destruct (m_a (msg_at w q)) as [a |] eqn:Ea; cbn;
      eexists; (split; [reflexivity |]); cbn; auto.
  - intros Hf Hg. unfold handle_simple_prepare. rewrite Hf.
    fold greater. rewrite Hg. cbv zeta.
    set (w1 := if greater then _ else _).
    assert (E1 : promise (acceptor (w_p w1))
                 = (if greater then m_proposal (msg_at w pm)
                    else promise (acceptor (w_p w)))
                 /\ acc_msg (acceptor (w_p w1)) = acc_msg (acceptor (w_p w))
                 /\ learner (w_p w1) = learner (w_p w)
                 /\ w_msgs w1 = w_msgs w).
    { subst w1. destruct greater; cbn; auto. }
    destruct E1 as (P1 & P2 & P3 & P4).
    assert (Ea : accepted w1 = accepted w).
    { unfold accepted, msg_at. rewrite P2, P4. reflexivity. }
    assert (Em : forall q, msg_at w1 q = msg_at w q).
    { intros q. unfold msg_at. rewrite P4. reflexivity. }
    clearbody w1.
    unfold create_ack_prepare_msg. rewrite Ea.
    destruct (accepted w) eqn:Hacc.
    + destruct (accepted_acc_msg w Hacc) as [q Hq].
      rewrite P2, Hq. cbn.
      pose proof (safe_app_data_copy_p w1
                    (set_m_op ack_prepare_op
                       (set_m_msg_type (m_msg_type (msg_at w1 q))
                          (set_m_proposal (m_proposal (msg_at w1 q))
                             (set_m_synode s (CLONE_PAX_MSG (msg_at w1 pm))))))
                    (m_a (msg_at w1 q))) as [Sp Sm].
      match type of Sp with
      | w_p (?x).1 = _ => exists x.1, x.2; split; [destruct x; reflexivity |]
      end.
      rewrite Sp, Sm.
      split; [exact P1 |]. split; [congruence |]. split; [exact P3 |].
      split; [exact P4 |]. split; [intros Habs; discriminate |].
      intros q' _ Hq' Hc. assert (q' = q) as -> by congruence.
      unfold safe_app_data_copy. rewrite !Em, Hc.
      destruct (m_a (msg_at w q)); cbn; eexists; (split; [reflexivity |]);
        cbn; auto.
    + eexists _, _. split; [reflexivity |].
      split; [exact P1 |]. split; [exact P2 |]. split; [exact P3 |].
      split; [exact P4 |]. split.
      * intros _. eexists. split; [reflexivity |]. cbn. auto.
      * intros q' Habs. discriminate.
  - intros Hf Hg. unfold handle_simple_prepare. rewrite Hf.
    fold greater. rewrite Hg. reflexivity.
Qed.

(** ** The event horizon *)

Lemma synode_gt_irrefl (x : synode_no) : synode_gt x x = false.
Proof.
  unfold synode_gt. rewrite !Z.gtb_ltb, !Z.ltb_irrefl, andb_false_r.
  reflexivity.
Qed.

Lemma synode_gt_trans (x y z : synode_no) :
  synode_gt x y = true -> synode_gt y z = true -> synode_gt x z = true.
Proof.
  unfold synode_gt. rewrite !orb_true_iff, !andb_true_iff, !Z.gtb_ltb,
    !Z.ltb_lt, !Z.eqb_eq. lia.
Qed.

Lemma find_next_from_Some (l : list site_def) (i : nat) (syn : synode_no)
    (c : site_ptr) :
  find_next_from i l syn = Some c ->
  c.2 ∈ l /\ synode_gt (start c.2) syn = true.
Proof.
  revert i. induction l as [| s l IH]; intros i H; cbn in H; [discriminate |].
  destruct (find_next_from (S i) l syn) as [r |] eqn:E.
  - inversion H; subst. destruct (IH _ E) as [A B]. split; [| exact B].
    apply elem_of_cons. auto.
  - destruct (synode_gt (start s) syn) eqn:G; [| discriminate].
    inversion H; subst. cbn. split; [| exact G]. apply elem_of_cons. auto.
Qed.


Lemma length_filter_lt_sub {A : Type} (P Q : A -> Prop)
    `{forall x, Decision (P x)} `{forall x, Decision (Q x)}
    (l : list A) (x : A) :
  (forall y, P y -> Q y) -> x ∈ l -> Q x -> ~ P x ->
  (length (filter P l) < length (filter Q l))%nat.
Proof.
  intros HPQ Hx HQ HP.
  assert (Hle : forall l0 : list A,
             (length (filter P l0) <= length (filter Q l0))%nat).
  { induction l0 as [| y l0 IH]; [cbn; lia |].
    rewrite !filter_cons.
    destruct (decide (P y)) as [Py | Py].
    - destruct (decide (Q y)) as [Qy | Qy]; [cbn; lia | exfalso; auto].
    - destruct (decide (Q y)); cbn; lia. }
  induction l as [| y l IH]; [inversion Hx |].
  rewrite !filter_cons. apply elem_of_cons in Hx as [-> | Hx].
  - destruct (decide (P y)); [contradiction |].
    destruct (decide (Q y)); [| contradiction].
    cbn. specialize (Hle l). lia.
  - specialize (IH Hx).
    destruct (decide (P y)) as [Py | Py].
    + destruct (decide (Q y)) as [Qy | Qy]; [cbn; lia | exfalso; auto].
    + destruct (decide (Q y)); cbn; lia.
Qed.

Lemma later_sites_decrease (l : list site_def) (syn : synode_no)
    (c : site_def) :
  c ∈ l -> synode_gt (start c) syn = true ->
  (later_sites l (start c) < later_sites l syn)%nat.
Proof.
  intros Hc Hg. unfold later_sites.
  apply (length_filter_lt_sub _ _ l c); auto.
  - intros y Hy. eapply synode_gt_trans; eauto.
  - rewrite synode_gt_irrefl. discriminate.
Qed.

Lemma later_sites_le (l : list site_def) (syn : synode_no) :
  (later_sites l syn <= length l)%nat.
Proof. apply length_filter. Qed.

(** The loop of [first_event_horizon_reconfig] ends before its fuel does. *)
Lemma first_event_horizon_reconfig_loop_total (l : list site_def) (aeh : Z)
    (fuel : nat) (next : option site_ptr) :
  match next with
  | Some c => c.2 ∈ l /\ (later_sites l (start c.2) < fuel)%nat
  | None => True
  end ->
  is_Some (first_event_horizon_reconfig_loop fuel l aeh next).
Proof.
  revert next. induction fuel as [| fuel IH]; intros [c |] H; cbn; eauto.
  - destruct H as [_ H]. lia.
  - destruct (negb (aeh =? event_horizon c.2)); [eauto |].
    apply IH. destruct H as [Hc Hlt].
    destruct (find_next_site_def l (start c.2)) as [c' |] eqn:E; [| exact I].
    apply find_next_from_Some in E as [A B]. split; [exact A |].
    pose proof (later_sites_decrease l (start c.2) c'.2 A B). lia.
Qed.

Lemma first_event_horizon_reconfig_total (l : list site_def)
    (executed : synode_no) (active : site_ptr) :
  find_site_def l executed = Some active ->
  is_Some (first_event_horizon_reconfig l executed).
Proof.
  intros Ha. unfold first_event_horizon_reconfig. rewrite Ha. cbn.
  apply first_event_horizon_reconfig_loop_total.
  destruct (find_next_site_def l (start active.2)) as [c |] eqn:E; [| exact I].
  apply find_next_from_Some in E as [A B]. split; [exact A |].
  pose proof (later_sites_decrease l (start active.2) c.2 A B).
  pose proof (later_sites_le l (start active.2)). lia.
Qed.



Lemma u64_add_l (x y : Z) : u64 (u64 x + y) = u64 (x + y).
Proof. unfold u64. apply Zplus_mod_idemp_l. Qed.






(** ** The executor: exit handling *)






(** ** The proposer's waiting loop *)

(** *** Binary64 numbers: the rounding of a quotient *)

Lemma digits2_pos_size (p : positive) : digits2_pos p = Pos.size p.
Proof. induction p; cbn; congruence. Qed.

Lemma Zdigits2_log2 (p : positive) : Zdigits2 (Zpos p) = Z.log2 (Zpos p) + 1.
Proof.
  cbn [Zdigits2]. rewrite digits2_pos_size.
  destruct p; cbn [Pos.size Z.log2]; lia.
Qed.

Lemma Zdigits2_unique (p : positive) (d : Z) :
  1 <= d -> 2 ^ (d - 1) <= Zpos p < 2 ^ d -> Zdigits2 (Zpos p) = d.
Proof.
  intros Hd H. rewrite Zdigits2_log2.
  rewrite (Z.log2_unique (Zpos p) (d - 1)); [lia | lia |].
  replace (Z.succ (d - 1)) with d by lia. exact H.
Qed.

Lemma Zdigits2_bounds (p : positive) :
  2 ^ (Zdigits2 (Zpos p) - 1) <= Zpos p < 2 ^ Zdigits2 (Zpos p).
Proof.
  rewrite Zdigits2_log2.
  pose proof (Z.log2_spec (Zpos p) ltac:(lia)) as H.
  replace (Z.log2 (Zpos p) + 1 - 1) with (Z.log2 (Zpos p)) by lia.
  replace (Z.log2 (Zpos p) + 1) with (Z.succ (Z.log2 (Zpos p))) by lia.
  exact H.
Qed.

Lemma fexp_eq (e : Z) : fexp prec emax e = Z.max (e - 53) (-1074).
Proof. reflexivity. Qed.

Lemma shr_m_of_loc (m : Z) (l : location) : shr_m (shr_record_of_loc m l) = m.
Proof. destruct l as [| []]; reflexivity. Qed.

Lemma loc_of_shr_of_loc (m : Z) (l : location) :
  loc_of_shr_record (shr_record_of_loc m l) = l.
Proof. destruct l as [| []]; reflexivity. Qed.

Lemma shr_m_shr_1 (mrs : shr_record) :
  0 <= shr_m mrs -> shr_m (shr_1 mrs) = shr_m mrs / 2.
Proof.
  destruct mrs as [m r s]. cbn [shr_m]. intros H.
  rewrite <- Z.div2_div.
  destruct m as [| [p | p |] | p]; try reflexivity; lia.
Qed.

Lemma round_nearest_even_bounds (m : Z) (l : location) :
  m <= round_nearest_even m l <= m + 1.
Proof.
  unfold round_nearest_even. destruct l as [| []]; try lia.
  destruct (Z.even m); lia.
Qed.

Lemma shr_fexp_keep (m : positive) (e : Z) (l : location) :
  Zdigits2 (Zpos m) = 53 -> -1074 <= e ->
  shr_fexp prec emax (Zpos m) e l = (shr_record_of_loc (Zpos m) l, e).
Proof.
  intros Hd He. unfold shr_fexp. rewrite Hd, fexp_eq.
  replace (Z.max (53 + e - 53) (-1074) - e) with 0 by lia. reflexivity.
Qed.

Lemma shr_fexp_one (m : positive) (e : Z) (l : location) :
  Zdigits2 (Zpos m) = 54 -> -1075 <= e ->
  shr_fexp prec emax (Zpos m) e l
  = (shr_1 (shr_record_of_loc (Zpos m) l), e + 1).
Proof.
  intros Hd He. unfold shr_fexp. rewrite Hd, fexp_eq.
  replace (Z.max (54 + e - 53) (-1074) - e) with 1 by lia. reflexivity.
Qed.

(** Rounding a mantissa of 53 binary digits. *)
Lemma binary_round_aux_53 (sx : bool) (m : positive) (e : Z) (l : location) :
  2 ^ 52 <= Zpos m < 2 ^ 53 -> -1074 <= e -> e + 1 <= 971 ->
  exists (m' : positive) (e' : Z),
    binary_round_aux prec emax sx (Zpos m) e l = S754_finite sx m' e'
    /\ ((e' = e /\ Zpos m <= Zpos m' <= Zpos m + 1)
        \/ (e' = e + 1 /\ Zpos m' = 2 ^ 52 /\ Zpos m = 2 ^ 53 - 1)).
Proof.
  intros Hm He1 He2. unfold binary_round_aux.
  rewrite shr_fexp_keep by (try apply Zdigits2_unique; lia).
  rewrite shr_m_of_loc, loc_of_shr_of_loc.
  pose proof (round_nearest_even_bounds (Zpos m) l) as Hr.
  destruct (round_nearest_even (Zpos m) l) as [| r | r] eqn:Er; try lia.
  destruct (Z.eq_dec (Zpos r) (2 ^ 53)) as [E | E].
  - rewrite shr_fexp_one by (try apply Zdigits2_unique; lia).
    pose proof (shr_m_shr_1 (shr_record_of_loc (Zpos r) loc_Exact)) as Hs.
    rewrite shr_m_of_loc in Hs. specialize (Hs ltac:(lia)).
    assert (Hs' : shr_m (shr_1 (shr_record_of_loc (Zpos r) loc_Exact))
                  = 2 ^ 52).
    { rewrite Hs, E. reflexivity. }
    clear Hs.
    destruct (shr_m _) as [| m' | m'] eqn:Em; try (cbn in Hs'; lia).
    replace (e + 1 <=? emax - prec) with true
      by (symmetry; apply Z.leb_le; change (emax - prec) with 971; lia).
    exists m', (e + 1). split; [reflexivity |]. right. lia.
  - rewrite shr_fexp_keep by (try apply Zdigits2_unique; lia).
    rewrite shr_m_of_loc.
    replace (e <=? emax - prec) with true
      by (symmetry; apply Z.leb_le; change (emax - prec) with 971; lia).
    exists r, e. split; [reflexivity |]. left. lia.
Qed.

(** Rounding a mantissa of 54 binary digits that is not about to overflow. *)
Lemma binary_round_aux_54 (sx : bool) (m : positive) (e : Z) (l : location) :
  2 ^ 53 <= Zpos m < 2 ^ 54 - 2 -> -1075 <= e -> e + 1 <= 971 ->
  exists m' : positive,
    binary_round_aux prec emax sx (Zpos m) e l = S754_finite sx m' (e + 1)
    /\ Zpos m / 2 <= Zpos m' <= Zpos m / 2 + 1.
Proof.
  intros Hm He1 He2. unfold binary_round_aux.
  rewrite shr_fexp_one by (try apply Zdigits2_unique; lia).
  pose proof (shr_m_shr_1 (shr_record_of_loc (Zpos m) l)) as Hs.
  rewrite shr_m_of_loc in Hs. specialize (Hs ltac:(lia)).
  set (mrs := shr_1 (shr_record_of_loc (Zpos m) l)) in *.
  pose proof (round_nearest_even_bounds (shr_m mrs) (loc_of_shr_record mrs))
    as Hr.
  assert (Hh : 2 ^ 52 <= Zpos m / 2 < 2 ^ 53 - 1).
  { split.
    - apply Z.div_le_lower_bound; lia.
    - apply Z.div_lt_upper_bound; lia. }
  destruct (round_nearest_even (shr_m mrs) (loc_of_shr_record mrs))
    as [| r | r] eqn:Er; rewrite Hs in Hr; try lia.
  rewrite shr_fexp_keep by (try apply Zdigits2_unique; lia).
  rewrite shr_m_of_loc.
  replace (e + 1 <=? emax - prec) with true
    by (symmetry; apply Z.leb_le; change (emax - prec) with 971; lia).
  exists r. split; [reflexivity | lia].
Qed.

Lemma SFdiv_core_binary_eq (m1 M : positive) (e1 : Z) :
  2 ^ 52 <= Zpos m1 < 2 ^ 53 -> 2 ^ 52 <= Zpos M < 2 ^ 53 -> -1073 <= e1 ->
  SFdiv_core_binary prec emax (Zpos m1) e1 (Zpos M) (-52)
  = (Zpos m1 * 2 ^ 53 / Zpos M, e1 - 1,
     new_location (Zpos M) ((Zpos m1 * 2 ^ 53) mod Zpos M)).
Proof.
  intros Hm HM He. unfold SFdiv_core_binary.
  rewrite (Zdigits2_unique m1 53), (Zdigits2_unique M 53) by lia.
  rewrite fexp_eq.
  replace (Z.min (Z.max (53 + e1 - (53 + -52) - 53) (-1074)) (e1 - -52))
    with (e1 - 1) by lia.
  replace (e1 - -52 - (e1 - 1)) with 53 by lia.
  rewrite Z.shiftl_mul_pow2 by lia.
  unfold Z.div, Z.modulo.
  destruct (Z.div_eucl (Zpos m1 * 2 ^ 53) (Zpos M)) as [q r]. reflexivity.
Qed.

(** The quotient of a positive normal number (above the least exponent) by
    a number between 1 + 2^-51 and 2 is a smaller positive number: its
    exponent is smaller, or the exponent is the same and the mantissa is
    smaller. *)
Lemma SFdiv_decreases (m1 M : positive) (e1 : Z) :
  2 ^ 52 <= Zpos m1 < 2 ^ 53 -> 2 ^ 52 + 2 <= Zpos M < 2 ^ 53 ->
  -1073 <= e1 <= 971 ->
  exists (m' : positive) (e' : Z),
    SFdiv prec emax (S754_finite false m1 e1) (S754_finite false M (-52))
    = S754_finite false m' e'
    /\ (e' < e1 \/ (e' = e1 /\ Zpos m' < Zpos m1)).
Proof.
  intros Hm HM He. unfold SFdiv.
  rewrite SFdiv_core_binary_eq by lia. cbn [xorb].
  pose proof (Z.mul_div_le (Zpos m1 * 2 ^ 53) (Zpos M) ltac:(lia)) as Hle.
  assert (Hlo : 2 ^ 52 <= Zpos m1 * 2 ^ 53 / Zpos M).
  { apply Z.div_le_lower_bound; lia. }
  assert (Hhi : Zpos m1 * 2 ^ 53 / Zpos M < 2 ^ 54 - 2).
  { apply Z.div_lt_upper_bound; lia. }
  destruct (Zpos m1 * 2 ^ 53 / Zpos M) as [| q | q] eqn:Eq; try lia.
  destruct (Z_lt_le_dec (Zpos q) (2 ^ 53)) as [Hq | Hq].
  - destruct (binary_round_aux_53 false q (e1 - 1)
                (new_location (Zpos M) ((Zpos m1 * 2 ^ 53) mod Zpos M)))
      as (m' & e' & E & [[-> _] | (-> & Hm' & Hq')]); try lia.
    + exists m', (e1 - 1). split; [exact E | lia].
    + exists m', (e1 - 1 + 1). split; [exact E |]. right. lia.
  - assert (Hn : 0 <= (Zpos M - (2 ^ 52 + 2)) * Zpos q)
      by (apply Z.mul_nonneg_nonneg; lia).
    pose proof (Z.mul_div_le (Zpos q) 2 ltac:(lia)) as Hh.
    destruct (binary_round_aux_54 false q (e1 - 1)
                (new_location (Zpos M) ((Zpos m1 * 2 ^ 53) mod Zpos M)))
      as (m' & E & Hm'); try lia.
    exists m', (e1 - 1 + 1). split; [exact E |]. right. lia.
Qed.

(** *** Binary64 numbers: the order *)

Lemma valid_binary_bounds (s : bool) (m : positive) (e : Z) :
  valid_binary (S754_finite s m e) = true ->
  -1074 <= e <= 971 /\ Zpos m < 2 ^ 53 /\ (-1074 < e -> 2 ^ 52 <= Zpos m).
Proof.
  unfold valid_binary, bounded, canonical_mantissa.
  rewrite andb_true_iff, Z.eqb_eq, Z.leb_le, fexp_eq.
  change (emax - prec) with 971.
  change (Zpos (digits2_pos m)) with (Zdigits2 (Zpos m)).
  pose proof (Zdigits2_bounds m) as Hd.
  intros [Hc He].
  assert (Hd53 : Zdigits2 (Zpos m) <= 53) by lia.
  split; [lia |]. split.
  - apply Z.lt_le_trans with (2 ^ Zdigits2 (Zpos m)); [lia |].
    apply Z.pow_le_mono_r; lia.
  - intros Hn. replace (Zdigits2 (Zpos m)) with 53 in Hd by lia.
    change (53 - 1) with 52 in Hd. lia.
Qed.

(** Numbers that are not NaN compare as their ranks do. *)
Lemma SFcompare_rank (x y : spec_float) :
  valid_binary x = true -> valid_binary y = true ->
  x <> S754_nan -> y <> S754_nan ->
  SFcompare x y = Some (SFrank x ?= SFrank y).
Proof.
  intros Vx Vy Nx Ny.
  destruct x as [sx | sx | | sx mx ex]; try congruence;
    destruct y as [sy | sy | | sy my ey]; try congruence;
    try (apply valid_binary_bounds in Vx as (Ex & Mx & _));
    try (apply valid_binary_bounds in Vy as (Ey & My & _));
    cbn [SFcompare SFrank]; cbv zeta;
    try destruct sx; try destruct sy; f_equal; symmetry;
    try (apply Z.compare_eq_iff; lia);
    try (apply Z.compare_lt_iff; lia);
    try (apply Z.compare_gt_iff; lia).
  - destruct (Z.compare_spec ex ey) as [E | E | E].
    + subst ey.
      change (PosDef.Pos.compare_cont Eq mx my) with (Zpos mx ?= Zpos my).
      destruct (Z.compare_spec (Zpos mx) (Zpos my)) as [F | F | F];
        cbn [CompOpp];
        [apply Z.compare_eq_iff | apply Z.compare_gt_iff
         | apply Z.compare_lt_iff]; lia.
    + apply Z.compare_gt_iff; lia.
    + apply Z.compare_lt_iff; lia.
  - destruct (Z.compare_spec ex ey) as [E | E | E].
    + subst ey.
      change (PosDef.Pos.compare_cont Eq mx my) with (Zpos mx ?= Zpos my).
      destruct (Z.compare_spec (Zpos mx) (Zpos my)) as [F | F | F];
        [apply Z.compare_eq_iff | apply Z.compare_lt_iff
         | apply Z.compare_gt_iff]; lia.
    + apply Z.compare_lt_iff; lia.
    + apply Z.compare_gt_iff; lia.
Qed.

Lemma spec_float_nan_dec (x : spec_float) : x = S754_nan \/ x <> S754_nan.
Proof. destruct x; (left; reflexivity) || (right; discriminate). Qed.

Lemma SFcompare_nan_l (y : spec_float) : SFcompare S754_nan y = None.
Proof. reflexivity. Qed.

Lemma SFcompare_nan_r (x : spec_float) : SFcompare x S754_nan = None.
Proof. destruct x; reflexivity. Qed.

(** [x < y] on binary64 numbers: neither is NaN and the ranks are in that
    order. *)
Lemma ltb_rank (x y : float) :
  PrimFloat.ltb x y = true
  <-> Prim2SF x <> S754_nan /\ Prim2SF y <> S754_nan /\ frank x < frank y.
Proof.
  rewrite ltb_spec. unfold SFltb, frank.
  destruct (spec_float_nan_dec (Prim2SF x)) as [Nx | Nx].
  { rewrite Nx, SFcompare_nan_l. split; [discriminate | tauto]. }
  destruct (spec_float_nan_dec (Prim2SF y)) as [Ny | Ny].
  { rewrite Ny, SFcompare_nan_r. split; [discriminate | tauto]. }
  rewrite (SFcompare_rank _ _ (Prim2SF_valid x) (Prim2SF_valid y) Nx Ny).
  destruct (Z.compare_spec (SFrank (Prim2SF x)) (SFrank (Prim2SF y)))
    as [E | E | E];
    split; intros H; try discriminate; try reflexivity;
    try (split; [exact Nx | split; [exact Ny | lia]]);
    destruct H as (_ & _ & H); lia.
Qed.

Lemma leb_rank (x y : float) :
  PrimFloat.leb x y = true
  <-> Prim2SF x <> S754_nan /\ Prim2SF y <> S754_nan /\ frank x <= frank y.
Proof.
  rewrite leb_spec. unfold SFleb, frank.
  destruct (spec_float_nan_dec (Prim2SF x)) as [Nx | Nx].
  { rewrite Nx, SFcompare_nan_l. split; [discriminate | tauto]. }
  destruct (spec_float_nan_dec (Prim2SF y)) as [Ny | Ny].
  { rewrite Ny, SFcompare_nan_r. split; [discriminate | tauto]. }
  rewrite (SFcompare_rank _ _ (Prim2SF_valid x) (Prim2SF_valid y) Nx Ny).
  destruct (Z.compare_spec (SFrank (Prim2SF x)) (SFrank (Prim2SF y)))
    as [E | E | E];
    split; intros H; try discriminate; try reflexivity;
    try (split; [exact Nx | split; [exact Ny | lia]]);
    destruct H as (_ & _ & H); lia.
Qed.

(** The quotient of a number above 2^-1021 that is not +infinity by a
    number between 1 + 2^-51 and 2 is a smaller positive number. *)
Lemma div_decreases (x d : float) (M : positive) :
  Prim2SF d = S754_finite false M (-52) -> 2 ^ 52 + 2 <= Zpos M ->
  2 ^ 54 < frank x < 2 ^ 64 ->
  0 < frank (PrimFloat.div x d) < frank x.
Proof.
  intros Hd HM Hx. unfold frank in *. rewrite div_spec, Hd.
  pose proof (Prim2SF_valid x) as Vx.
  pose proof (Prim2SF_valid d) as Vd. rewrite Hd in Vd.
  pose proof (Prim2SF_valid (PrimFloat.div x d)) as Vq.
  rewrite div_spec, Hd in Vq.
  apply valid_binary_bounds in Vd as (_ & HM' & _).
  destruct (Prim2SF x) as [s | s | | s m e];
    [cbn in Hx; lia | destruct s; cbn in Hx; lia | cbn in Hx; lia |].
  apply valid_binary_bounds in Vx as (He & Hm & Hn).
  destruct s; cbn [SFrank] in Hx; cbv zeta in Hx; [lia |].
  assert (He' : -1073 <= e) by lia.
  destruct (SFdiv_decreases m M e) as (m' & e' & E & Hlt); try lia.
  unfold SF64div in *. rewrite E in Vq |- *.
  apply valid_binary_bounds in Vq as (He2 & Hm2 & _).
  cbn [SFrank]. cbv zeta. lia.
Qed.

(** The loops [while (retval > cap) retval /= d] of [wakeup_delay] and
    [wakeup_delay_for_perf], for a divisor [d] between 1 + 2^-51 and 2:
    [loop] is any function that unfolds as such a loop does.  With a bound
    of at least 2^-1021 the loop ends for every number but +infinity, after
    the least number of divisions that brings the value within the bound. *)
Lemma division_loop_ends (d : float) (M : positive)
    (loop : nat -> float -> float -> option float) (cap : float) (n : nat)
    (x : float) :
  Prim2SF d = S754_finite false M (-52) ->
  2 ^ 52 + 2 <= Zpos M ->
  (forall fuel x cap,
     loop fuel x cap
     = if PrimFloat.ltb cap x then
         match fuel with
         | O => None
         | S fuel' => loop fuel' (PrimFloat.div x d) cap
         end
       else Some x) ->
  2 ^ 54 <= frank cap ->
  frank x < 2 ^ 64 ->
  (Z.to_nat (frank x) <= n)%nat ->
  exists k,
    (forall fuel, (k <= fuel)%nat -> loop fuel x cap = Some (divided d k x))
    /\ PrimFloat.ltb cap (divided d k x) = false
    /\ forall j, (j < k)%nat -> PrimFloat.ltb cap (divided d j x) = true.
Proof.
  intros Hd HM loop_eq Hcap. revert x.
  induction n as [| n IH]; intros x Hx Hn;
    destruct (PrimFloat.ltb cap x) eqn:Hlt.
  - apply ltb_rank in Hlt as (_ & _ & Hlt). lia.
  - exists 0%nat. cbn [divided]. split; [| split; [exact Hlt | lia]].
    intros fuel _. rewrite loop_eq, Hlt. reflexivity.
  - pose proof Hlt as Hr. apply ltb_rank in Hr as (_ & _ & Hr).
    pose proof (div_decreases x d M Hd HM ltac:(lia)) as Hdec.
    destruct (IH (PrimFloat.div x d)) as (k & Hk & Hstop & Hmin); try lia.
    exists (S k). cbn [divided]. split; [| split; [exact Hstop |]].
    + intros [| fuel] Hle; [lia |]. rewrite loop_eq, Hlt.
      apply Hk. lia.
    + intros [| j] Hj; cbn [divided]; [exact Hlt |]. apply Hmin. lia.
  - exists 0%nat. cbn [divided]. split; [| split; [exact Hlt | lia]].
    intros fuel _. rewrite loop_eq, Hlt. reflexivity.
Qed.

(** From +infinity such a loop never ends. *)
Lemma division_loop_infinity (d : float) (M : positive)
    (loop : nat -> float -> float -> option float) (cap : float)
    (fuel : nat) :
  Prim2SF d = S754_finite false M (-52) ->
  (forall fuel x cap,
     loop fuel x cap
     = if PrimFloat.ltb cap x then
         match fuel with
         | O => None
         | S fuel' => loop fuel' (PrimFloat.div x d) cap
         end
       else Some x) ->
  PrimFloat.ltb cap infinity = true -> loop fuel infinity cap = None.
Proof.
  intros Hd loop_eq Hlt.
  assert (E : PrimFloat.div infinity d = infinity).
  { apply Prim2SF_inj. rewrite div_spec, Hd. reflexivity. }
  induction fuel as [| fuel IH]; rewrite loop_eq, Hlt; [reflexivity |].
  rewrite E. exact IH.
Qed.

Lemma eqb_infinity_false (x : float) :
  PrimFloat.eqb x infinity = false -> frank x < 2 ^ 64.
Proof.
  rewrite FloatAxioms.eqb_spec. unfold frank, SFeqb.
  pose proof (Prim2SF_valid x) as Vx.
  destruct (Prim2SF x) as [s | [|] | | [|] m e]; cbn; try discriminate; try lia;
    apply valid_binary_bounds in Vx; lia.
Qed.

Lemma eqb_infinity_true (x : float) :
  PrimFloat.eqb x infinity = true -> x = infinity.
Proof.
  rewrite FloatAxioms.eqb_spec. unfold SFeqb. intros H. apply Prim2SF_inj.
  change (Prim2SF infinity) with (S754_infinity false) in *.
  destruct (Prim2SF x) as [s | [|] | | [|] m e]; cbn in H;
    try discriminate; reflexivity.
Qed.

(** The bound of [wakeup_delay]: 10 times the round-trip time, kept between
    0.005 and 0.5; 0.5 when the product is NaN. *)
Lemma wakeup_delay_threshold (c : float) :
  let cap :=
    if PrimFloat.ltb c 0.005 then 0.005%float
    else if PrimFloat.ltb c 0.5 then c else 0.5%float in
  (if PrimFloat.ltb (if PrimFloat.ltb c 0.005 then 0.005%float else c) 0.5
   then (if PrimFloat.ltb c 0.005 then 0.005%float else c)
   else 0.5%float) = cap
  /\ PrimFloat.leb 0.005 cap = true
  /\ PrimFloat.leb cap 0.5 = true
  /\ 2 ^ 54 <= frank cap.
Proof.
  cbv zeta. destruct (PrimFloat.ltb c 0.005) eqn:E1.
  - change (PrimFloat.ltb 0.005 0.5) with true. cbv iota.
    repeat split; vm_compute; congruence.
  - destruct (PrimFloat.ltb c 0.5) eqn:E2.
    + split; [reflexivity |].
      pose proof E2 as H2. apply ltb_rank in H2 as (Nc & _ & H2).
      assert (H1 : frank 0.005 <= frank c).
      { destruct (Z_lt_le_dec (frank c) (frank 0.005)) as [Hlt | Hle];
          [| exact Hle].
        assert (Hc : PrimFloat.ltb c 0.005 = true).
        { apply ltb_rank. split; [exact Nc |]. split; [| exact Hlt].
          vm_compute. discriminate. }
        congruence. }
      split; [| split].
      * apply leb_rank. split; [vm_compute; discriminate |]. split; assumption.
      * apply leb_rank. split; [exact Nc |].
        split; [vm_compute; discriminate | lia].
      * assert (H5 : 2 ^ 54 <= frank 0.005) by (vm_compute; discriminate).
        lia.
    + repeat split; vm_compute; congruence.
Qed.

Lemma wakeup_delay_reduce_eq (fuel : nat) (x cap : float) :
  wakeup_delay_reduce fuel x cap
  = if PrimFloat.ltb cap x then
      match fuel with
      | O => None
      | S fuel' => wakeup_delay_reduce fuel' (PrimFloat.div x 1.3) cap
      end
    else Some x.
Proof. destruct fuel; reflexivity. Qed.

(** C7 (amended). The numbers are binary64 numbers and the operations the
    IEEE 754 ones.  The delay a waiting proposer sleeps for starts from
    [0.001 + site.max_conn_rtt] on the first wait (previous delay 0) and
    from the previous delay multiplied by 1.4 on every later one.  The bound
    is 10 times [site.max_conn_rtt] kept between 0.005 and 0.5: 0.005 when
    the product is below it, 0.5 when the product is 0.5 or more or is NaN.
    The start value is divided by 1.3 as often as it takes - and no more
    often - until it is not greater than the bound, so a start value that is
    not greater than the bound is the delay.  The computation ends for every
    start value but +infinity, for which it never ends.  When the task wakes
    up on its own machine, with the value not yet learned, and at least
    three seconds have gone by since the last push ([start_push + 3.0 <=
    now]), phase 1 is pushed again (a prepare message with the machine's new
    ballot) and the time of the last push becomes the current time; before
    that nothing is pushed. *)
Theorem wakeup_delay_spec (site : site_def) (old : float) :
  let rtt := max_conn_rtt site in
  let first :=
    if PrimFloat.eqb 0 old then PrimFloat.add 0.001 rtt
    else PrimFloat.mul old 1.4 in
  let cap :=
    if PrimFloat.ltb (PrimFloat.mul rtt 10) 0.005 then 0.005%float
    else if PrimFloat.ltb (PrimFloat.mul rtt 10) 0.5
         then PrimFloat.mul rtt 10 else 0.5%float in
  (PrimFloat.leb 0.005 cap = true /\ PrimFloat.leb cap 0.5 = true)
  /\ (PrimFloat.eqb first infinity = false ->
      exists k,
        (forall n, (k <= n)%nat ->
                   wakeup_delay n site old = Some (divided 1.3 k first))
        /\ PrimFloat.ltb cap (divided 1.3 k first) = false
        /\ (forall j, (j < k)%nat ->
                      PrimFloat.ltb cap (divided 1.3 j first) = true))
  /\ (PrimFloat.eqb first infinity = true ->
      forall n, wakeup_delay n site old = None)
  /\ (PrimFloat.ltb cap first = false ->
      forall n, wakeup_delay n site old = Some first)
  /\ (forall fuel wait_forced_config ep w now delay,
        ep_site ep = Some site ->
        ep_delay ep = old ->
        wakeup_delay fuel site old = Some delay ->
        synode_eq (ep_msgno ep) (synode (w_p w)) = true ->
        is_Some (prop_msg (proposer (w_p w))) ->
        finished w = false ->
        (PrimFloat.leb (PrimFloat.add (ep_start_push ep) 3.0) now = true ->
         exists ep' w' msg,
           proposer_wait_pass fuel wait_forced_config ep w now
           = Some (Wait_continue ep' w')
           /\ ep_delay ep' = delay
           /\ ep_start_push ep' = now
           /\ w_out w' = w_out w ++ [Ev_prepare_msg msg]
           /\ m_op msg = prepare_op
           /\ m_synode msg = ep_msgno ep
           /\ m_proposal msg = bal (proposer (w_p w')))
        /\ (PrimFloat.leb (PrimFloat.add (ep_start_push ep) 3.0) now = false ->
            exists ep',
              proposer_wait_pass fuel wait_forced_config ep w now
              = Some (Wait_continue ep' w)
              /\ ep_delay ep' = delay
              /\ ep_start_push ep' = ep_start_push ep)).
Proof.
  intros rtt first cap.
  destruct (wakeup_delay_threshold (PrimFloat.mul rtt 10))
    as (Ecap & B1 & B2 & Hr).
  cbv zeta in Ecap, B1, B2, Hr. fold cap in Ecap, B1, B2, Hr.
  assert (Hw : forall n,
             wakeup_delay n site old = wakeup_delay_reduce n first cap).
  { intros n. unfold wakeup_delay. cbv zeta. fold rtt. fold first.
    rewrite Ecap. reflexivity. }
  split; [split; [exact B1 | exact B2] |].
  split; [| split; [| split]].
  - intros Hinf. apply eqb_infinity_false in Hinf.
    destruct (division_loop_ends 1.3 5854679515581645 wakeup_delay_reduce
                cap (Z.to_nat (frank first)) first eq_refl ltac:(lia)
                wakeup_delay_reduce_eq Hr Hinf (le_n _))
      as (k & Hk & Hstop & Hmin).
    exists k. split; [| split; [exact Hstop | exact Hmin]].
    intros n Hn. rewrite Hw. apply Hk, Hn.
  - intros Hinf n. apply eqb_infinity_true in Hinf. rewrite Hw, Hinf.
    apply (division_loop_infinity 1.3 5854679515581645 wakeup_delay_reduce
             cap n eq_refl wakeup_delay_reduce_eq).
    apply leb_rank in B2 as (Nc & _ & B2).
    apply ltb_rank. split; [exact Nc |]. split; [vm_compute; discriminate |].
    assert (H5 : frank 0.5 < frank infinity) by (vm_compute; reflexivity).
    lia.
  - intros Hle n. rewrite Hw, wakeup_delay_reduce_eq, Hle. reflexivity.
  - intros fuel wfc ep w now delay Hsite Hold Hd Hsyn Hmsg Hfin.
    unfold proposer_wait_pass. rewrite Hsite, Hold. cbn [mbind option_bind].
    rewrite Hd. cbn [mbind option_bind]. cbv zeta.
    cbn [ep_msgno ep_start_push ep_site ep_prepare_msg ep_delay].
    rewrite Hsyn. rewrite bool_decide_true by exact Hmsg. cbn [negb orb].
    rewrite Hfin. split.
    + intros Hle. rewrite Hle.
      unfold push_msg_3p, prepare_push_3p. cbv zeta. cbv beta iota.
      eexists _, _, _. split; [reflexivity |].
      repeat split; reflexivity.
    + intros Hn. rewrite Hn.
      eexists. split; [reflexivity |]. cbn. auto.
Qed.

(** ** Validation of configuration changes *)

(** Whether a node is in a list depends on its address alone. *)
Lemma node_exists_same_address (n n' : node_address) (l : list node_address) :
  address n = address n' -> node_exists n l = node_exists n' l.
Proof. intros E. unfold node_exists. rewrite E. reflexivity. Qed.

Lemma node_exists_witness (name : node_address) (l : list node_address) :
  node_exists name l = true ->
  exists n, n ∈ l /\ address n = address name.
Proof.
  unfold node_exists. intros H. apply existsb_exists in H as (n & Hin & E).
  exists n. split; [apply list_elem_of_In, Hin |].
  apply String.eqb_eq, E.
Qed.

Lemma add_node_unsafe_against_event_horizon_loop_total (l : list site_def)
    (latest : site_ptr) (ns : list node_address) :
  get_site_def l = Some latest ->
  is_Some (add_node_unsafe_against_event_horizon_loop l ns).
Proof.
  intros Hl. induction ns as [| n ns IH]; cbn; [eauto |].
  unfold unsafe_against_event_horizon. rewrite Hl.
  destruct (reconfigurable_event_horizon (max_proto n)); cbn.
  - exact IH.
  - destruct (negb _); [eauto | exact IH].
Qed.

(** A list of new nodes that holds an address of the latest configuration
    is found to hold an old incarnation. *)
Lemma allow_add_node_loop_member (l : list site_def) (executed : synode_no)
    (latest valid : site_ptr) (name : node_address) (ns : list node_address) :
  get_site_def l = Some latest ->
  find_site_def l executed = Some valid ->
  node_exists name ns = true ->
  node_exists name (nodes latest.2) = true ->
  allow_add_node_loop l executed ns = Some true.
Proof.
  intros Hl Hv Hin Hmem.
  apply node_exists_witness in Hin as (n0 & Hn0 & E0).
  induction ns as [| n ns IH]; [inversion Hn0 |].
  cbn. rewrite Hl. cbn.
  destruct (node_exists n (nodes latest.2)) eqn:E1; [reflexivity |].
  rewrite Hv. cbn.
  destruct (node_exists n (nodes valid.2)) eqn:E2; [reflexivity |].
  apply elem_of_cons in Hn0 as [-> | Hn0].
  - rewrite (node_exists_same_address _ _ _ E0) in E1. congruence.
  - apply IH, Hn0.
Qed.

(** C9 (amended). An add_node request whose node list contains the local
    node's own address is rejected with REQUEST_FAIL while the node has not
    booted ([executed_msg.msgno <= 2]); once the node has booted it is
    rejected with REQUEST_FAIL when the local address is a node of the latest
    configuration (the old-incarnation check of [allow_add_node]). *)
Theorem can_execute_cfgchange_own_address (identity : node_address)
    (l : list site_def) (executed : synode_no) (p : pax_msg) (a : app_data) :
  m_a p = Some a ->
  a_c_t a = add_node_type ->
  add_node_adding_own_address identity a = true ->
  (msgno executed <= 2 ->
   can_execute_cfgchange identity l executed p = Some REQUEST_FAIL)
  /\ (forall latest valid,
        msgno executed > 2 ->
        get_site_def l = Some latest ->
        find_site_def l executed = Some valid ->
        node_exists identity (nodes latest.2) = true ->
        can_execute_cfgchange identity l executed p = Some REQUEST_FAIL).
Proof.
  intros Ha Hct Hown. split.
  - intros Hb. unfold can_execute_cfgchange.
    apply Z.leb_le in Hb. rewrite Hb, Ha. cbn. rewrite Hown. reflexivity.
  - intros latest valid Hb Hl Hv Hmem. unfold can_execute_cfgchange.
    assert (Hb' : (msgno executed <=? 2) = false) by (apply Z.leb_gt; lia).
    rewrite Hb', Ha.
    destruct (negb (a_group_id a =? 0) && negb (a_group_id a =? group_id executed));
      [reflexivity |].
    assert (Hadd : allow_add_node l executed a = Some false).
    { unfold allow_add_node, add_node_unsafe_against_event_horizon.
      destruct (add_node_unsafe_against_event_horizon_loop_total l latest
                  (a_nodes a) Hl) as [u Hu].
      rewrite Hu. cbn. destruct u; [reflexivity |].
      destruct (add_node_unsafe_against_ipv4_old_nodes l a); [reflexivity |].
      unfold add_node_adding_own_address in Hown.
      rewrite (allow_add_node_loop_member l executed latest valid identity
                 (a_nodes a) Hl Hv Hown Hmem).
      reflexivity. }
    rewrite Hct. cbn [bool_decide]. rewrite Hadd. reflexivity.
Qed.

(** ** The delay FIFO as a queue *)

Lemma fifo_insert_wf (s : synode_no) (f : delay_fifo_t) :
  fifo_wf f -> fifo_wf (fifo_insert s f).
Proof.
  unfold fifo_wf, fifo_insert, fifo_full, addone, FIFO_SIZE.
  intros (Hn & Hf & Hr & Hl).
  destruct (df_n f >=? 1000) eqn:E; cbn [negb]; [auto |].
  rewrite Z.geb_leb in E. apply Z.leb_gt in E. cbn.
  rewrite length_insert. repeat split; try lia.
  rewrite Hr, Z.rem_mod_nonneg.
  - rewrite Zplus_mod_idemp_l. f_equal. lia.
  - pose proof (Z.mod_pos_bound (df_front f + df_n f) 1000). lia.
  - lia.
Qed.

Lemma fifo_extract_wf (f : delay_fifo_t) :
  fifo_wf f -> fifo_wf (fifo_extract f).2.
Proof.
  unfold fifo_wf, fifo_extract, fifo_empty, addone, FIFO_SIZE.
  intros (Hn & Hf & Hr & Hl).
  destruct (df_n f <=? 0) eqn:E; cbn [negb]; [auto |].
  apply Z.leb_gt in E. cbn.
  rewrite Z.rem_mod_nonneg by lia.
  pose proof (Z.mod_pos_bound (df_front f + 1) 1000).
  repeat split; try lia.
  rewrite Hr, Zplus_mod_idemp_l. f_equal. lia.
Qed.

Lemma fifo_drain_contents (fuel : nat) (f : delay_fifo_t) :
  fifo_wf f -> (Z.to_nat (df_n f) <= fuel)%nat ->
  fifo_drain fuel f = fifo_contents f.
Proof.
  revert f. induction fuel as [| k IH]; intros f Hwf Hk.
  - unfold fifo_contents. replace (Z.to_nat (df_n f)) with 0%nat by lia.
    reflexivity.
  - cbn [fifo_drain].
    pose proof (fifo_extract_wf f Hwf) as Hwf'.
    destruct Hwf as (Hn & Hf & Hr & Hl).
    unfold fifo_empty in *. destruct (df_n f <=? 0) eqn:E.
    + apply Z.leb_le in E. unfold fifo_contents.
      replace (Z.to_nat (df_n f)) with 0%nat by lia. reflexivity.
    + pose proof E as E'. apply Z.leb_gt in E'. rewrite IH; [| exact Hwf' |].
      * unfold fifo_extract, fifo_empty in *. rewrite E in *. cbn [negb fst snd] in *.
        unfold fifo_contents. cbn [df_n df_front df_q].
        replace (Z.to_nat (df_n f)) with (S (Z.to_nat (df_n f - 1))) by lia.
        cbn [seq map]. f_equal.
        -- f_equal. f_equal. rewrite Z.add_0_r. unfold FIFO_SIZE in *.
           symmetry. apply Z.mod_small. lia.
        -- rewrite <- seq_shift, map_map. apply map_ext. intros i.
           f_equal. f_equal. unfold addone, FIFO_SIZE in *.
           rewrite Z.rem_mod_nonneg by lia.
           rewrite Zplus_mod_idemp_l. f_equal. lia.
      * unfold fifo_extract, fifo_empty. rewrite E. cbn. lia.
Qed.

Lemma fifo_contents_insert (s : synode_no) (f : delay_fifo_t) :
  fifo_wf f -> fifo_full f = false ->
  fifo_contents (fifo_insert s f) = fifo_contents f ++ [s].
Proof.
  intros (Hn & Hf & Hr & Hl) Hfull.
  unfold fifo_insert. rewrite Hfull. cbn [negb].
  unfold fifo_full in Hfull. rewrite Z.geb_leb in Hfull. apply Z.leb_gt in Hfull.
  unfold fifo_contents. cbn [df_n df_front df_q].
  replace (Z.to_nat (df_n f + 1)) with (Z.to_nat (df_n f) + 1)%nat by lia.
  rewrite seq_app, map_app. cbn [seq map]. unfold FIFO_SIZE in *.
  pose proof (Z.mod_pos_bound (df_front f + df_n f) 1000 ltac:(lia)) as Hb.
  f_equal.
  - apply map_ext_in. intros i Hi. apply in_seq in Hi.
    rewrite !nth_lookup. f_equal.
    apply list_lookup_insert_ne.
    rewrite Hr.
    pose proof (Z.mod_pos_bound (df_front f + Z.of_nat i) 1000 ltac:(lia)).
    pose proof (Z.div_mod (df_front f + Z.of_nat i) 1000 ltac:(lia)).
    pose proof (Z.div_mod (df_front f + df_n f) 1000 ltac:(lia)).
    intros Heq. apply Z2Nat.inj in Heq; lia.
  - f_equal. rewrite nth_lookup, Hr.
    replace (0 + Z.to_nat (df_n f))%nat with (Z.to_nat (df_n f)) by lia.
    rewrite Z2Nat.id by lia.
    rewrite list_lookup_insert_eq; [reflexivity |]. lia.
Qed.

(** X1. The delay FIFO is first in, first out: a synode inserted into a
    queue that is not full comes out after everything the queue held, and
    the entries before it come out as they would have. *)
Theorem fifo_insert_then_drain (s : synode_no) (f : delay_fifo_t) (fuel : nat) :
  fifo_wf f ->
  fifo_full f = false ->
  (Z.to_nat (df_n f) < fuel)%nat ->
  fifo_drain fuel (fifo_insert s f) = fifo_drain fuel f ++ [s].
Proof.
  intros Hwf Hfull Hfuel.
  rewrite (fifo_drain_contents fuel (fifo_insert s f)).
  - rewrite (fifo_drain_contents fuel f Hwf) by lia.
    apply fifo_contents_insert; assumption.
  - apply fifo_insert_wf, Hwf.
  - unfold fifo_insert. rewrite Hfull. cbn. destruct Hwf as (Hn & _). lia.
Qed.

(** X2. The indices of the delay FIFO never leave the array: the invariant
    (count between 0 and FIFO_SIZE, front inside the array, rear the
    count-th place after front) is kept by every insertion and extraction,
    the slot an insertion writes is inside the array, and an extraction
    from a queue that is not empty returns its oldest entry and removes
    exactly that one. *)
Theorem fifo_indices_stay_in_array (s : synode_no) (f : delay_fifo_t) :
  fifo_wf f ->
  fifo_wf (fifo_insert s f)
  /\ fifo_wf (fifo_extract f).2
  /\ (Z.to_nat (df_rear f) < length (df_q f))%nat
  /\ (fifo_empty f = false ->
      fifo_contents f = (fifo_extract f).1 :: fifo_contents (fifo_extract f).2
      /\ fifo_front f = (fifo_extract f).1).
Proof.
  intros Hwf. split; [apply fifo_insert_wf, Hwf |].
  split; [apply fifo_extract_wf, Hwf |]. split.
  - destruct Hwf as (Hn & Hf & Hr & Hl). rewrite Hr, Hl. unfold FIFO_SIZE.
    pose proof (Z.mod_pos_bound (df_front f + df_n f) 1000 ltac:(lia)). lia.
  - intros He. split.
    + rewrite <- (fifo_drain_contents (S (Z.to_nat (df_n f))) f Hwf) by lia.
      cbn [fifo_drain]. rewrite He. f_equal.
      apply fifo_drain_contents; [apply fifo_extract_wf, Hwf |].
      unfold fifo_extract. rewrite He. cbn. lia.
    + unfold fifo_front, fifo_extract. rewrite He. reflexivity.
Qed.

(** ** Quorums *)

Lemma count_answered_common (a b : bit_set) (n : nat) :
  count_answered a n + count_answered b n > Z.of_nat n ->
  exists i, (i < n)%nat
            /\ BIT_ISSET (Z.of_nat i) a = true
            /\ BIT_ISSET (Z.of_nat i) b = true.
Proof.
  induction n as [| k IH]; cbn [count_answered]; intros H; [lia |].
  destruct (BIT_ISSET (Z.of_nat k) a) eqn:Ea,
           (BIT_ISSET (Z.of_nat k) b) eqn:Eb;
    try (exists k; split; [lia | split; assumption]);
    (destruct IH as (i & Hi & Hab); [lia | exists i; split; [lia | exact Hab]]).
Qed.

(** X3. Two majorities of the same site overlap: when two node sets both
    pass the default majority test (neither unanimity nor a forced
    configuration asked for), some member of the site has answered in
    both. *)
Theorem majority_quorums_intersect (forced_config : option site_def)
    (a b : bit_set) (s : option site_def) (delay_a delay_b : bool) :
  majority forced_config a s false delay_a false = true ->
  majority forced_config b s false delay_b false = true ->
  exists i : nat,
    Z.of_nat i < get_maxnodes s
    /\ BIT_ISSET (Z.of_nat i) a = true
    /\ BIT_ISSET (Z.of_nat i) b = true.
Proof.
  unfold majority, max_check. cbn zeta.
  rewrite !Z.gtb_ltb, !Z.ltb_lt. intros Ha Hb.
  assert (Hn : 0 <= get_maxnodes s) by (destruct s; cbn; lia).
  destruct (count_answered_common a b (Z.to_nat (get_maxnodes s)))
    as (i & Hi & Hab).
  - rewrite Z2Nat.id by exact Hn.
    pose proof (Z.div_mod (get_maxnodes s) 2 ltac:(lia)).
    pose proof (Z.mod_pos_bound (get_maxnodes s) 2 ltac:(lia)). lia.
  - exists i. split; [lia | exact Hab].
Qed.

(** ** The acceptor across messages *)

Lemma run_promise_le (w w' : world) (l : list arrival) :
  run w l = Some w' ->
  ballot_le (promise (acceptor (w_p w))) (promise (acceptor (w_p w'))).
Proof.
  revert w. induction l as [| x l IH]; intros w H; cbn in H.
  - inversion H; subst. apply ballot_le_refl.
  - destruct (handle w x) as [w1 |] eqn:E; [| discriminate]. cbn in H.
    eapply ballot_le_trans; [eapply handle_promise_monotone, E |].
    apply IH, H.
Qed.

Lemma gt_ballot_le_trans (x y z : ballot) :
  gt_ballot x z = true -> ballot_le x y -> gt_ballot y z = true.
Proof.
  unfold gt_ballot, ballot_le.
  rewrite !orb_true_iff, !andb_true_iff, !Z.gtb_ltb, !Z.ltb_lt, !Z.eqb_eq.
  lia.
Qed.

(** X4. A promise binds the acceptor for good: once the promise of a
    machine is greater than a ballot, then after any run of messages an
    accept request with that ballot gets no reply and changes nothing
    (the machine not having learned a value, and the request not being a
    no_op matching an accepted no_op). *)
Theorem promise_rejects_smaller_accept (w w' : world) (l : list arrival)
    (now : Q) (m : nat) (s : synode_no) (skip_flag : bool) :
  run w l = Some w' ->
  gt_ballot (promise (acceptor (w_p w))) (m_proposal (msg_at w' m)) = true ->
  finished w' = false ->
  noop_match w' m = false ->
  handle_simple_accept now w' m s skip_flag = Some (w', None).
Proof.
  intros Hrun Hgt Hfin Hnm.
  unfold handle_simple_accept. rewrite Hfin, Hnm.
  rewrite (gt_ballot_le_trans _ _ _ Hgt (run_promise_le _ _ _ Hrun)).
  reflexivity.
Qed.

Lemma safe_app_data_copy_ok (w : world) (t : pax_msg) (a : option app_data) :
  copy_app_data a = a ->
  safe_app_data_copy w t a = (w, Some (set_m_a a t)).
Proof.
  unfold safe_app_data_copy. intros ->. destruct a; reflexivity.
Qed.

(** X5. An acceptor reports what it has accepted: after an accept request
    [m] has been accepted, a prepare with a ballot greater than the promise
    is answered by ack_prepare carrying the ballot, the type and the payload
    of [m] (the copy of the payload succeeding), and the promise becomes the
    ballot of the prepare. *)
Theorem accepted_value_is_reported (now now' : Q) (w : world) (m pm : nat)
    (s s' : synode_no) (skip_flag : bool) :
  finished w = false ->
  gt_ballot (promise (acceptor (w_p w))) (m_proposal (msg_at w m)) = false ->
  m_op (msg_at w m) <> initial_op ->
  gt_ballot (m_proposal (msg_at w pm)) (promise (acceptor (w_p w))) = true ->
  copy_app_data (m_a (msg_at w m)) = m_a (msg_at w m) ->
  exists w1 ack w2 reply,
    handle_simple_accept now w m s skip_flag = Some (w1, Some ack)
    /\ acc_msg (acceptor (w_p w1)) = Some m
    /\ handle_simple_prepare now' w1 pm s' = Some (w2, Some reply)
    /\ m_op reply = ack_prepare_op
    /\ m_synode reply = s'
    /\ m_proposal reply = m_proposal (msg_at w m)
    /\ m_msg_type reply = m_msg_type (msg_at w m)
    /\ m_a reply = m_a (msg_at w m)
    /\ promise (acceptor (w_p w2)) = m_proposal (msg_at w pm).
Proof.
  intros Hfin Hle Hop Hgt Hcopy.
  pose (w1 := with_p (set_acceptor (mk_acceptor (promise (acceptor (w_p w)))
                                      (Some m))
                        (set_last_modified now (w_p w))) w).
  pose (w2 := with_p (set_acceptor (mk_acceptor (m_proposal (msg_at w pm))
                                      (Some m))
                        (set_last_modified now' (w_p w1))) w1).
  exists w1, (create_ack_accept_msg (msg_at w m) s skip_flag), w2.
  assert (Hacc : accepted w2 = true).
  { unfold accepted. cbn. apply negb_true_iff, bool_decide_eq_false. exact Hop. }
  assert (E : handle_simple_prepare now' w1 pm s'
              = Some (safe_app_data_copy w2
                        (set_m_op ack_prepare_op
                           (set_m_msg_type (m_msg_type (msg_at w m))
                              (set_m_proposal (m_proposal (msg_at w m))
                                 (set_m_synode s'
                                    (CLONE_PAX_MSG (msg_at w pm))))))
                        (m_a (msg_at w m)))).
  { unfold handle_simple_prepare.
    change (finished w1) with (finished w). rewrite Hfin.
    change (gt_ballot (m_proposal (msg_at w1 pm)) (promise (acceptor (w_p w1))))
      with (gt_ballot (m_proposal (msg_at w pm)) (promise (acceptor (w_p w)))).
    rewrite Hgt. cbn [orb]. unfold create_ack_prepare_msg.
    change (accepted _) with (accepted w2). rewrite Hacc. reflexivity. }
  rewrite E, safe_app_data_copy_ok by exact Hcopy.
  eexists. split.
  { unfold handle_simple_accept. rewrite Hfin, Hle. reflexivity. }
  split; [reflexivity |]. split; [reflexivity |]. repeat split.
Qed.

(** ** Learning a value *)

Lemma msg_at_emit (e : event) (w : world) (q : nat) :
  msg_at (emit e w) q = msg_at w q.
Proof. reflexivity. Qed.

Lemma msg_at_ext (w w' : world) (q : nat) :
  w_msgs w' = w_msgs w -> msg_at w' q = msg_at w q.
Proof. unfold msg_at. intros ->. reflexivity. Qed.

(** What [do_learn] leaves behind: both the acceptor and the learner point
    to [m], and [m] is as it was but for the mark on its payload. *)
Lemma do_learn_spec (w : world) (m : nat) :
  let w' := do_learn w m in
  lrn_msg (learner (w_p w')) = Some m
  /\ acc_msg (acceptor (w_p w')) = Some m
  /\ promise (acceptor (w_p w')) = promise (acceptor (w_p w))
  /\ proposer (w_p w') = proposer (w_p w)
  /\ synode (w_p w') = synode (w_p w)
  /\ msg_at w' m = set_m_a (set_a_chosen true <$> m_a (msg_at w m)) (msg_at w m)
  /\ (forall q, q <> m -> msg_at w' q = msg_at w q).
Proof.
  unfold do_learn. cbn zeta.
  destruct (m_a (msg_at w m)) as [a |] eqn:Ea; cbn;
    repeat split; try reflexivity.
  - unfold msg_at. cbn. rewrite lookup_total_insert_eq. reflexivity.
  - intros q Hq. unfold msg_at. cbn.
    rewrite lookup_total_insert_ne by congruence. reflexivity.
  - change (msg_at w m = set_m_a None (msg_at w m)).
    destruct (msg_at w m); cbn in *. subst. reflexivity.
Qed.

(** On a machine that has not learned, [handle_learn] is [do_learn] (after
    the time stamp) as far as the machine and the store go; the rest are
    calls that leave the machine. *)
Lemma handle_learn_unfinished (l : list site_def) (now : Q) (w w1 : world)
    (m : nat) :
  finished w = false ->
  handle_learn l now w m = Some w1 ->
  w_p w1 = w_p (do_learn (with_p (set_last_modified now (w_p w)) w) m)
  /\ w_msgs w1 = w_msgs (do_learn (with_p (set_last_modified now (w_p w)) w) m).
Proof.
  intros Hfin. unfold handle_learn. cbn zeta.
  change (finished (with_p (set_last_modified now (w_p w)) w))
    with (finished w). rewrite Hfin.
  set (wd := do_learn (emit Ev_activate_sweeper
                         (with_p (set_last_modified now (w_p w)) w)) m).
  assert (Hd : w_p wd = w_p (do_learn (with_p (set_last_modified now (w_p w)) w) m)
               /\ w_msgs wd
                  = w_msgs (do_learn (with_p (set_last_modified now (w_p w)) w) m)).
  { unfold wd, do_learn, msg_at. cbn.
    destruct (m_a _); split; reflexivity. }
  clearbody wd. destruct Hd as [<- <-].
  intros H. apply bind_Some in H as (w2 & H2 & H). inversion H; subst; clear H.
  cbn [emit w_p w_msgs].
  assert (G : forall x : world, w_p x = w_p wd /\ w_msgs x = w_msgs wd ->
              forall y, Some x = Some y \/
                        (exists e, Some (emit e x) = Some y) ->
              w_p y = w_p wd /\ w_msgs y = w_msgs wd).
  { intros x Hx y [E | [e E]]; inversion E; subst; exact Hx. }
  destruct (m_a (msg_at wd m)) as [a |]; [| inversion H2; subst; auto].
  set (x := if bool_decide (a_c_t a = unified_boot_type)
            then emit (Ev_xcom_fsm_net_boot a) wd else wd) in H2.
  assert (Hx : w_p x = w_p wd /\ w_msgs x = w_msgs wd)
    by (unfold x; destruct (bool_decide _); auto).
  clearbody x.
  destruct (m_force_delivery (msg_at wd m));
    [| inversion H2; subst; exact Hx].
  destruct (a_c_t a); try (inversion H2; subst; exact Hx);
    try (apply bind_Some in H2 as (site & _ & H2);
         destruct (should_ignore_forced_config_or_view _);
         inversion H2; subst; exact Hx).
Qed.

Lemma handle_learn_returns (l : list site_def) (now : Q) (w : world) (m : nat) :
  is_Some (find_site_def l (synode (w_p w))) ->
  is_Some (handle_learn l now w m).
Proof.
  intros [site Hs]. unfold handle_learn. cbn zeta.
  destruct (finished _); [cbn; eauto |].
  set (wd := do_learn _ m).
  assert (Hsyn : synode (w_p wd) = synode (w_p w)).
  { unfold wd. destruct (do_learn_spec
      (emit Ev_activate_sweeper (with_p (set_last_modified now (w_p w)) w)) m)
      as (_ & _ & _ & _ & E & _). exact E. }
  clearbody wd.
  destruct (m_a (msg_at wd m)) as [a |]; [| cbn; eauto].
  destruct (m_force_delivery (msg_at wd m)); [| cbn; eauto].
  destruct (bool_decide (a_c_t a = unified_boot_type));
    destruct (a_c_t a); cbn [emit w_p synode]; rewrite ?Hsyn, ?Hs; cbn;
    try destruct (should_ignore_forced_config_or_view _); cbn; eauto.
Qed.

(** X6. Learning and reading back: a learn message handled by a machine
    that has not learned makes the machine finished, with both the learner
    and the acceptor holding that message and its payload marked as chosen;
    a read request that arrives afterwards is answered by a learn message
    for the requested synode that carries the ballot and the payload of the
    learned message (the copy of the payload succeeding). *)
Theorem learn_then_read (l : list site_def) (now : Q) (w : world) (m pm : nat) :
  finished w = false ->
  is_learn_op (m_op (msg_at w m)) = true ->
  is_Some (find_site_def l (synode (w_p w))) ->
  copy_app_data (set_a_chosen true <$> m_a (msg_at w m))
  = set_a_chosen true <$> m_a (msg_at w m) ->
  exists w1 reply,
    handle_learn l now w m = Some w1
    /\ finished w1 = true
    /\ lrn_msg (learner (w_p w1)) = Some m
    /\ acc_msg (acceptor (w_p w1)) = Some m
    /\ m_a (msg_at w1 m) = set_a_chosen true <$> m_a (msg_at w m)
    /\ handle_read w1 pm = Some (emit (Ev_send_reply reply) w1)
    /\ m_op reply = learn_op
    /\ m_synode reply = m_synode (msg_at w1 pm)
    /\ m_proposal reply = m_proposal (msg_at w m)
    /\ m_a reply = set_a_chosen true <$> m_a (msg_at w m).
Proof.
  intros Hfin Hop Hsite Hcopy.
  destruct (handle_learn_returns l now w m Hsite) as [w1 H1].
  destruct (handle_learn_unfinished l now w w1 m Hfin H1) as [Hp Hm].
  destruct (do_learn_spec (with_p (set_last_modified now (w_p w)) w) m)
    as (Dl & Da & _ & _ & _ & Dm & _).
  cbn zeta in *. rewrite <- Hp in Dl, Da.
  change (msg_at (with_p (set_last_modified now (w_p w)) w) m)
    with (msg_at w m) in Dm.
  assert (Em : msg_at w1 m
               = set_m_a (set_a_chosen true <$> m_a (msg_at w m)) (msg_at w m)).
  { rewrite <- Dm. apply msg_at_ext, Hm. }
  assert (Hfin1 : finished w1 = true).
  { unfold finished. rewrite Dl, Em. exact Hop. }
  exists w1.
  eexists. split; [exact H1 |]. split; [exact Hfin1 |].
  split; [exact Dl |]. split; [exact Da |].
  split; [rewrite Em; reflexivity |].
  unfold handle_read, teach_ignorant_node, create_learn_msg_for_ignorant_node.
  rewrite Hfin1, Dl. cbn [mbind option_bind].
  rewrite Em. cbn [m_a set_m_a m_proposal m_msg_type].
  rewrite safe_app_data_copy_ok by exact Hcopy.
  cbn [fmap option_fmap option_map send_reply fst snd].
  split; [reflexivity |]. repeat split.
Qed.

(** X7. A skip decides the synode as a no_op: on a machine that has not
    learned, whatever its acceptor has promised or accepted, [handle_skip]
    turns the message into a learned no_op (operation learn_op, type no_op)
    and installs it as the accepted and the learned message; the machine is
    finished afterwards, and its promise is the one it had. *)
Theorem skip_learns_noop (now : Q) (w : world) (m : nat) :
  finished w = false ->
  let w' := handle_skip now w m in
  finished w' = true
  /\ lrn_msg (learner (w_p w')) = Some m
  /\ acc_msg (acceptor (w_p w')) = Some m
  /\ m_op (msg_at w' m) = learn_op
  /\ m_msg_type (msg_at w' m) = no_op
  /\ m_proposal (msg_at w' m) = m_proposal (msg_at w m)
  /\ promise (acceptor (w_p w')) = promise (acceptor (w_p w)).
Proof.
  intros Hfin. unfold handle_skip. rewrite Hfin. cbn [negb]. cbv zeta.
  set (w0 := with_msgs _ (with_p _ w)).
  assert (E0 : msg_at w0 m = skip_value (msg_at w m)).
  { unfold w0, msg_at. cbn. rewrite lookup_total_insert_eq. reflexivity. }
  destruct (do_learn_spec w0 m) as (Dl & Da & Dp & _ & _ & Dm & _).
  cbn zeta in *. rewrite E0 in Dm.
  unfold finished. cbn [emit w_p]. rewrite Dl, !msg_at_emit, Da, Dp, Dm.
  repeat split.
Qed.

(** X8. A tiny learn carries no value, so it can only confirm one: when
    the acceptor holds a message with the ballot of the tiny learn, that
    message - the one accepted earlier - becomes the learned message, as a
    learn_op with its payload marked as chosen; when the acceptor holds
    nothing, or a message with another ballot, the machine and the store are
    left as they were and the value is asked for with a read. *)
Theorem tiny_learn_confirms_accepted (l : list site_def) (now : Q) (w : world)
    (m : nat) :
  lrn_msg (learner (w_p w)) = None ->
  is_Some (find_site_def l (synode (w_p w))) ->
  match acc_msg (acceptor (w_p w)) with
  | Some q =>
      if eq_ballot (m_proposal (msg_at w q)) (m_proposal (msg_at w m)) then
        exists w1,
          handle_tiny_learn l now w m = Some w1
          /\ finished w1 = true
          /\ lrn_msg (learner (w_p w1)) = Some q
          /\ m_op (msg_at w1 q) = learn_op
          /\ m_proposal (msg_at w1 q) = m_proposal (msg_at w q)
          /\ m_msg_type (msg_at w1 q) = m_msg_type (msg_at w q)
          /\ m_a (msg_at w1 q) = set_a_chosen true <$> m_a (msg_at w q)
      else
        handle_tiny_learn l now w m
        = Some (emit (Ev_send_read (m_synode (msg_at w m))) w)
  | None =>
      handle_tiny_learn l now w m
      = Some (emit (Ev_send_read (m_synode (msg_at w m))) w)
  end.
Proof.
  intros Hlrn Hsite. unfold handle_tiny_learn.
  destruct (acc_msg (acceptor (w_p w))) as [q |] eqn:Eq; [| reflexivity].
  destruct (eq_ballot _ _); [| reflexivity].
  set (w0 := emit _ (with_p _ (with_msgs _ w))).
  assert (E0 : msg_at w0 q = set_m_op learn_op (msg_at w q)).
  { unfold w0, msg_at. cbn. rewrite lookup_total_insert_eq. reflexivity. }
  assert (Hfin0 : finished w0 = false).
  { unfold finished, w0. cbn. rewrite Hlrn. reflexivity. }
  destruct (handle_learn_returns l now w0 q Hsite) as [w1 H1].
  destruct (handle_learn_unfinished l now w0 w1 q Hfin0 H1) as [Hp Hm].
  destruct (do_learn_spec (with_p (set_last_modified now (w_p w0)) w0) q)
    as (Dl & _ & _ & _ & _ & Dm & _).
  cbn zeta in *. rewrite <- Hp in Dl.
  change (msg_at (with_p (set_last_modified now (w_p w0)) w0) q)
    with (msg_at w0 q) in Dm.
  rewrite E0 in Dm.
  assert (Em : msg_at w1 q
               = set_m_a (set_a_chosen true <$> m_a (msg_at w q))
                   (set_m_op learn_op (msg_at w q))).
  { rewrite (msg_at_ext _ _ q Hm), Dm. reflexivity. }
  exists w1. split; [exact H1 |].
  unfold finished. rewrite Dl, Em. repeat split.
Qed.

(** ** The proposer: one proposal for a ballot *)



(** ** The proposer: acknowledgements of a proposal *)

(** What a successful [check_learn] leaves behind. *)
Lemma check_learn_Some (forced_config site : option site_def) (w w1 : world)
    (learn : pax_msg) :
  check_learn forced_config site w = Some (w1, Some learn) ->
  exists q,
    prop_msg (proposer (w_p w)) = Some q
    /\ get_nodeno site <> VOID_NODE_NO
    /\ prop_majority forced_config site w = Some true
    /\ w_msgs w1 = <[ q := set_m_synode (synode (w_p w)) (msg_at w q) ]> (w_msgs w)
    /\ w_p w1 = set_proposer (set_sent_learn (bal (proposer (w_p w)))
                                (proposer (w_p w))) (w_p w)
    /\ learn = create_tiny_learn_msg (w_p w)
                 (set_m_synode (synode (w_p w)) (msg_at w q)).
Proof.
  unfold check_learn. intros H.
  destruct (get_nodeno site =? VOID_NODE_NO) eqn:En; cbn [negb] in H;
    [discriminate |].
  apply Z.eqb_neq in En.
  apply bind_Some in H as (ok & Hok & H).
  destruct ok; [| discriminate].
  apply bind_Some in H as (q & Hq & H).
  exists q. unfold no_duplicate_payload in H. cbn [fst snd] in H.
  inversion H; subst; clear H.
  repeat split; try assumption.
  unfold msg_at. cbn. rewrite lookup_total_insert_eq. reflexivity.
Qed.

Lemma prop_majority_ext (forced_config site : option site_def) (w w' : world) :
  prop_msg (proposer (w_p w')) = prop_msg (proposer (w_p w)) ->
  prop_nodeset (proposer (w_p w')) = prop_nodeset (proposer (w_p w)) ->
  bal (proposer (w_p w')) = bal (proposer (w_p w)) ->
  force_delivery (w_p w') = force_delivery (w_p w) ->
  (forall q, m_a (msg_at w' q) = m_a (msg_at w q)
             /\ m_force_delivery (msg_at w' q) = m_force_delivery (msg_at w q)) ->
  prop_majority forced_config site w' = prop_majority forced_config site w.
Proof.
  intros Hp Hn Hb Hf Hm. unfold prop_majority, IS_CONS_ALL.
  rewrite Hp, Hn, Hb, Hf.
  destruct (prop_msg (proposer (w_p w))) as [q |]; [| reflexivity].
  cbn. destruct (Hm q) as [-> ->]. reflexivity.
Qed.


(** X11. No value is announced without a majority: when the handler of
    accept acknowledgements yields a learn message, the local node is a
    member of the site, the acknowledgement came from a node and answers the
    proposer's current ballot, and the nodes that have acknowledged the
    proposal - the sender included - pass the majority test of the site. *)
Theorem learn_needs_majority (forced_config site : option site_def)
    (w w1 : world) (m : nat) (learn : pax_msg) :
  handle_simple_ack_accept forced_config site w m = Some (w1, Some learn) ->
  get_nodeno site <> VOID_NODE_NO
  /\ m_from (msg_at w m) <> VOID_NODE_NO
  /\ eq_ballot (bal (proposer (w_p w))) (m_reply_to (msg_at w m)) = true
  /\ prop_nodeset (proposer (w_p w1))
     = BIT_SET (m_from (msg_at w m)) (prop_nodeset (proposer (w_p w)))
  /\ prop_majority forced_config site w1 = Some true.
Proof.
  unfold handle_simple_ack_accept. intros H.
  destruct (negb (get_nodeno site =? VOID_NODE_NO)) eqn:E1; [| discriminate].
  destruct (negb (m_from (msg_at w m) =? VOID_NODE_NO)) eqn:E2;
    [| discriminate].
  destruct (eq_ballot _ _) eqn:E3; [| discriminate]. cbn [andb] in H.
  destruct (gt_ballot _ _); [| discriminate].
  apply negb_true_iff, Z.eqb_neq in E1, E2.
  apply check_learn_Some in H as (q & Hq & _ & Hmaj & Hm & Hp & _).
  split; [exact E1 |]. split; [exact E2 |]. split; [reflexivity |].
  split; [rewrite Hp; reflexivity |].
  rewrite <- Hmaj. apply prop_majority_ext; try (rewrite Hp; reflexivity).
  intros k. unfold msg_at. rewrite Hm.
  destruct (decide (k = q)) as [-> | Hk].
  - rewrite lookup_total_insert_eq. split; reflexivity.
  - rewrite lookup_total_insert_ne by congruence. split; reflexivity.
Qed.

(** ** The proposer: fresh ballots *)

Lemma force_pax_machine_cnt_bounds (p : pax_machine) (e : bool) :
  is_i32 (cnt (bal (proposer p))) ->
  cnt (bal (proposer p)) < INT32_MAX ->
  let p' := force_pax_machine p e in
  cnt (bal (proposer p)) <= cnt (bal (proposer p')) < INT32_MAX
  /\ bal_node (bal (proposer p')) = bal_node (bal (proposer p))
  /\ acceptor p' = acceptor p
  /\ learner p' = learner p
  /\ force_delivery p' = true.
Proof.
  intros Hi Hlt. unfold force_pax_machine.
  destruct (enforcer p); cbn [negb]; [cbn; repeat split; lia |].
  destruct e; [| cbn; repeat split; lia].
  cbn. rewrite MAX_max.
  assert (Hq : (INT32_MAX - Z.max (cnt (bal (proposer p))) 0) ÷ 3
               = (INT32_MAX - Z.max (cnt (bal (proposer p))) 0) / 3).
  { apply Z.quot_div_nonneg; unfold is_i32, INT32_MAX, INT32_MIN in *; lia. }
  rewrite Hq.
  unfold is_i32, INT32_MAX, INT32_MIN in *.
  pose proof (Z.div_mod (2147483647 - Z.max (cnt (bal (proposer p))) 0) 3
                ltac:(lia)) as Hd.
  pose proof (Z.mod_pos_bound
                (2147483647 - Z.max (cnt (bal (proposer p))) 0) 3
                ltac:(lia)) as Hm.
  rewrite (i32_small ((2147483647 - _) / 3))
    by (unfold is_i32, INT32_MAX, INT32_MIN; lia).
  rewrite i32_small by (unfold is_i32, INT32_MAX, INT32_MIN; lia).
  repeat split; lia.
Qed.

Lemma gt_ballot_cnt (x y : ballot) : cnt y < cnt x -> gt_ballot x y = true.
Proof.
  intros H. unfold gt_ballot. apply orb_true_iff. left.
  rewrite Z.gtb_ltb. apply Z.ltb_lt, H.
Qed.

Lemma create_ack_prepare_msg_returns (w : world) (pm : nat) (s : synode_no) :
  exists w' r, create_ack_prepare_msg w pm s = Some (w', r) /\ w_p w' = w_p w.
Proof.
  unfold create_ack_prepare_msg.
  destruct (accepted w) eqn:Ha; [| eauto].
  destruct (accepted_acc_msg w Ha) as [q Hq]. rewrite Hq. cbn.
  destruct (safe_app_data_copy w _ _) as [w' r] eqn:E.
  exists w', r. split; [reflexivity |].
  pose proof (safe_app_data_copy_p w
    (set_m_op ack_prepare_op
       (set_m_msg_type (m_msg_type (msg_at w q))
          (set_m_proposal (m_proposal (msg_at w q))
             (set_m_synode s (CLONE_PAX_MSG (msg_at w pm))))))
    (m_a (msg_at w q))) as Hp.
  rewrite E in Hp. exact (proj1 Hp).
Qed.

(** X12. A pushed ballot is fresh: the ballot that [push_msg_3p] gives to
    its prepare message is greater than the proposer's previous ballot and
    than the promise of the machine's own acceptor (the counters being
    below INT32_MAX, so that the increment does not overflow); it carries
    the local node number.  Hence the machine's own acceptor, handed that
    prepare, promises the new ballot. *)
Theorem pushed_ballot_is_fresh (wait_forced_config : bool) (now : Q)
    (site : option site_def) (w : world) (msg : pax_msg)
    (msgno_arg : synode_no) (t : pax_msg_type) (pm : nat) (s : synode_no) :
  is_i32 (cnt (bal (proposer (w_p w)))) ->
  is_i32 (cnt (promise (acceptor (w_p w)))) ->
  cnt (bal (proposer (w_p w))) < INT32_MAX ->
  cnt (promise (acceptor (w_p w))) < INT32_MAX ->
  lrn_msg (learner (w_p w)) = None ->
  let r := push_msg_3p wait_forced_config site (w_p w) msg msgno_arg t in
  let b := bal (proposer r.1) in
  gt_ballot b (bal (proposer (w_p w))) = true
  /\ gt_ballot b (promise (acceptor (w_p w))) = true
  /\ bal_node b = get_nodeno site
  /\ m_op r.2 = prepare_op
  /\ m_proposal r.2 = b
  /\ m_synode r.2 = msgno_arg
  /\ exists w2 reply,
       handle_simple_prepare now
         (mk_world r.1 (<[ pm := r.2 ]> (w_msgs w)) (w_out w)) pm s
       = Some (w2, reply)
       /\ promise (acceptor (w_p w2)) = b.
Proof.
  intros Hb Hp Hbl Hpl Hl. cbn zeta.
  unfold push_msg_3p.
  set (p0 := if wait_forced_config then force_pax_machine (w_p w) true
             else w_p w).
  assert (H0 : cnt (bal (proposer (w_p w))) <= cnt (bal (proposer p0)) < INT32_MAX
               /\ acceptor p0 = acceptor (w_p w)
               /\ learner p0 = learner (w_p w)).
  { unfold p0. destruct wait_forced_config.
    - destruct (force_pax_machine_cnt_bounds (w_p w) true Hb Hbl)
        as (A & _ & B & C & _). auto.
    - repeat split; lia. }
  clearbody p0. destruct H0 as (Hc0 & Ha0 & Hl0).
  unfold prepare_push_3p. cbn zeta. cbn [fst snd].
  unfold init_prepare_msg, prepare.
  cbn [bal set_bal proposer set_proposer set_prep_nodeset cnt bal_node
       m_op m_proposal m_synode set_m_op set_m_reply_to set_m_proposal
       set_m_synode set_m_msg_type set_m_force_delivery].
  rewrite Ha0, MAX_max.
  assert (Hi : i32 (Z.max (cnt (bal (proposer p0)))
                      (cnt (promise (acceptor (w_p w)))) + 1)
               = Z.max (cnt (bal (proposer p0)))
                   (cnt (promise (acceptor (w_p w)))) + 1).
  { apply i32_small. unfold is_i32, INT32_MAX, INT32_MIN in *. lia. }
  rewrite Hi.
  split; [apply gt_ballot_cnt; cbn; lia |].
  split; [apply gt_ballot_cnt; cbn; lia |].
  split; [reflexivity |]. split; [reflexivity |].
  split; [reflexivity |]. split; [reflexivity |].
  set (b := mk_ballot _ (get_nodeno site)).
  set (w1 := mk_world _ _ _).
  assert (Hm1 : m_proposal (msg_at w1 pm) = b).
  { unfold w1, msg_at. cbn. rewrite lookup_total_insert_eq. reflexivity. }
  assert (Hp1 : promise (acceptor (w_p w1)) = promise (acceptor (w_p w))).
  { unfold w1. cbn. rewrite Ha0. reflexivity. }
  assert (Hf1 : finished w1 = false).
  { unfold finished, w1. cbn. rewrite Hl0, Hl. reflexivity. }
  unfold handle_simple_prepare. rewrite Hf1, Hm1, Hp1.
  assert (Hg : gt_ballot b (promise (acceptor (w_p w))) = true)
    by (apply gt_ballot_cnt; cbn; lia).
  rewrite Hg. cbn [orb].
  change (msg_at (with_p (set_last_modified now (w_p w1)) w1) pm)
    with (msg_at w1 pm).
  rewrite Hm1.
  destruct (create_ack_prepare_msg_returns
              (with_p (set_acceptor
                         (mk_acceptor b
                            (acc_msg (acceptor
                               (w_p (with_p (set_last_modified now (w_p w1))
                                       w1)))))
                         (w_p (with_p (set_last_modified now (w_p w1)) w1)))
                 (with_p (set_last_modified now (w_p w1)) w1)) pm s)
    as (w2 & reply & E & Ep).
  exists w2, reply. split; [exact E |]. rewrite Ep. reflexivity.
Qed.

Lemma msg_at_insert_eq (w : world) (h : gmap nat pax_msg) (q : nat)
    (x : pax_msg) :
  msg_at (with_msgs (<[ q := x ]> h) w) q = x.
Proof. unfold msg_at. cbn. apply lookup_total_insert_eq. Qed.

Lemma prepare_push_2p_Some (site : option site_def) (w w0 : world) :
  prepare_push_2p site w = Some w0 ->
  exists q,
    prop_msg (proposer (w_p w0)) = Some q
    /\ bal (proposer (w_p w0)) = mk_ballot 0 (get_nodeno site)
    /\ m_proposal (msg_at w0 q) = mk_ballot 0 (get_nodeno site)
    /\ m_synode (msg_at w0 q) = synode (w_p w)
    /\ w_out w0 = w_out w.
Proof.
  unfold prepare_push_2p. cbn zeta. intros H.
  apply bind_Some in H as (q & Hq & H). inversion H; subst; clear H.
  exists q. cbn. split; [exact Hq |].
  unfold msg_at. cbn. rewrite lookup_total_insert_eq. repeat split.
Qed.

(** X13. The two-phase push: [push_msg_2p] sends the proposer's message
    as an accept request with the ballot (0, local node number) for the
    synode of the machine, without a prepare; an acceptor that has learned
    nothing and whose promise is still the initial (0,0) accepts it. *)
Theorem two_phase_push_is_accepted (site : option site_def) (w w1 : world)
    (now : Q) (wa : world) (m : nat) (s : synode_no) (skip_flag : bool) :
  push_msg_2p site w = Some w1 ->
  0 <= get_nodeno site ->
  exists q,
    prop_msg (proposer (w_p w1)) = Some q
    /\ bal (proposer (w_p w1)) = mk_ballot 0 (get_nodeno site)
    /\ m_op (msg_at w1 q) = accept_op
    /\ m_proposal (msg_at w1 q) = mk_ballot 0 (get_nodeno site)
    /\ m_synode (msg_at w1 q) = synode (w_p w)
    /\ w_out w1 = w_out w ++ [Ev_send_propose_msg (msg_at w1 q)]
    /\ (finished wa = false ->
        promise (acceptor (w_p wa)) = mk_ballot 0 0 ->
        msg_at wa m = msg_at w1 q ->
        exists wa' ack,
          handle_simple_accept now wa m s skip_flag = Some (wa', Some ack)
          /\ acc_msg (acceptor (w_p wa')) = Some m
          /\ m_op ack = (if skip_flag then multi_ack_accept_op
                         else ack_accept_op)
          /\ m_synode ack = s).
Proof.
  unfold push_msg_2p. intros H Hn.
  apply bind_Some in H as (w0 & H0 & H).
  apply prepare_push_2p_Some in H0 as (q & Hq & Hb & Hp & Hs & Ho).
  rewrite Hq in H. cbn [mbind option_bind] in H.
  rewrite msg_at_insert_eq in H.
  inversion H; subst; clear H.
  exists q. rewrite !msg_at_emit, !msg_at_insert_eq.
  assert (Ei : m_op (init_propose_msg (msg_at w0 q)) = accept_op
               /\ m_proposal (init_propose_msg (msg_at w0 q))
                  = m_proposal (msg_at w0 q)
               /\ m_synode (init_propose_msg (msg_at w0 q))
                  = m_synode (msg_at w0 q)).
  { unfold init_propose_msg, brand_app_data.
    destruct (m_a _); cbn; repeat split. }
  destruct Ei as (I1 & I2 & I3).
  cbn [emit with_msgs w_p w_out].
  split; [exact Hq |]. split; [exact Hb |]. split; [exact I1 |].
  split; [congruence |]. split; [congruence |].
  split; [rewrite Ho; reflexivity |].
  intros Hfin Hpr Hmsg. unfold handle_simple_accept.
  rewrite Hfin, Hpr, Hmsg, I2, Hp.
  assert (Hg : gt_ballot (mk_ballot 0 0) (mk_ballot 0 (get_nodeno site)) = false).
  { unfold gt_ballot. cbn. rewrite Z.gtb_ltb. apply Z.ltb_ge. exact Hn. }
  rewrite Hg. cbn [negb orb].
  eexists _, _. split; [reflexivity |]. split; [reflexivity |].
  unfold create_ack_accept_msg. destruct skip_flag; split; reflexivity.
Qed.

(** ** Synodes: successor and predecessor *)

Lemma get_maxnodes_nonneg (s : option site_def) : 0 <= get_maxnodes s.
Proof. destruct s; cbn; lia. Qed.

(** The two cases of [incr_synode] when nothing wraps around. *)
Lemma incr_synode_cases (l : list site_def) (s : synode_no) :
  0 <= node s < VOID_NODE_NO ->
  0 <= msgno s < 2 ^ 64 - 1 ->
  let maxnodes := get_maxnodes (snd <$> find_site_def l s) in
  (maxnodes <= node s + 1
   /\ incr_synode l s = mk_synode (group_id s) (msgno s + 1) 0)
  \/ (node s + 1 < maxnodes
      /\ incr_synode l s = mk_synode (group_id s) (msgno s) (node s + 1)).
Proof.
  intros Hn Hm. cbn zeta. unfold incr_synode, VOID_NODE_NO in *.
  assert (Hu : u32 (node s + 1) = node s + 1).
  { unfold u32. apply Z.mod_small. lia. }
  assert (Hv : u64 (msgno s + 1) = msgno s + 1).
  { unfold u64. apply Z.mod_small. lia. }
  rewrite Hu, Hv.
  destruct (node s + 1 >=? get_maxnodes (snd <$> find_site_def l s)) eqn:E;
    rewrite Z.geb_leb in E;
    [apply Z.leb_le in E; left | apply Z.leb_gt in E; right];
    split; [exact E | reflexivity | exact E | reflexivity].
Qed.

(** X14. [incr_synode] is the successor among the synodes of a site: for
    a synode whose node number is a node number (not VOID_NODE_NO) and whose
    message number is not the last one, the result is greater, belongs to the
    same group, and no synode with a node number of the site lies strictly
    between the two. *)
Theorem incr_synode_is_successor (l : list site_def) (s : synode_no) :
  0 <= node s < VOID_NODE_NO ->
  0 <= msgno s < 2 ^ 64 - 1 ->
  let s' := incr_synode l s in
  let maxnodes := get_maxnodes (snd <$> find_site_def l s) in
  synode_gt s' s = true
  /\ group_id s' = group_id s
  /\ (node s' = 0 \/ node s' < maxnodes)
  /\ forall x,
       0 <= node x < maxnodes ->
       synode_gt x s = true ->
       synode_lt x s' = false.
Proof.
  intros Hn Hm. cbn zeta.
  destruct (incr_synode_cases l s Hn Hm) as [[E ->] | [E ->]];
    unfold synode_gt, synode_lt; cbn [msgno node group_id].
  - split.
    { apply orb_true_iff. left. rewrite Z.gtb_ltb. apply Z.ltb_lt. lia. }
    split; [reflexivity |]. split; [left; reflexivity |].
    intros x Hx Hgt.
    apply orb_true_iff in Hgt.
    rewrite andb_true_iff, !Z.gtb_ltb, !Z.ltb_lt, Z.eqb_eq in Hgt.
    apply orb_false_iff. rewrite andb_false_iff, !Z.ltb_ge, Z.eqb_neq.
    split; [lia |]. right. lia.
  - split.
    { apply orb_true_iff. right. rewrite Z.eqb_refl, Z.gtb_ltb. cbn.
      apply Z.ltb_lt. lia. }
    split; [reflexivity |]. split; [right; exact E |].
    intros x Hx Hgt.
    apply orb_true_iff in Hgt.
    rewrite andb_true_iff, !Z.gtb_ltb, !Z.ltb_lt, Z.eqb_eq in Hgt.
    apply orb_false_iff. rewrite andb_false_iff, !Z.ltb_ge, Z.eqb_neq.
    split; [lia |]. destruct (Z.eq_dec (msgno x) (msgno s)); [right | left]; lia.
Qed.

(** X15. [decr_synode] undoes [incr_synode]: for a synode of a node of its
    site, with the site of the first synode of the same message number being
    that site as well, decrementing the incremented synode gives the synode
    back. *)
Theorem decr_incr_synode (l : list site_def) (s : synode_no) :
  0 <= node s < get_maxnodes (snd <$> find_site_def l s) ->
  get_maxnodes (snd <$> find_site_def l s) < 2 ^ 32 ->
  0 <= msgno s < 2 ^ 64 - 1 ->
  find_site_def l (mk_synode (group_id s) (msgno s) 0) = find_site_def l s ->
  decr_synode l (incr_synode l s) = s.
Proof.
  intros Hn Hmax Hm Hsite. unfold incr_synode.
  assert (Hu : u32 (node s + 1) = node s + 1).
  { unfold u32. apply Z.mod_small. lia. }
  assert (Hv : u64 (msgno s + 1) = msgno s + 1).
  { unfold u64. apply Z.mod_small. lia. }
  rewrite Hu, Hv.
  destruct (node s + 1 >=? get_maxnodes (snd <$> find_site_def l s)) eqn:E;
    rewrite Z.geb_leb in E;
    [apply Z.leb_le in E | apply Z.leb_gt in E];
    unfold decr_synode; cbn [msgno node group_id].
  - cbn [Z.eqb].
    replace (u64 (msgno s + 1 - 1)) with (msgno s)
      by (unfold u64; rewrite Z.mod_small; lia).
    rewrite Hsite. cbn [msgno node group_id].
    replace (u32 (get_maxnodes (snd <$> find_site_def l s) - 1)) with (node s)
      by (unfold u32; rewrite Z.mod_small; lia).
    destruct s; reflexivity.
  - destruct (node s + 1 =? 0) eqn:E0; [apply Z.eqb_eq in E0; lia |].
    cbn [msgno node group_id].
    replace (u32 (node s + 1 - 1)) with (node s)
      by (unfold u32; rewrite Z.mod_small; lia).
    destruct s; reflexivity.
Qed.

(** ** The executor: informing removed nodes *)

Lemma x_check_execute_inform_loop_post (fuel : nat) (g : xcom_globals)
    (xc : execute_context) :
  (Z.to_nat (df_n (delay_fifo g)) <= fuel)%nat ->
  let r := x_check_execute_inform_loop fuel g xc in
  (fifo_empty (delay_fifo r.1) = true
   \/ synode_lt (executed_msg r.1) (fifo_front (delay_fifo r.1)) = true)
  /\ executed_msg r.1 = executed_msg g
  /\ inform_index r.2 - df_n (delay_fifo r.1)
     = inform_index xc - df_n (delay_fifo g)
  /\ df_n (delay_fifo r.1) <= df_n (delay_fifo g).
Proof.
  revert g xc. induction fuel as [| k IH]; intros g xc Hk; cbn zeta.
  - cbn. split; [| repeat split; lia].
    left. unfold fifo_empty. apply Z.leb_le. lia.
  - cbn [x_check_execute_inform_loop].
    destruct (fifo_empty (delay_fifo g)) eqn:Ee; cbn [negb andb].
    + cbn. rewrite Ee. split; [left; reflexivity | repeat split; lia].
    + destruct (synode_lt (executed_msg g) (fifo_front (delay_fifo g))) eqn:El;
        cbn [negb].
      * cbn. rewrite El. split; [right; reflexivity | repeat split; lia].
      * unfold fifo_empty in Ee. apply Z.leb_gt in Ee.
        assert (Hn : df_n (fifo_extract (delay_fifo g)).2
                     = df_n (delay_fifo g) - 1).
        { unfold fifo_extract, fifo_empty.
          destruct (df_n (delay_fifo g) <=? 0) eqn:E';
            [apply Z.leb_le in E'; lia | reflexivity]. }
        specialize (IH (set_delay_fifo (fifo_extract (delay_fifo g)).2 g)
                      (mk_execute_context (exit_synode xc) (delivery_limit xc)
                         (state xc) (exit_flag xc) (inform_index xc - 1))).
        cbn zeta in IH. cbn [set_delay_fifo delay_fifo executed_msg
                             inform_index] in IH.
        rewrite Hn in IH.
        destruct IH as (A & B & C & D); [lia |].
        split; [exact A |]. split; [exact B |]. split; lia.
Qed.

(** X16. After [x_check_execute_inform] has answered 1 the delay FIFO holds
    no entry that [executed_msg] has reached: it is empty, or its front is
    still ahead.  Every entry removed lowers [inform_index] by one, and
    [executed_msg] is not touched.  When it answers 0 nothing has changed. *)
Theorem x_check_execute_inform_post (g : xcom_globals) (xc : execute_context) :
  let r := x_check_execute_inform g xc in
  let g' := r.1.1 in
  let xc' := r.1.2 in
  (r.2 = true ->
     (fifo_empty (delay_fifo g') = true
      \/ synode_lt (executed_msg g') (fifo_front (delay_fifo g')) = true)
     /\ executed_msg g' = executed_msg g
     /\ inform_index xc' - df_n (delay_fifo g')
        = inform_index xc - df_n (delay_fifo g))
  /\ (r.2 = false -> g' = g /\ xc' = xc).
Proof.
  cbn zeta. unfold x_check_execute_inform.
  destruct (fifo_empty (delay_fifo g)) eqn:Ee.
  - cbn. split; [| discriminate]. intros _. rewrite Ee. auto.
  - destruct (synode_lt (executed_msg g) (fifo_front (delay_fifo g))) eqn:El;
      cbn [negb fst snd].
    + split; [discriminate | auto].
    + split; [| discriminate]. intros _.
      destruct (x_check_execute_inform_loop_post
                  (Z.to_nat (df_n (delay_fifo g))) g xc (le_n _))
        as (A & B & C & _).
      destruct (x_check_execute_inform_loop _ g xc) as [g' xc'].
      cbn [fst snd] in *. auto.
Qed.

(** ** Validation of configuration changes: removals and the event horizon *)

Lemma allow_remove_node_loop_forallb (site : site_def)
    (ns : list node_address) :
  allow_remove_node_loop site ns
  = forallb (fun n => node_exists_with_uid n (nodes site)) ns.
Proof.
  induction ns as [| n ns IH]; [reflexivity |]. cbn.
  destruct (node_exists_with_uid n (nodes site)); cbn; [exact IH | reflexivity].
Qed.

(** X17. On a booted node (more than two messages executed) a request to
    remove nodes is answered REQUEST_OK when every node to remove is in the
    latest configuration, with the same address and the same uid, and
    REQUEST_FAIL otherwise; a request that names another group than the one
    of [executed_msg] is answered REQUEST_FAIL whatever it asks for. *)
Theorem remove_node_accepted_iff_members (identity : node_address)
    (l : list site_def) (executed : synode_no) (p : pax_msg) (a : app_data)
    (latest : site_ptr) :
  msgno executed > 2 ->
  m_a p = Some a ->
  get_site_def l = Some latest ->
  (a_c_t a = remove_node_type ->
   a_group_id a = 0 \/ a_group_id a = group_id executed ->
   can_execute_cfgchange identity l executed p
   = Some (if forallb (fun n => node_exists_with_uid n (nodes latest.2))
                (a_nodes a)
           then REQUEST_OK else REQUEST_FAIL))
  /\ (a_group_id a <> 0 ->
      a_group_id a <> group_id executed ->
      can_execute_cfgchange identity l executed p = Some REQUEST_FAIL).
Proof.
  intros Hb Ha Hl. unfold can_execute_cfgchange.
  destruct (msgno executed <=? 2) eqn:E; [apply Z.leb_le in E; lia |].
  rewrite Ha. split.
  - intros Hct Hg.
    assert (Eg : negb (a_group_id a =? 0)
                 && negb (a_group_id a =? group_id executed) = false).
    { destruct Hg as [-> | ->]; rewrite ?Z.eqb_refl, ?andb_false_r;
        reflexivity. }
    rewrite Eg, Hct. cbn [bool_decide decide_rel cargo_type_eq_dec].
    cbn [mbind option_bind negb].
    unfold allow_remove_node. rewrite Hl.
    rewrite <- allow_remove_node_loop_forallb.
    destruct (a_nodes a) as [| n ns]; [reflexivity |].
    cbn [mbind option_bind].
    destruct (allow_remove_node_loop latest.2 (n :: ns)); reflexivity.
  - intros H0 He.
    apply Z.eqb_neq in H0, He. rewrite H0, He. reflexivity.
Qed.

(** X18. On a booted node (more than two messages executed) that has a
    configuration, a request to set the event horizon is answered REQUEST_OK
    exactly when it names no group or the group of [executed_msg], the new
    horizon lies between EVENT_HORIZON_MIN and EVENT_HORIZON_MAX, and the
    latest configuration speaks a protocol that knows about event horizons
    (x_1_4 or later); otherwise - another group, a horizon out of range or
    an older protocol - the answer is REQUEST_FAIL. *)
Theorem event_horizon_accepted_iff_in_range (identity : node_address)
    (l : list site_def) (executed : synode_no) (p : pax_msg) (a : app_data)
    (latest : site_ptr) :
  msgno executed > 2 ->
  m_a p = Some a ->
  a_c_t a = set_event_horizon_type ->
  get_site_def l = Some latest ->
  can_execute_cfgchange identity l executed p
  = Some (if ((a_group_id a =? 0) || (a_group_id a =? group_id executed))
             && (EVENT_HORIZON_MIN <=? a_event_horizon a)
             && (a_event_horizon a <=? EVENT_HORIZON_MAX)
             && (x_1_4 <=? x_proto latest.2)
          then REQUEST_OK else REQUEST_FAIL).
Proof.
  intros Hb Ha Hct Hl. unfold can_execute_cfgchange.
  destruct (msgno executed <=? 2) eqn:E; [apply Z.leb_le in E; lia |].
  rewrite Ha. rewrite <- negb_orb.
  destruct ((a_group_id a =? 0) || (a_group_id a =? group_id executed));
    cbn [negb andb]; [| reflexivity].
  rewrite Hct.
  change (bool_decide (set_event_horizon_type = add_node_type)) with false.
  change (bool_decide (set_event_horizon_type = remove_node_type)) with false.
  change (bool_decide (set_event_horizon_type = set_event_horizon_type))
    with true.
  change (bool_decide (set_event_horizon_type = force_config_type)) with false.
  cbn [mbind option_bind negb].
  unfold unsafe_event_horizon_reconfiguration, allow_event_horizon.
  rewrite Hl. unfold reconfigurable_event_horizon,
    first_event_horizon_aware_protocol.
  rewrite Z.gtb_ltb.
  destruct (a_event_horizon a <? EVENT_HORIZON_MIN) eqn:E1;
    [rewrite Z.ltb_lt in E1 | rewrite Z.ltb_ge in E1];
    destruct (EVENT_HORIZON_MAX <? a_event_horizon a) eqn:E2;
    [rewrite Z.ltb_lt in E2 | rewrite Z.ltb_ge in E2
     | rewrite Z.ltb_lt in E2 | rewrite Z.ltb_ge in E2];
    cbn [orb mbind option_bind].
  - replace (EVENT_HORIZON_MIN <=? a_event_horizon a) with false
      by (symmetry; apply Z.leb_gt; lia). reflexivity.
  - replace (EVENT_HORIZON_MIN <=? a_event_horizon a) with false
      by (symmetry; apply Z.leb_gt; lia). reflexivity.
  - replace (a_event_horizon a <=? EVENT_HORIZON_MAX) with false
      by (symmetry; apply Z.leb_gt; lia).
    rewrite andb_false_r. reflexivity.
  - replace (EVENT_HORIZON_MIN <=? a_event_horizon a) with true
      by (symmetry; apply Z.leb_le; lia).
    replace (a_event_horizon a <=? EVENT_HORIZON_MAX) with true
      by (symmetry; apply Z.leb_le; lia).
    rewrite Z.geb_leb.
    destruct (x_1_4 <=? x_proto latest.2); reflexivity.
Qed.

(** ** Dead sites *)

Lemma is_dead_site_loop_elem_of (ids : list Z) (id : Z) (k : nat) :
  Forall (fun x => x <> 0) (take k ids) ->
  Forall (fun x => x = 0) (drop k ids) ->
  is_dead_site_loop ids id = true <-> id ∈ ids.
Proof.
  revert k. induction ids as [| x rest IH]; intros k Hpre Hpost; cbn.
  - split; [discriminate | intros H; inversion H].
  - destruct (x =? id) eqn:Ex.
    + apply Z.eqb_eq in Ex. subst. split; [intros _; left | reflexivity].
    + apply Z.eqb_neq in Ex. destruct (x =? 0) eqn:E0.
      * apply Z.eqb_eq in E0. subst x.
        split; [discriminate |]. intros Hin. exfalso.
        destruct k as [| k].
        -- cbn in Hpost. rewrite Forall_forall in Hpost.
           apply Ex. symmetry. apply Hpost, Hin.
        -- cbn in Hpre. inversion Hpre; subst. congruence.
      * apply Z.eqb_neq in E0. destruct k as [| k].
        -- cbn in Hpost. inversion Hpost; subst. congruence.
        -- cbn in Hpre, Hpost. inversion Hpre; subst.
           rewrite (IH k) by assumption.
           rewrite elem_of_cons. split; [auto | intros [? | ?]; congruence].
Qed.

Lemma dead_sites_wf_split (d : dead_sites_t) :
  dead_sites_wf d ->
  exists k, Forall (fun x => x <> 0) (take k (ds_id d))
            /\ Forall (fun x => x = 0) (drop k (ds_id d)).
Proof.
  intros (_ & _ & Hpre & [Hz | Hnz]).
  - exists (Z.to_nat (ds_n d)). auto.
  - exists (length (ds_id d)). rewrite firstn_all, drop_all. auto.
Qed.

Lemma bury_site_wf (id : Z) (d : dead_sites_t) :
  dead_sites_wf d -> dead_sites_wf (bury_site id d).
Proof.
  intros Hwf. unfold bury_site.
  destruct (id =? 0) eqn:E0; cbn [negb]; [exact Hwf |].
  apply Z.eqb_neq in E0.
  destruct Hwf as (Hn & Hl & Hpre & Hpost).
  rewrite (Z.rem_small (ds_n d)) by lia.
  unfold dead_sites_wf. cbn [ds_n ds_id]. rewrite length_insert.
  assert (Hlt : (Z.to_nat (ds_n d) < length (ds_id d))%nat) by lia.
  destruct (Z.eq_dec (ds_n d + 1) MAX_DEAD) as [Heq | Hne].
  - rewrite Heq, Z.rem_same by lia. cbn.
    split; [lia |]. split; [exact Hl |]. split; [constructor |]. right.
    rewrite insert_take_drop by exact Hlt.
    rewrite drop_ge by lia.
    apply Forall_app. split; [exact Hpre | constructor; [exact E0 | constructor]].
  - rewrite Z.rem_small by lia.
    split; [lia |]. split; [exact Hl |].
    replace (Z.to_nat (ds_n d + 1)) with (S (Z.to_nat (ds_n d))) by lia.
    split.
    + rewrite (take_S_r _ _ id) by (apply list_lookup_insert_eq, Hlt).
      rewrite take_insert_ge by lia.
      apply Forall_app. split; [exact Hpre | constructor; [exact E0 | constructor]].
    + destruct Hpost as [Hz | Hnz].
      * left. rewrite drop_insert_lt by lia.
        rewrite Forall_lookup in *. intros i x Hi.
        rewrite lookup_drop in Hi.
        apply (Hz (S i) x). rewrite lookup_drop. rewrite <- Hi. f_equal. lia.
      * right. apply Forall_insert; assumption.
Qed.

(** X19. The ring of dead sites, read with the early exit of
    [is_dead_site], answers membership: a group id is reported dead exactly
    when it is an entry of the array.  In particular the id 0 is reported
    dead as long as the ring has an unused entry.  Burying a site keeps the
    invariant of the ring, burying the id 0 changes nothing, and a site that
    has just been buried is dead. *)
Theorem is_dead_site_iff_in_ring (id : Z) (d : dead_sites_t) :
  dead_sites_wf d ->
  (forall x, is_dead_site x d = true <-> x ∈ ds_id d)
  /\ dead_sites_wf (bury_site id d)
  /\ bury_site 0 d = d
  /\ (id <> 0 -> is_dead_site id (bury_site id d) = true).
Proof.
  intros Hwf.
  assert (Hchar : forall d', dead_sites_wf d' ->
                    forall x, is_dead_site x d' = true <-> x ∈ ds_id d').
  { intros d' Hwf' x. destruct (dead_sites_wf_split d' Hwf') as (k & H1 & H2).
    unfold is_dead_site. destruct Hwf' as (_ & Hl' & _).
    rewrite take_ge by lia.
    exact (is_dead_site_loop_elem_of _ x k H1 H2). }
  split; [exact (Hchar d Hwf) |].
  split; [apply bury_site_wf, Hwf |]. split; [reflexivity |].
  intros Hid. apply (Hchar _ (bury_site_wf id d Hwf)).
  unfold bury_site. apply Z.eqb_neq in Hid. rewrite Hid. cbn [negb ds_id].
  destruct Hwf as (Hn & Hl & _).
  rewrite (Z.rem_small (ds_n d)) by lia.
  apply list_elem_of_lookup. exists (Z.to_nat (ds_n d)).
  apply list_lookup_insert_eq. lia.
Qed.

Lemma bury_sites_keep (id : Z) (n : Z) (later : list Z) :
  forall (d : dead_sites_t) (k : Z),
    dead_sites_wf d ->
    0 <= n < MAX_DEAD ->
    0 <= k ->
    ds_n d = (n + 1 + k) mod MAX_DEAD ->
    ds_id d !! Z.to_nat n = Some id ->
    Forall (fun x => x <> 0) later ->
    k + Z.of_nat (length later) <= MAX_DEAD - 1 ->
    let d' := foldl (fun d x => bury_site x d) d later in
    dead_sites_wf d' /\ ds_id d' !! Z.to_nat n = Some id.
Proof.
  induction later as [| x later IH]; intros d k Hwf Hn Hk Hcur Hid Hnz Hlen;
    cbn zeta; cbn [foldl]; [auto |].
  inversion Hnz as [| ? ? Hx Hnz']; subst.
  cbn [length] in Hlen.
  apply (IH (bury_site x d) (k + 1)).
  - apply bury_site_wf, Hwf.
  - exact Hn.
  - lia.
  - destruct Hwf as (Hb & _).
    unfold bury_site. apply Z.eqb_neq in Hx. rewrite Hx. cbn [negb ds_n].
    rewrite Z.rem_mod_nonneg by lia.
    rewrite Hcur, Zplus_mod_idemp_l. f_equal. lia.
  - destruct Hwf as (Hb & Hl & _).
    unfold bury_site. apply Z.eqb_neq in Hx. rewrite Hx. cbn [negb ds_id].
    rewrite (Z.rem_small (ds_n d)) by lia.
    rewrite list_lookup_insert_ne; [exact Hid |].
    rewrite Hcur. intros Heq.
    pose proof (Z.div_mod (n + 1 + k) MAX_DEAD ltac:(lia)) as Hd.
    pose proof (Z.mod_pos_bound (n + 1 + k) MAX_DEAD ltac:(lia)) as Hm.
    apply Z2Nat.inj in Heq; [| lia | lia].
    assert (Hq : (n + 1 + k) / MAX_DEAD = 0 \/ (n + 1 + k) / MAX_DEAD = 1).
    { assert (0 <= (n + 1 + k) / MAX_DEAD) by (apply Z.div_pos; lia).
      assert ((n + 1 + k) / MAX_DEAD < 2)
        by (apply Z.div_lt_upper_bound; lia).
      lia. }
    destruct Hq as [Hq | Hq]; rewrite Hq in Hd; lia.
  - exact Hnz'.
  - lia.
Qed.

(** X20. The ring remembers the last MAX_DEAD sites: a site that has
    been buried is still dead after fewer than MAX_DEAD further sites have
    been buried. *)
Theorem buried_site_stays_dead (id : Z) (d : dead_sites_t) (later : list Z) :
  dead_sites_wf d ->
  id <> 0 ->
  Forall (fun x => x <> 0) later ->
  Z.of_nat (length later) < MAX_DEAD ->
  is_dead_site id (foldl (fun d x => bury_site x d) (bury_site id d) later)
  = true.
Proof.
  intros Hwf Hid Hnz Hlen.
  pose proof Hwf as (Hn & Hl & _).
  destruct (bury_sites_keep id (ds_n d) later (bury_site id d) 0) as [Hwf' Hin];
    try lia; try assumption.
  - apply bury_site_wf, Hwf.
  - unfold bury_site. apply Z.eqb_neq in Hid. rewrite Hid. cbn [negb ds_n].
    rewrite Z.rem_mod_nonneg by lia. f_equal. lia.
  - unfold bury_site. apply Z.eqb_neq in Hid. rewrite Hid. cbn [negb ds_id].
    rewrite (Z.rem_small (ds_n d)) by lia.
    apply list_lookup_insert_eq. lia.
  - destruct (dead_sites_wf_split _ Hwf') as (k & H1 & H2).
    unfold is_dead_site. destruct Hwf' as (_ & Hl' & _).
    rewrite take_ge by lia.
    apply (is_dead_site_loop_elem_of _ id k H1 H2).
    apply list_elem_of_lookup. eauto.
Qed.

(** ** The largest synode seen *)

Lemma synode_lt_gt (x y : synode_no) : synode_lt x y = synode_gt y x.
Proof.
  unfold synode_lt, synode_gt. rewrite !Z.gtb_ltb, (Z.eqb_sym (msgno x)).
  reflexivity.
Qed.

Lemma synode_lt_false_trans (x y z : synode_no) :
  synode_lt x y = false -> synode_lt y z = false -> synode_lt x z = false.
Proof.
  unfold synode_lt.
  rewrite !orb_false_iff, !andb_false_iff, !Z.ltb_ge, !Z.eqb_neq.
  intros [H1 H2] [H3 H4]. split; [lia |].
  destruct (Z.eq_dec (msgno x) (msgno z)); [right | left; assumption]. lia.
Qed.

Lemma synode_lt_irrefl (x : synode_no) : synode_lt x x = false.
Proof. rewrite synode_lt_gt. apply synode_gt_irrefl. Qed.

Lemma synode_gt_lt_false (x y : synode_no) :
  synode_gt x y = true -> synode_lt x y = false.
Proof.
  unfold synode_lt, synode_gt.
  rewrite orb_true_iff, andb_true_iff, !Z.gtb_ltb, !Z.ltb_lt, Z.eqb_eq.
  rewrite orb_false_iff, andb_false_iff, !Z.ltb_ge, Z.eqb_neq. lia.
Qed.

(** X21. [update_max_synode] only moves [max_synode] forward inside a
    group: a message of a dead site changes nothing; with a group
    established (the latest site and [max_synode] both have a group id), a
    message of another group changes nothing, and for a message of the same
    group [max_synode] becomes the greatest of its old value, the synode of
    the message and the [max_synode] the message carries. *)
Theorem update_max_synode_is_max (d : dead_sites_t) (p_group_id : Z)
    (p : pax_msg) (g : xcom_globals) :
  let g' := update_max_synode d p_group_id p g in
  (is_dead_site p_group_id d = true -> g' = g)
  /\ (is_dead_site p_group_id d = false ->
      get_group_id (snd <$> get_site_def (site_defs g)) <> 0 ->
      group_id (max_synode g) <> 0 ->
      (group_id (max_synode g) <> group_id (m_synode p) -> g' = g)
      /\ (group_id (max_synode g) = group_id (m_synode p) ->
          synode_lt (max_synode g') (max_synode g) = false
          /\ synode_lt (max_synode g') (m_synode p) = false
          /\ synode_lt (max_synode g') (m_max_synode p) = false
          /\ (max_synode g' = max_synode g
              \/ max_synode g' = m_synode p
              \/ max_synode g' = m_max_synode p))).
Proof.
  cbn zeta. unfold update_max_synode. split.
  - intros ->. reflexivity.
  - intros -> Hs Hm. apply Z.eqb_neq in Hs, Hm. rewrite Hs, Hm. cbn [orb].
    split.
    + intros Hne. apply Z.eqb_neq in Hne. rewrite Hne. reflexivity.
    + intros He. apply Z.eqb_eq in He. rewrite He.
      destruct (synode_gt (m_synode p) (max_synode g)) eqn:E1;
        cbn [set_max_synode max_synode];
        destruct (synode_gt (m_max_synode p) _) eqn:E2;
        cbn [set_max_synode max_synode];
        rewrite <- ?synode_lt_gt in *.
      * repeat split; auto using synode_lt_irrefl.
        -- eapply synode_lt_false_trans;
             [apply synode_gt_lt_false; rewrite <- synode_lt_gt; exact E2
             | apply synode_gt_lt_false; rewrite <- synode_lt_gt; exact E1].
        -- apply synode_gt_lt_false. rewrite <- synode_lt_gt. exact E2.
      * repeat split; auto using synode_lt_irrefl.
        apply synode_gt_lt_false. rewrite <- synode_lt_gt. exact E1.
      * repeat split; auto using synode_lt_irrefl.
        -- apply synode_gt_lt_false. rewrite <- synode_lt_gt. exact E2.
        -- eapply synode_lt_false_trans;
             [apply synode_gt_lt_false; rewrite <- synode_lt_gt; exact E2
             | exact E1].
      * repeat split; auto using synode_lt_irrefl.
Qed.

(** ** Log sequence numbers *)

(** X22. Log sequence numbers are consecutive: the numbers handed out by
    successive calls of [assign_lsn] increase by one from call to call,
    whatever [max_synode] is at the later calls; the first one is
    [max_synode.msgno + 1] when the counter is still zero (the counter
    not reaching 2^64). *)
Theorem assign_lsn_consecutive (ms : list synode_no) (m : synode_no) (lsn : Z) :
  let base := if lsn =? 0 then msgno m else lsn in
  0 <= base ->
  base + Z.of_nat (length (m :: ms)) < 2 ^ 64 ->
  assign_lsns (m :: ms) lsn
  = map (fun i => base + 1 + Z.of_nat i) (seq 0 (length (m :: ms))).
Proof.
  cbn zeta. intros Hb Hlen.
  set (base := if lsn =? 0 then msgno m else lsn) in *.
  assert (H1 : assign_lsn m lsn = base + 1).
  { unfold assign_lsn, initialize_lsn. fold base. unfold u64.
    cbn [length] in Hlen. apply Z.mod_small. lia. }
  cbn [assign_lsns length seq map]. rewrite H1. f_equal; [lia |].
  assert (G : forall (rest : list synode_no) (c : Z),
            0 < c -> c + Z.of_nat (length rest) < 2 ^ 64 ->
            assign_lsns rest c
            = map (fun i => c + 1 + Z.of_nat i) (seq 0 (length rest))).
  { induction rest as [| x rest IH]; intros c Hc Hl; [reflexivity |].
    cbn [assign_lsns length seq map]. cbn [length] in Hl.
    assert (Hx : assign_lsn x c = c + 1).
    { unfold assign_lsn. destruct (c =? 0) eqn:E; [apply Z.eqb_eq in E; lia |].
      unfold u64. apply Z.mod_small. lia. }
    rewrite Hx. f_equal; [lia |].
    rewrite IH by lia. rewrite <- seq_shift, map_map.
    apply map_ext. intros i. lia. }
  cbn [length] in Hlen. rewrite G by lia.
  rewrite <- seq_shift, map_map. apply map_ext. intros i. lia.
Qed.

(** ** The next message number of the local node *)

(** X23. [first_free_synode] never goes back: whenever it returns, the
    synode it returns is not less than the one it was given (the message
    number not being the last one); and it returns as soon as there is a
    site. *)
Theorem first_free_synode_not_before (l : list site_def) (s : synode_no) :
  0 <= msgno s < 2 ^ 64 - 1 ->
  (forall r, first_free_synode l s = Some r -> synode_lt r s = false)
  /\ (l <> [] -> is_Some (first_free_synode l s)).
Proof.
  intros Hm. unfold first_free_synode. split.
  - intros r H.
    destruct (find_site_def l s) as [site |] eqn:Ef.
    + set (rv := mk_synode _ _ (get_nodeno (Some site.2))) in H.
      assert (Hrv : msgno s <= msgno rv < 2 ^ 64 - 1).
      { unfold rv. destruct (msgno s =? 0) eqn:E0; cbn.
        - apply Z.eqb_eq in E0. lia.
        - lia. }
      destruct (synode_lt rv s) eqn:El.
      * inversion H; subst. unfold incr_msgno, synode_lt. cbn [msgno node].
        replace (u64 (msgno rv + 1)) with (msgno rv + 1)
          by (unfold u64; rewrite Z.mod_small; lia).
        apply orb_false_iff. split; [apply Z.ltb_ge; lia |].
        apply andb_false_iff. left. apply Z.eqb_neq. lia.
      * inversion H; subst. exact El.
    + apply bind_Some in H as (site & Hg & H). inversion H; subst.
      unfold find_site_def in Ef. apply list_find_None in Ef.
      unfold get_site_def in Hg. destruct l as [| c l']; [discriminate |].
      inversion Hg; subst. cbn [snd].
      inversion Ef as [| ? ? Hc _]; subst.
      apply not_false_is_true in Hc.
      rewrite synode_lt_gt in Hc. apply synode_gt_lt_false. exact Hc.
  - intros Hne. destruct (find_site_def l s).
    + destruct (synode_lt _ s); eauto.
    + destruct l; [congruence | cbn; eauto].
Qed.

(** ** The leader of a site *)

Lemma leader_loop_spec (s : site_def) (fuel : nat) (i0 : Z) :
  let k := leader_loop s fuel i0 in
  (i0 <= k < i0 + Z.of_nat fuel
   /\ may_be_dead s k = false
   /\ forall i, i0 <= i < k -> may_be_dead s i = true)
  \/ (k = 0 /\ forall i, i0 <= i < i0 + Z.of_nat fuel -> may_be_dead s i = true).
Proof.
  revert i0. induction fuel as [| n IH]; intros i0; cbn zeta.
  - right. split; [reflexivity |]. intros i Hi. lia.
  - cbn [leader_loop]. destruct (may_be_dead s i0) eqn:E; cbn [negb].
    + destruct (IH (i0 + 1)) as [(A & B & C) | (A & B)].
      * left. split; [lia |]. split; [exact B |].
        intros i Hi. destruct (Z.eq_dec i i0) as [-> | Hne]; [exact E |].
        apply C. lia.
      * right. split; [exact A |].
        intros i Hi. destruct (Z.eq_dec i i0) as [-> | Hne]; [exact E |].
        apply B. lia.
    + left. split; [lia |]. split; [exact E |]. intros i Hi. lia.
Qed.

(** X24. The leader of a site is its first node that is not suspected:
    every node with a smaller number may be dead, and the leader itself is a
    node of the site that is not suspected - unless every node of the site
    is suspected (or the site has no node), in which case the leader is
    node 0.  A node is the greatest exactly when it is that node. *)
Theorem leader_is_first_alive (s : site_def) :
  let k := leader (Some s) in
  let n := get_maxnodes (Some s) in
  ((0 <= k < n
    /\ may_be_dead s k = false
    /\ forall i, 0 <= i < k -> may_be_dead s i = true)
   \/ (k = 0 /\ forall i, 0 <= i < n -> may_be_dead s i = true))
  /\ iamthegreatest (Some s) = Some (nodeno s =? k).
Proof.
  cbn zeta. split.
  - unfold leader.
    destruct (leader_loop_spec s (Z.to_nat (get_maxnodes (Some s))) 0)
      as [(A & B & C) | (A & B)]; cbn zeta in *.
    + left. pose proof (get_maxnodes_nonneg (Some s)).
      split; [lia |]. split; [exact B | exact C].
    + right. pose proof (get_maxnodes_nonneg (Some s)).
      split; [exact A |]. intros i Hi. apply B. lia.
  - unfold iamthegreatest. cbn. rewrite Z.eqb_sym. reflexivity.
Qed.

(** ** Snapshots received while booting *)

Lemma note_snapshot_length (n : Z) (s : list Z) :
  length (note_snapshot n s) = length s.
Proof.
  unfold note_snapshot. destruct (negb _); [apply length_insert | reflexivity].
Qed.

Lemma note_snapshot_nth (n : Z) (s : list Z) (i : nat) :
  0 <= n ->
  nth i (note_snapshot n s) 0 <> 0
  <-> nth i s 0 <> 0
      \/ (n <> VOID_NODE_NO /\ Z.to_nat n = i /\ (i < length s)%nat).
Proof.
  intros Hn. unfold note_snapshot.
  destruct (n =? VOID_NODE_NO) eqn:E; cbn [negb].
  - apply Z.eqb_eq in E. split; [auto | intros [H | (H & _)]; [exact H | lia]].
  - apply Z.eqb_neq in E. rewrite !nth_lookup, list_lookup_insert.
    destruct (decide (Z.to_nat n = i /\ (Z.to_nat n < length s)%nat))
      as [[H1 H2] | Hno]; cbn.
    + split; [intros _; right; repeat split; [exact E | exact H1 | lia] | lia].
    + split; [auto |]. intros [H | (_ & H1 & H2)]; [exact H |].
      exfalso. apply Hno. split; [exact H1 | lia].
Qed.

Lemma note_snapshots_nth (ns : list Z) (s : list Z) (i : nat) :
  Forall (fun n => 0 <= n) ns ->
  nth i (foldl (fun s n => note_snapshot n s) s ns) 0 <> 0
  <-> nth i s 0 <> 0
      \/ ((i < length s)%nat
          /\ exists n, n ∈ ns /\ n <> VOID_NODE_NO /\ Z.to_nat n = i).
Proof.
  revert s. induction ns as [| n ns IH]; intros s Hns; cbn [foldl].
  - split; [auto |]. intros [H | (_ & n & Hn & _)]; [exact H |].
    inversion Hn.
  - inversion Hns as [| ? ? Hn Hns']; subst.
    rewrite (IH _ Hns'), note_snapshot_length, (note_snapshot_nth n s i Hn).
    split.
    + intros [[H | (H1 & H2 & H3)] | (H1 & m & Hm & H2 & H3)].
      * auto.
      * right. split; [exact H3 |]. exists n. split; [left | auto].
      * right. split; [exact H1 |]. exists m. split; [right; exact Hm | auto].
    + intros [H | (H1 & m & Hm & H2 & H3)]; [auto |].
      apply elem_of_cons in Hm as [-> | Hm].
      * left. right. auto.
      * right. split; [exact H1 |]. exists m. auto.
Qed.

Lemma got_all_snapshots_loop_spec (s : list Z) (fuel : nat) (i0 : Z) :
  0 <= i0 ->
  got_all_snapshots_loop s fuel i0 = true
  <-> forall j, i0 <= j < i0 + Z.of_nat fuel -> nth (Z.to_nat j) s 0 <> 0.
Proof.
  revert i0. induction fuel as [| k IH]; intros i0 Hi; cbn [got_all_snapshots_loop].
  - split; [intros _ j Hj; lia | reflexivity].
  - destruct (nth (Z.to_nat i0) s 0 =? 0) eqn:E.
    + apply Z.eqb_eq in E. split; [discriminate |].
      intros H. exfalso. apply (H i0); [lia | exact E].
    + apply Z.eqb_neq in E. rewrite IH by lia. split.
      * intros H j Hj. destruct (Z.eq_dec j i0) as [-> | Hne]; [exact E |].
        apply H. lia.
      * intros H j Hj. apply H. lia.
Qed.

(** X25. All snapshots are in exactly when every node of the latest site
    has been noted: after [reset_snapshot_mask] and any number of calls of
    [note_snapshot], [got_all_snapshots] answers 1 exactly when the site has
    at least one node and every node number of the site is among the noted
    ones (the nodes of the site fitting into the array). *)
Theorem got_all_snapshots_iff_all_noted (l : list site_def)
    (snapshots : list Z) (noted : list Z) :
  let max := get_maxnodes (snd <$> get_site_def l) in
  max <= Z.of_nat (length snapshots) ->
  max <= VOID_NODE_NO ->
  Forall (fun n => 0 <= n) noted ->
  got_all_snapshots l
    (foldl (fun s n => note_snapshot n s) (reset_snapshot_mask snapshots) noted)
  = true
  <-> 0 < max /\ forall i, 0 <= i < max -> i ∈ noted.
Proof.
  cbn zeta. intros Hlen Hvoid Hnoted. unfold got_all_snapshots.
  pose proof (get_maxnodes_nonneg (snd <$> get_site_def l)) as Hmax.
  set (max := get_maxnodes (snd <$> get_site_def l)) in *.
  destruct (0 =? max) eqn:E0.
  - apply Z.eqb_eq in E0. split; [discriminate | lia].
  - apply Z.eqb_neq in E0. rewrite got_all_snapshots_loop_spec by lia.
    assert (Hzero : forall i, nth i (reset_snapshot_mask snapshots) 0 = 0).
    { intros i. unfold reset_snapshot_mask.
      destruct (lt_dec i (length snapshots)) as [Hlt | Hge].
      - rewrite nth_lookup, list_lookup_fmap.
        destruct (snapshots !! i) eqn:El; reflexivity.
      - apply nth_overflow. rewrite length_map. lia. }
    split.
    + intros H. split; [lia |]. intros i Hi.
      specialize (H i ltac:(lia)).
      apply (note_snapshots_nth noted _ _ Hnoted) in H.
      destruct H as [H | (_ & n & Hn & _ & Hni)]; [rewrite Hzero in H; lia |].
      rewrite Forall_forall in Hnoted. specialize (Hnoted n Hn).
      replace i with n by lia. exact Hn.
    + intros [_ H] j Hj. apply (note_snapshots_nth noted _ _ Hnoted).
      right. unfold reset_snapshot_mask. rewrite length_map.
      split; [lia |]. exists j. split; [apply H; lia |].
      split; [unfold VOID_NODE_NO in *; lia | reflexivity].
Qed.

(** ** The best snapshot *)

Lemma synode_eq_msgno_node (x y : synode_no) :
  synode_eq x y = true -> msgno x = msgno y /\ node x = node y.
Proof.
  unfold synode_eq. rewrite !andb_true_iff, !Z.eqb_eq. tauto.
Qed.

Lemma synode_eq_trans (x y z : synode_no) :
  synode_eq x y = true -> synode_eq y z = true -> synode_eq x z = true.
Proof.
  unfold synode_eq. rewrite !andb_true_iff, !Z.eqb_eq.
  intros ((-> & ->) & ->) ((-> & ->) & ->). auto.
Qed.

Lemma synode_gt_eq_l (x y z : synode_no) :
  synode_eq x y = true -> synode_gt y z = true -> synode_gt x z = true.
Proof.
  intros He. apply synode_eq_msgno_node in He as [Hm Hn].
  unfold synode_gt. rewrite Hm, Hn. auto.
Qed.

Lemma synode_gt_eq_r (x y z : synode_no) :
  synode_gt x y = true -> synode_eq y z = true -> synode_gt x z = true.
Proof.
  intros Hg He. apply synode_eq_msgno_node in He as [Hm Hn].
  unfold synode_gt in *. rewrite <- Hm, <- Hn. exact Hg.
Qed.

Lemma synode_gt_not_eq (x y : synode_no) :
  synode_gt x y = true -> synode_eq x y = false.
Proof.
  intros Hg. destruct (synode_eq x y) eqn:He; [| reflexivity].
  apply synode_eq_msgno_node in He as [Hm Hn].
  unfold synode_gt in Hg. rewrite Hm, Hn, !Z.gtb_ltb, !Z.ltb_irrefl in Hg.
  rewrite andb_false_r in Hg. discriminate.
Qed.

Lemma synode_gt_asym (x y : synode_no) :
  synode_gt x y = true -> synode_gt y x = false.
Proof.
  intros H. destruct (synode_gt y x) eqn:E; [| reflexivity].
  pose proof (synode_gt_trans _ _ _ H E) as Hxx.
  rewrite synode_gt_irrefl in Hxx. discriminate.
Qed.

Lemma synode_eq_sym (x y : synode_no) : synode_eq x y = synode_eq y x.
Proof.
  unfold synode_eq.
  rewrite (Z.eqb_sym (group_id x)), (Z.eqb_sym (msgno x)), (Z.eqb_sym (node x)).
  reflexivity.
Qed.

(** X26. [better_snapshot] is a strict order on snapshots, the
    lexicographic one on (boot key, log start, log end): no snapshot is
    better than itself, two snapshots are never each better than the other,
    and a snapshot better than one that is better than a third is better than
    the third.  So replacing the best snapshot by a better one cannot go
    round in a circle. *)
Theorem better_snapshot_strict_order (a b c : snapshot_rank) :
  better_snapshot a a = false
  /\ (better_snapshot a b = true -> better_snapshot b a = false)
  /\ (better_snapshot a b = true -> better_snapshot b c = true ->
      better_snapshot a c = true).
Proof.
  unfold better_snapshot. split; [| split].
  - rewrite !synode_gt_irrefl, !andb_false_r. reflexivity.
  - intros H.
    apply orb_true_iff in H as [H | H].
    + rewrite (synode_gt_asym _ _ H).
      rewrite synode_eq_sym, (synode_gt_not_eq _ _ H). reflexivity.
    + apply andb_true_iff in H as [He H].
      assert (Hg : synode_gt (sr_boot_key b) (sr_boot_key a) = false).
      { destruct (synode_gt (sr_boot_key b) (sr_boot_key a)) eqn:E;
          [| reflexivity].
        apply synode_gt_not_eq in E. rewrite synode_eq_sym in E. congruence. }
      rewrite Hg. cbn [orb]. apply andb_false_iff. right.
      apply orb_true_iff in H as [H | H].
      * rewrite (synode_gt_asym _ _ H).
        rewrite synode_eq_sym, (synode_gt_not_eq _ _ H). reflexivity.
      * apply andb_true_iff in H as [He2 H].
        assert (Hg2 : synode_gt (sr_log_start b) (sr_log_start a) = false).
        { destruct (synode_gt (sr_log_start b) (sr_log_start a)) eqn:E;
            [| reflexivity].
          apply synode_gt_not_eq in E. rewrite synode_eq_sym in E. congruence. }
        rewrite Hg2, (synode_gt_asym _ _ H), andb_false_r. reflexivity.
  - intros H1 H2.
    apply orb_true_iff in H1 as [H1 | H1];
      apply orb_true_iff in H2 as [H2 | H2].
    + rewrite (synode_gt_trans _ _ _ H1 H2). reflexivity.
    + apply andb_true_iff in H2 as [He2 _].
      rewrite (synode_gt_eq_r _ _ _ H1 He2). reflexivity.
    + apply andb_true_iff in H1 as [He1 _].
      rewrite (synode_gt_eq_l _ _ _ He1 H2). reflexivity.
    + apply andb_true_iff in H1 as [He1 H1].
      apply andb_true_iff in H2 as [He2 H2].
      rewrite (synode_eq_trans _ _ _ He1 He2).
      apply orb_true_iff. right. cbn [andb].
      apply orb_true_iff in H1 as [H1 | H1];
        apply orb_true_iff in H2 as [H2 | H2].
      * rewrite (synode_gt_trans _ _ _ H1 H2). reflexivity.
      * apply andb_true_iff in H2 as [He4 _].
        rewrite (synode_gt_eq_r _ _ _ H1 He4). reflexivity.
      * apply andb_true_iff in H1 as [He3 _].
        rewrite (synode_gt_eq_l _ _ _ He3 H2). reflexivity.
      * apply andb_true_iff in H1 as [He3 H1].
        apply andb_true_iff in H2 as [He4 H2].
        rewrite (synode_eq_trans _ _ _ He3 He4), (synode_gt_trans _ _ _ H1 H2).
        rewrite orb_true_r. reflexivity.
Qed.

(** ** The proposer: the value it proposes *)

Lemma check_propose_result (forced_config site : option site_def)
    (w w1 : world) (ok : bool) :
  check_propose forced_config site w = Some (w1, ok) ->
  if ok then
    exists q,
      prop_msg (proposer (w_p w)) = Some q
      /\ prop_msg (proposer (w_p w1)) = Some q
      /\ msg_at w1 q
         = init_propose_msg
             (set_m_synode (synode (w_p w))
                (set_m_proposal (bal (proposer (w_p w))) (msg_at w q)))
      /\ w_out w1 = w_out w
  else w1 = w.
Proof.
  unfold check_propose. intros H.
  apply bind_Some in H as (b & _ & H).
  apply bind_Some in H as (q & Hq & H).
  destruct b; inversion H; subst; clear H; [| reflexivity].
  exists q. cbn. split; [exact Hq |]. split; [exact Hq |].
  split; [| reflexivity].
  unfold msg_at. cbn. rewrite lookup_total_insert_eq. reflexivity.
Qed.

Lemma init_propose_msg_fields (x : pax_msg) :
  m_op (init_propose_msg x) = accept_op
  /\ m_proposal (init_propose_msg x) = m_proposal x
  /\ m_synode (init_propose_msg x) = m_synode x
  /\ m_msg_type (init_propose_msg x) = m_msg_type x
  /\ m_a (init_propose_msg x) = set_a_key (m_synode x) <$> m_a x.
Proof.
  unfold init_propose_msg, brand_app_data. cbn.
  destruct (m_a x) eqn:E; cbn; rewrite ?E; repeat split.
Qed.

(** X27. A proposer adopts the value reported to it: when an
    acknowledgement of its prepare carries an accepted value whose ballot is
    greater than the ballot of the proposer's current message, that
    acknowledgement becomes the proposer's message; otherwise the proposer
    keeps its message.  If the acknowledgement completes the majority, the
    accept request that is sent carries the type and the payload of the
    message so chosen (the payload branded with the synode), under the
    proposer's ballot and for the synode of the machine; and nothing else is
    sent. *)
Theorem proposer_adopts_reported_value (forced_config site : option site_def)
    (w w' : world) (m q : nat) :
  finished w = false ->
  m_from (msg_at w m) <> VOID_NODE_NO ->
  eq_ballot (bal (proposer (w_p w))) (m_reply_to (msg_at w m)) = true ->
  m_op (msg_at w m) = ack_prepare_op ->
  prop_msg (proposer (w_p w)) = Some q ->
  handle_ack_prepare forced_config site w m = Some w' ->
  let v := if gt_ballot (m_proposal (msg_at w m)) (m_proposal (msg_at w q))
           then m else q in
  prop_msg (proposer (w_p w')) = Some v
  /\ (w_out w' = w_out w
      \/ exists sent,
           w_out w' = w_out w ++ [Ev_send_propose_msg sent]
           /\ m_op sent = accept_op
           /\ m_proposal sent = bal (proposer (w_p w))
           /\ m_synode sent = synode (w_p w)
           /\ m_msg_type sent = m_msg_type (msg_at w v)
           /\ m_a sent = set_a_key (synode (w_p w)) <$> m_a (msg_at w v)).
Proof.
  intros Hfin Hfrom Heq Hop Hq H. cbn zeta.
  unfold handle_ack_prepare in H. rewrite Hfin, Heq in H.
  apply Z.eqb_neq in Hfrom. rewrite Hfrom in H. cbn [negb andb] in H.
  apply bind_Some in H as ([w1 ok] & Hs & H). cbn [fst snd] in H.
  unfold handle_simple_ack_prepare in Hs.
  set (wa := if negb (get_nodeno site =? VOID_NODE_NO) then _ else w) in Hs.
  assert (Ha : w_msgs wa = w_msgs w /\ w_out wa = w_out w
               /\ prop_msg (proposer (w_p wa)) = Some q
               /\ bal (proposer (w_p wa)) = bal (proposer (w_p w))
               /\ synode (w_p wa) = synode (w_p w)).
  { unfold wa. destruct (negb _); cbn; auto. }
  clearbody wa. destruct Ha as (Am & Ao & Aq & Ab & As).
  assert (Em : forall k, msg_at wa k = msg_at w k)
    by (intros k; apply msg_at_ext, Am).
  rewrite Em, Hop in Hs.
  rewrite bool_decide_eq_true_2 in Hs by reflexivity.
  rewrite Aq in Hs. cbn [mbind option_bind] in Hs. rewrite !Em in Hs.
  set (v := if gt_ballot (m_proposal (msg_at w m)) (m_proposal (msg_at w q))
            then m else q).
  set (wb := if gt_ballot (m_proposal (msg_at w m)) (m_proposal (msg_at w q))
             then with_p (set_proposer (set_prop_msg (Some m)
                                          (proposer (w_p wa))) (w_p wa)) wa
             else wa).
  assert (Hb : w_msgs wb = w_msgs w /\ w_out wb = w_out w
               /\ prop_msg (proposer (w_p wb)) = Some v
               /\ bal (proposer (w_p wb)) = bal (proposer (w_p w))
               /\ synode (w_p wb) = synode (w_p w)).
  { unfold wb, v. destruct (gt_ballot _ _); cbn; auto. }
  assert (Hs' : (if gt_ballot (m_reply_to (msg_at wb m))
                      (sent_prop (proposer (w_p wb)))
                 then check_propose forced_config site wb
                 else Some (wb, false)) = Some (w1, ok)).
  { unfold wb. destruct (gt_ballot (m_proposal (msg_at w m)) _); exact Hs. }
  clear Hs. clearbody wb. destruct Hb as (Bm & Bo & Bq & Bb & Bs).
  assert (Hcp : check_propose forced_config site wb = Some (w1, ok)
                \/ (w1 = wb /\ ok = false)).
  { destruct (gt_ballot (m_reply_to (msg_at wb m)) _);
      [left; exact Hs' | right; inversion Hs'; auto]. }
  destruct Hcp as [Hcp | [-> ->]].
  - apply check_propose_result in Hcp. destruct ok.
    + destruct Hcp as (k & Hk & Hk1 & Hmsg & Hout).
      rewrite Bq in Hk. inversion Hk; subst k.
      rewrite Hk1 in H. cbn [mbind option_bind] in H.
      inversion H; subst; clear H. cbn [emit w_p w_out].
      split; [exact Hk1 |]. right. exists (msg_at w1 v).
      rewrite Hout, Bo. split; [reflexivity |].
      rewrite Hmsg.
      destruct (init_propose_msg_fields
                  (set_m_synode (synode (w_p wb))
                     (set_m_proposal (bal (proposer (w_p wb))) (msg_at wb v))))
        as (I1 & I2 & I3 & I4 & I5).
      rewrite I1, I2, I3, I4, I5. cbn. rewrite Bb, Bs, (msg_at_ext _ _ v Bm).
      repeat split.
    + subst w1. inversion H; subst. split; [exact Bq | left; exact Bo].
  - inversion H; subst. split; [exact Bq | left; exact Bo].
Qed.

(** ** The executor: the order of its cursors *)

Lemma x_check_execute_inform_loop_cursors (fuel : nat) (g : xcom_globals)
    (xc : execute_context) :
  executed_msg (x_check_execute_inform_loop fuel g xc).1 = executed_msg g
  /\ delivered_msg (x_check_execute_inform_loop fuel g xc).1 = delivered_msg g
  /\ site_defs (x_check_execute_inform_loop fuel g xc).1 = site_defs g.
Proof.
  revert g xc. induction fuel as [| k IH]; intros g xc; cbn; [auto |].
  destruct (negb (fifo_empty (delay_fifo g))
            && negb (synode_lt (executed_msg g) (fifo_front (delay_fifo g))));
    [| auto].
  destruct (IH (set_delay_fifo (fifo_extract (delay_fifo g)).2 g)
              (mk_execute_context (exit_synode xc) (delivery_limit xc)
                 (state xc) (exit_flag xc) (inform_index xc - 1)))
    as (A & B & C).
  rewrite A, B, C. auto.
Qed.

Lemma x_check_execute_inform_cursors (g : xcom_globals) (xc : execute_context) :
  executed_msg (x_check_execute_inform g xc).1.1 = executed_msg g
  /\ delivered_msg (x_check_execute_inform g xc).1.1 = delivered_msg g.
Proof.
  unfold x_check_execute_inform.
  destruct (fifo_empty (delay_fifo g)); [auto |].
  destruct (negb (synode_lt _ _)); [| auto]. cbn [fst].
  destruct (x_check_execute_inform_loop_cursors
              (Z.to_nat (df_n (delay_fifo g))) g xc) as (A & B & _).
  auto.
Qed.

(** X28. The executor keeps [delivered_msg] behind [executed_msg].  As
    long as it does not exit, a fetch step moves [executed_msg] to its
    successor and leaves [delivered_msg] alone, so [delivered_msg] is strictly
    behind afterwards; an execute step moves [delivered_msg] to its successor
    and leaves [executed_msg] alone, and does not overtake it
    ([executed_msg] being a synode of the site of [delivered_msg]).  When the
    executor exits neither cursor moves. *)
Theorem executor_keeps_delivered_behind (g : xcom_globals)
    (xc : execute_context) :
  synode_lt (executed_msg g) (delivered_msg g) = false ->
  0 <= node (executed_msg g) < VOID_NODE_NO ->
  0 <= msgno (executed_msg g) < 2 ^ 64 - 1 ->
  0 <= node (delivered_msg g) < VOID_NODE_NO ->
  0 <= msgno (delivered_msg g) < 2 ^ 64 - 1 ->
  let f := x_check_increment_fetch g xc in
  let e := x_check_increment_execute g xc in
  (x_check_exit g xc = false ->
   executed_msg f.1 = incr_synode (site_defs g) (executed_msg g)
   /\ delivered_msg f.1 = delivered_msg g
   /\ synode_gt (executed_msg f.1) (delivered_msg f.1) = true)
  /\ (x_check_exit g xc = false ->
      node (executed_msg g)
      < get_maxnodes (snd <$> find_site_def (site_defs g) (delivered_msg g)) ->
      synode_gt (executed_msg g) (delivered_msg g) = true ->
      executed_msg e.1 = executed_msg g
      /\ delivered_msg e.1 = incr_synode (site_defs g) (delivered_msg g)
      /\ synode_lt (executed_msg e.1) (delivered_msg e.1) = false)
  /\ (x_check_exit g xc = true ->
      f = (g, set_state (Some x_terminate) xc)
      /\ e = (g, set_state (Some x_terminate) xc)).
Proof.
  intros Hle Hen Hem Hdn Hdm. cbn zeta.
  unfold x_check_increment_fetch, x_check_increment_execute.
  split; [| split].
  - intros Hx. rewrite Hx.
    set (g1 := SET_EXECUTED_MSG _ g).
    destruct (x_check_execute_inform_cursors g1 xc) as [A B].
    destruct (x_check_execute_inform g1 xc) as [[g2 xc2] inform].
    cbn [fst snd] in *.
    assert (E : executed_msg g2 = incr_synode (site_defs g) (executed_msg g)
                /\ delivered_msg g2 = delivered_msg g).
    { rewrite A, B. split; reflexivity. }
    destruct E as [E1 E2].
    assert (G : synode_gt (incr_synode (site_defs g) (executed_msg g))
                  (delivered_msg g) = true).
    { revert Hle.
      destruct (incr_synode_cases (site_defs g) (executed_msg g) Hen Hem)
        as [[_ ->] | [_ ->]];
        unfold synode_gt, synode_lt; cbn [msgno node];
        rewrite !orb_true_iff, !andb_true_iff, orb_false_iff, andb_false_iff,
          !Z.gtb_ltb, !Z.ltb_lt, !Z.ltb_ge, !Z.eqb_eq, Z.eqb_neq; lia. }
    destruct inform; cbn [fst]; rewrite E1, E2; auto.
  - intros Hx Hnode Hgt. rewrite Hx.
    set (g1 := set_delivered_msg _ g).
    assert (E : executed_msg g1 = executed_msg g
                /\ delivered_msg g1
                   = incr_synode (site_defs g) (delivered_msg g))
      by (split; reflexivity).
    destruct E as [E1 E2].
    assert (G : synode_lt (executed_msg g)
                  (incr_synode (site_defs g) (delivered_msg g)) = false).
    { revert Hgt.
      destruct (incr_synode_cases (site_defs g) (delivered_msg g) Hdn Hdm)
        as [[E ->] | [E ->]];
        unfold synode_gt, synode_lt; cbn [msgno node];
        rewrite !orb_true_iff, !andb_true_iff, orb_false_iff, andb_false_iff,
          !Z.gtb_ltb, !Z.ltb_lt, !Z.ltb_ge, !Z.eqb_eq, Z.eqb_neq;
        intros Hgt;
        (split; [lia |]);
        destruct (Z.eq_dec (msgno (executed_msg g)) (msgno (delivered_msg g)));
        lia. }
    destruct (synode_eq (delivered_msg g1) (executed_msg g1)); cbn [fst];
      rewrite E1, E2; auto.
  - intros Hx. rewrite Hx. auto.
Qed.

(** ** The event horizon: the executor's own message *)

Lemma reverse_start_order_lookup (l : list site_def) (i j : nat)
    (a c : site_def) :
  reverse_start_order l = true ->
  l !! i = Some a -> l !! j = Some c -> (i < j)%nat ->
  synode_gt (start c) (start a) = false.
Proof.
  revert i j. induction l as [| x l IH]; intros i j Ho Hi Hj Hlt;
    [discriminate |].
  cbn in Ho. apply andb_true_iff in Ho as [Hx Ho].
  destruct i as [| i].
  - cbn in Hi. inversion Hi; subst x.
    destruct j as [| j]; [lia |]. cbn in Hj.
    rewrite forallb_forall in Hx.
    assert (Hin : In c l).
    { apply list_elem_of_In, list_elem_of_lookup. eauto. }
    specialize (Hx _ Hin). apply negb_true_iff in Hx. exact Hx.
  - destruct j as [| j]; [lia |]. cbn in Hi, Hj.
    apply (IH i j Ho Hi Hj). lia.
Qed.

(** In a history in reverse start order, a site that starts after the
    active site starts after [executed] as well. *)
Lemma pending_site_starts_later (l : list site_def) (executed : synode_no)
    (active : site_ptr) (c : site_def) :
  reverse_start_order l = true ->
  find_site_def l executed = Some active ->
  c ∈ l ->
  synode_gt (start c) (start active.2) = true ->
  synode_lt executed (start c) = true.
Proof.
  intros Ho Ha Hc Hg. unfold find_site_def in Ha.
  destruct active as [i a]. apply list_find_Some in Ha as (Hi & _ & Hmin).
  apply list_elem_of_lookup in Hc as [j Hj]. cbn [snd] in Hg.
  destruct (lt_eq_lt_dec j i) as [[Hlt | Heq] | Hgt].
  - specialize (Hmin j c Hj Hlt).
    destruct (synode_lt executed (start c)); [reflexivity | congruence].
  - subst j. rewrite Hi in Hj. inversion Hj; subst c.
    rewrite synode_gt_irrefl in Hg. discriminate.
  - rewrite (reverse_start_order_lookup l i j a c Ho Hi Hj Hgt) in Hg.
    discriminate.
Qed.

Lemma first_event_horizon_reconfig_loop_Some (l : list site_def) (aeh : Z)
    (syn : synode_no) (fuel : nat) (next : option site_ptr) (R : site_ptr) :
  (forall c, next = Some c -> c.2 ∈ l /\ synode_gt (start c.2) syn = true) ->
  first_event_horizon_reconfig_loop fuel l aeh next = Some (Some R) ->
  R.2 ∈ l /\ synode_gt (start R.2) syn = true.
Proof.
  revert next. induction fuel as [| fuel IH]; intros [c |] Hn H; cbn in H;
    try discriminate.
  - destruct (negb (aeh =? event_horizon c.2)); [| discriminate].
    inversion H; subst. apply Hn. reflexivity.
  - destruct (negb (aeh =? event_horizon c.2)).
    + inversion H; subst. apply Hn. reflexivity.
    + apply (IH (find_next_site_def l (start c.2))); [| exact H].
      intros c0 E. unfold find_next_site_def in E.
      apply find_next_from_Some in E as [A B]. split; [exact A |].
      destruct (Hn c eq_refl) as [_ Hc].
      exact (synode_gt_trans _ _ _ B Hc).
Qed.

(** X29. The message the executor is waiting for is never beyond the
    event horizon: with an active configuration in a history kept in reverse
    start order, every event horizon at least 2 and no sum reaching 2^64,
    [too_far] answers 0 for [executed_msg] itself, whether or not a
    reconfiguration of the event horizon is pending. *)
Theorem executed_msg_within_horizon (l : list site_def) (executed : synode_no)
    (active : site_ptr) :
  find_site_def l executed = Some active ->
  reverse_start_order l = true ->
  Forall (fun c => 2 <= event_horizon c
                   /\ msgno (start c) + event_horizon c < 2 ^ 64) l ->
  1 <= msgno executed ->
  msgno executed + event_horizon active.2 < 2 ^ 64 ->
  too_far l executed executed = Some false.
Proof.
  intros Ha Ho Hall Hm Hsum.
  destruct (first_event_horizon_reconfig_total l executed active Ha)
    as [pending Hp].
  assert (Hact : active.2 ∈ l).
  { unfold find_site_def in Ha. destruct active as [i a].
    apply list_find_Some in Ha as (Hi & _). apply list_elem_of_lookup. eauto. }
  rewrite Forall_forall in Hall.
  assert (Hl : is_latest_config l active = Some (active.1 =? 0)%nat).
  { destruct l as [| a0 l0]; [discriminate | reflexivity]. }
  assert (T1 : (msgno executed
                >=? u64 (msgno executed + event_horizon active.2)) = false).
  { destruct (Hall _ Hact) as [H2 _].
    rewrite u64_small by (unfold is_u64; lia).
    rewrite Z.geb_leb. apply Z.leb_gt. lia. }
  unfold too_far. rewrite Ha, Hp. cbn [mbind option_bind]. rewrite Hl.
  cbn [mbind option_bind].
  destruct pending as [R |].
  - destruct ((active.1 =? 0)%nat); cbn [orb mbind option_bind].
    + unfold too_far_threshold. rewrite T1. reflexivity.
    + unfold too_far_threshold_new_event_horizon_pending.
      rewrite Ha. cbn [mbind option_bind].
      rewrite MIN_min, u64_add_l.
      assert (HR : R.2 ∈ l /\
                   synode_gt (start R.2) (start active.2) = true).
      { unfold first_event_horizon_reconfig in Hp. rewrite Ha in Hp.
        cbn [mbind option_bind] in Hp.
        eapply first_event_horizon_reconfig_loop_Some; [| exact Hp].
        intros c E. unfold find_next_site_def in E.
        apply find_next_from_Some in E. exact E. }
      destruct HR as [HRl HRg].
      pose proof (pending_site_starts_later l executed active R.2 Ho Ha HRl HRg)
        as Hlater.
      destruct (Hall _ HRl) as [H2 H3].
      assert (Hge : msgno executed <= msgno (start R.2)).
      { revert Hlater. unfold synode_lt.
        rewrite orb_true_iff, andb_true_iff, !Z.ltb_lt, Z.eqb_eq. lia. }
      rewrite (u64_small (msgno (start R.2) - 1 + event_horizon R.2))
        by (unfold is_u64; lia).
      destruct (Hall _ Hact) as [H4 _].
      rewrite (u64_small (msgno executed + event_horizon active.2))
        by (unfold is_u64; lia).
      f_equal. rewrite Z.geb_leb. apply Z.leb_gt. lia.
  - rewrite orb_true_r. cbn [mbind option_bind].
    unfold too_far_threshold. rewrite T1. reflexivity.
Qed.

(** ** The delay of a task that waits for a message *)

Lemma wakeup_delay_for_perf_reduce_eq (fuel : nat) (x cap : float) :
  wakeup_delay_for_perf_reduce fuel x cap
  = if PrimFloat.ltb cap x then
      match fuel with
      | O => None
      | S fuel' =>
          wakeup_delay_for_perf_reduce fuel' (PrimFloat.div x 1.31415926) cap
      end
    else Some x.
Proof. destruct fuel; reflexivity. Qed.

(** X30. The delay of a task that waits for a message, in binary64
    arithmetic.  For a bound [max_wait_time] of at least 2^-1021 (the callers
    pass 0.003 and 0.1) and a start value other than +infinity,
    [wakeup_delay_for_perf] returns: the delay is the start value divided by
    1.31415926 the least number of times that makes it not greater than
    [max_wait_time], so it never exceeds the bound.  A bound is needed: with
    [max_wait_time] = 2^-1074 and [old] = 2^-1073 the division rounds back
    to its argument and the loop never ends. *)
Theorem wakeup_delay_for_perf_bounded (median_time_arg drand old
    max_wait_time : float) :
  let first := wakeup_delay_for_perf_start median_time_arg drand old in
  (PrimFloat.leb 0x1p-1021 max_wait_time = true ->
   PrimFloat.eqb first infinity = false ->
   exists k,
     (forall n, (k <= n)%nat ->
                wakeup_delay_for_perf n median_time_arg drand old max_wait_time
                = Some (divided 1.31415926 k first))
     /\ PrimFloat.ltb max_wait_time (divided 1.31415926 k first) = false
     /\ (forall j, (j < k)%nat ->
                   PrimFloat.ltb max_wait_time (divided 1.31415926 j first)
                   = true))
  /\ (forall n,
        wakeup_delay_for_perf n median_time_arg drand 0x1p-1073 0x1p-1074
        = None).
Proof.
  intros first. split.
  - intros Hcap Hinf. apply eqb_infinity_false in Hinf.
    assert (Hr : 2 ^ 54 <= frank max_wait_time).
    { apply leb_rank in Hcap as (_ & _ & Hcap).
      assert (H1 : 2 ^ 54 <= frank 0x1p-1021) by (vm_compute; discriminate).
      lia. }
    destruct (division_loop_ends 1.31415926 5918447153641487
                wakeup_delay_for_perf_reduce max_wait_time
                (Z.to_nat (frank first)) first eq_refl ltac:(lia)
                wakeup_delay_for_perf_reduce_eq Hr Hinf (le_n _))
      as (k & Hk & Hstop & Hmin).
    exists k. split; [| split; [exact Hstop | exact Hmin]].
    intros n Hn. unfold wakeup_delay_for_perf. apply Hk, Hn.
  - intros n. unfold wakeup_delay_for_perf.
    change (wakeup_delay_for_perf_start median_time_arg drand 0x1p-1073)
      with 0x1.8p-1073%float.
    assert (Hfix : forall fuel,
               wakeup_delay_for_perf_reduce fuel 0x1p-1073 0x1p-1074 = None).
    { induction fuel as [| fuel IH]; [reflexivity |].
      rewrite wakeup_delay_for_perf_reduce_eq.
      change (PrimFloat.ltb 0x1p-1074 0x1p-1073) with true. cbv iota.
      change (PrimFloat.div 0x1p-1073 1.31415926) with 0x1p-1073%float.
      exact IH. }
    rewrite wakeup_delay_for_perf_reduce_eq.
    change (PrimFloat.ltb 0x1p-1074 0x1.8p-1073) with true. cbv iota.
    destruct n as [| n]; [reflexivity |].
    change (PrimFloat.div 0x1.8p-1073 1.31415926) with 0x1p-1073%float.
    apply Hfix.
Qed.

End Xcom.

(** * Examples: the model run on the sample states *)

(** C1, counterexample. The machine has promised ballot (5,0) and accepted a
    no_op; a no_op prepare with the smaller ballot (3,1) arrives.  The
    handler answers ack_prepare, and the promise stays (5,0): it is not set
    to the ballot of the prepare. *)
Lemma prepare_noop_match_keeps_promise :
  finished sample_accepted = false
  /\ noop_match sample_accepted 2 = true
  /\ m_proposal (msg_at sample_accepted 2) = mk_ballot 3 1
  /\ option_map (fun r => (promise (acceptor (w_p r.1)), m_op <$> r.2))
       (handle_simple_prepare copy_app_data_ok 0 sample_accepted 2
          (mk_synode 1 7 0))
     = Some (mk_ballot 5 0, Some ack_prepare_op)
  /\ mk_ballot 5 0 <> m_proposal (msg_at sample_accepted 2).
Proof. repeat split; try (vm_compute; reflexivity). discriminate. Qed.

(** C1, witness: a prepare with the greater ballot (7,1) is promised. *)
Lemma handle_simple_prepare_spec_witness :
  exists w' r,
    handle_simple_prepare copy_app_data_ok 0 sample_accepted 3 (mk_synode 1 7 0)
    = Some (w', r)
    /\ promise (acceptor (w_p w')) = mk_ballot 7 1.
Proof.
  destruct (handle_simple_prepare_spec copy_app_data_ok 0 sample_accepted 3
              (mk_synode 1 7 0)) as (_ & H & _).
  destruct H as (w' & r & E & P & _); [reflexivity | reflexivity |].
  exists w', r. split; [exact E | exact P].
Defined.

(** C2, witness: prepare, learn, tiny-learn, skip, ack-prepare and accept
    on a machine that has learned message 4. *)
Lemma learner_msg_never_changes_witness :
  exists w',
    run copy_app_data_ok sample_learned sample_arrivals = Some w'
    /\ lrn_msg (learner (w_p w')) = lrn_msg (learner (w_p sample_learned))
    /\ learned_value w' = learned_value sample_learned
    /\ finished w' = true.
Proof.
  apply (learner_msg_never_changes copy_app_data_ok sample_learned
           sample_arrivals).
  reflexivity.
Defined.

(** What [learner.msg] points to is shared with [acceptor.msg]: a tiny learn
    for its ballot rewrites the operation of the shared message from
    tiny_learn_op to learn_op; ballot and payload are as before. *)
Example tiny_learn_rewrites_shared_op :
  m_op (msg_at sample_learned 4) = tiny_learn_op
  /\ option_map (fun w' => (m_op (msg_at w' 4), learned_value w'))
       (handle_tiny_learn sample_history 1 sample_learned 5)
     = Some (learn_op, learned_value sample_learned).
Proof. split; vm_compute; reflexivity. Qed.

(** C3, witness: the same messages on a machine that has only accepted;
    the promise goes from (5,0) to (7,1). *)
Lemma promise_monotone_witness :
  option_map (fun w' => promise (acceptor (w_p w')))
    (run copy_app_data_ok sample_accepted sample_arrivals)
  = Some (mk_ballot 7 1)
  /\ match run copy_app_data_ok sample_accepted sample_arrivals with
     | Some w' =>
         ballot_le (promise (acceptor (w_p sample_accepted)))
           (promise (acceptor (w_p w')))
     | None => False
     end.
Proof.
  split; [vm_compute; reflexivity |].
  destruct (run copy_app_data_ok sample_accepted sample_arrivals) as [w' |] eqn:E.
  - apply (promise_monotone copy_app_data_ok sample_accepted w' sample_arrivals
             E).
  - vm_compute in E. discriminate.
Defined.

(** C4, counterexample. Three members, forced configuration of members 0
    and 1; members 0 and 2 have answered.  Only one member of the forced
    configuration has answered, yet the count is 2 and the test holds. *)
Lemma majority_force_counts_absent_nodes :
  majority (Some sample_forced_config) [5] (Some sample_site3) false false true
  = true
  /\ size (answered_in_forced (Some sample_forced_config) [5]
             (Some sample_site3)) = 1%nat
  /\ get_maxnodes (Some sample_forced_config) = 2
  /\ Z.of_nat (size (answered_in_forced (Some sample_forced_config) [5]
                       (Some sample_site3)))
     <> get_maxnodes (Some sample_forced_config).
Proof.
  split; [vm_compute; reflexivity |]. split; [vm_compute; reflexivity |].
  split; [vm_compute; reflexivity |]. vm_compute. discriminate.
Qed.



(** C7, counterexample. With [max_conn_rtt] = 0.002 the first delay is
    0.001 + 0.002, which is greater than max(0.002, 0.001) = 0.002. *)
Lemma wakeup_delay_first_is_a_sum :
  max_conn_rtt sample_site3 = 0.002%float
  /\ wakeup_delay 0 sample_site3 0 = Some (0.001 + 0.002)%float
  /\ PrimFloat.ltb 0.001 0.002 = true
  /\ PrimFloat.ltb 0.002 (0.001 + 0.002) = true.
Proof. repeat split; vm_compute; reflexivity. Qed.

(** C7, witness: the first wait of the sample proposer, a later wait that
    starts from the delay 0.5, and the wake-up four seconds after the last
    push. *)
Lemma wakeup_delay_spec_witness :
  wakeup_delay 0 sample_site3 0 = Some (0.001 + 0.002)%float
  /\ (exists k,
        (forall n, (k <= n)%nat ->
                   wakeup_delay n sample_site3 0.5
                   = Some (divided 1.3 k (0.5 * 1.4)%float))
        /\ PrimFloat.ltb (0.002 * 10) (divided 1.3 k (0.5 * 1.4)) = false)
  /\ exists ep' w' msg,
       proposer_wait_pass 0 false sample_proposer_env sample_proposing 4
       = Some (Wait_continue ep' w')
       /\ ep_start_push ep' = 4%float
       /\ w_out w' = [Ev_prepare_msg msg]
       /\ m_op msg = prepare_op.
Proof.
  split; [| split].
  - destruct (wakeup_delay_spec sample_site3 0) as (_ & _ & _ & H1 & _).
    apply H1. vm_compute. reflexivity.
  - destruct (wakeup_delay_spec sample_site3 0.5) as (_ & H0 & _).
    destruct H0 as (k & Hk & Hstop & _); [vm_compute; reflexivity |].
    exists k. split; [exact Hk | exact Hstop].
  - destruct (wakeup_delay_spec sample_site3 0) as (_ & _ & _ & _ & H2).
    destruct (H2 0%nat false sample_proposer_env sample_proposing
                4%float (0.001 + 0.002)%float
                eq_refl eq_refl eq_refl eq_refl (mk_is_Some _ _ eq_refl) eq_refl)
      as [Hpush _].
    destruct Hpush as (ep' & w' & msg & E & _ & A & B & C & _).
    { vm_compute. reflexivity. }
    exists ep', w', msg. auto.
Defined.

(** C8, witness: a machine that never proposed ([cnt] = -1) is bumped to
    -1 + 2147483647 / 3. *)
Lemma force_pax_machine_bump_witness :
  cnt (bal (proposer (force_pax_machine (sample_machine None None) true)))
  = 715827881
  /\ is_i32 715827881.
Proof.
  destruct (force_pax_machine_bump (sample_machine None None)) as (H & _).
  - unfold is_i32, INT32_MIN, INT32_MAX. cbn. lia.
  - exact (H eq_refl).
Defined.

(** C9, counterexample. The node has executed message 100 and is not a
    member of the configuration; the request to add its own address passes
    every check and is accepted.  The absent helpers are instantiated with a
    parser that succeeds, reachable addresses and a detector that agrees. *)
Lemma add_own_address_accepted_when_booted :
  add_node_adding_own_address sample_identity
    (sample_app_data add_node_type [sample_identity]) = true
  /\ can_execute_cfgchange 10 200 7 (fun s => Some (s, 33061)) (fun _ => true)
       (fun _ => true) (fun _ _ => VOID_NODE_NO) (fun _ _ => false)
       sample_identity [sample_site_without_me] (mk_synode 1 100 0)
       sample_add_self
     = Some REQUEST_OK
  /\ Some REQUEST_OK <> Some REQUEST_FAIL.
Proof. split; [| split]; try (vm_compute; reflexivity). discriminate. Qed.

(** C9, witness: the same request before the node has booted. *)
Lemma can_execute_cfgchange_own_address_witness :
  can_execute_cfgchange 10 200 7 (fun s => Some (s, 33061)) (fun _ => true)
    (fun _ => true) (fun _ _ => VOID_NODE_NO) (fun _ _ => false)
    sample_identity [] (mk_synode 1 1 0) sample_add_self
  = Some REQUEST_FAIL.
Proof.
  destruct (can_execute_cfgchange_own_address 10 200 7
              (fun s => Some (s, 33061)) (fun _ => true) (fun _ => true)
              (fun _ _ => VOID_NODE_NO) (fun _ _ => false)
              sample_identity [] (mk_synode 1 1 0) sample_add_self
              (sample_app_data add_node_type [sample_identity])
              eq_refl eq_refl eq_refl) as [H _].
  apply H. cbn. lia.
Defined.

(** C10, witness: the thousand-and-first insertion. *)
Lemma fifo_insert_full_unchanged_witness :
  df_n sample_full_fifo = FIFO_SIZE
  /\ fifo_insert (mk_synode 1 5000 0) sample_full_fifo = sample_full_fifo
  /\ length (fifo_drain 2000 (fifo_insert (mk_synode 1 5000 0) sample_full_fifo))
     = 1000%nat.
Proof.
  assert (Hn : df_n sample_full_fifo = FIFO_SIZE) by (vm_compute; reflexivity).
  destruct (fifo_insert_full_unchanged (mk_synode 1 5000 0) sample_full_fifo Hn)
    as (A & _ & C).
  split; [exact Hn |]. split; [exact A |].
  rewrite C. vm_compute. reflexivity.
Defined.

(** * Examples: further properties on the sample states *)

(** X1, witness: an insertion into the empty queue of [sample_globals]. *)
Lemma fifo_insert_then_drain_witness :
  fifo_drain 5 (fifo_insert (mk_synode 1 9 0) (delay_fifo sample_globals))
  = fifo_drain 5 (delay_fifo sample_globals) ++ [mk_synode 1 9 0].
Proof.
  apply (fifo_insert_then_drain (mk_synode 1 9 0) (delay_fifo sample_globals) 5).
  - unfold fifo_wf. vm_compute. repeat split; congruence.
  - reflexivity.
  - vm_compute. lia.
Defined.

(** X2, witness: the same insertion keeps the invariant. *)
Lemma fifo_indices_stay_in_array_witness :
  fifo_wf (fifo_insert (mk_synode 1 9 0) (delay_fifo sample_globals)).
Proof.
  apply (fifo_indices_stay_in_array (mk_synode 1 9 0) (delay_fifo sample_globals)).
  unfold fifo_wf. vm_compute. repeat split; congruence.
Defined.

(** X3, witness: of three members, 0 and 1 answered one request, 1 and 2
    the other. *)
Lemma majority_quorums_intersect_witness :
  exists i : nat,
    Z.of_nat i < 3
    /\ BIT_ISSET (Z.of_nat i) [3] = true
    /\ BIT_ISSET (Z.of_nat i) [6] = true.
Proof.
  apply (majority_quorums_intersect None [3] [6] (Some sample_site3) false
           false); reflexivity.
Defined.

(** X4, witness: after the prepare with ballot (7,1), the accept request
    with ballot (2,1) is turned down. *)
Lemma promise_rejects_smaller_accept_witness :
  match run copy_app_data_ok sample_promised
          [mk_arrival sample_history 1 (In_prepare 3)] with
  | Some w' =>
      handle_simple_accept copy_app_data_ok 1 w' 6 (mk_synode 1 7 0) false
      = Some (w', None)
  | None => False
  end.
Proof.
  destruct (run copy_app_data_ok sample_promised
              [mk_arrival sample_history 1 (In_prepare 3)]) as [w' |] eqn:E.
  - apply (promise_rejects_smaller_accept copy_app_data_ok sample_promised w'
             [mk_arrival sample_history 1 (In_prepare 3)] 1 6 (mk_synode 1 7 0)
             false E);
      vm_compute in E; injection E as <-; vm_compute; reflexivity.
  - vm_compute in E. discriminate.
Defined.

(** X5, witness: the value of message 7, accepted with ballot (6,1), is
    reported to the prepare with ballot (9,2). *)
Lemma accepted_value_is_reported_witness :
  exists w1 ack w2 reply,
    handle_simple_accept copy_app_data_ok 1 sample_promised 7 (mk_synode 1 7 0)
      false = Some (w1, Some ack)
    /\ acc_msg (acceptor (w_p w1)) = Some 7%nat
    /\ handle_simple_prepare copy_app_data_ok 2 w1 8 (mk_synode 1 7 0)
       = Some (w2, Some reply)
    /\ m_op reply = ack_prepare_op
    /\ m_synode reply = mk_synode 1 7 0
    /\ m_proposal reply = mk_ballot 6 1
    /\ m_msg_type reply = normal
    /\ m_a reply = Some (sample_app_data app_type [])
    /\ promise (acceptor (w_p w2)) = mk_ballot 9 2.
Proof.
  apply (accepted_value_is_reported copy_app_data_ok 1 2 sample_promised 7 8
           (mk_synode 1 7 0) (mk_synode 1 7 0) false);
    try reflexivity.
  vm_compute. discriminate.
Defined.

(** X6, witness: message 4 is learned and read back for message 3. *)
Lemma learn_then_read_witness :
  exists w1 reply,
    handle_learn sample_history 1 sample_promised 4 = Some w1
    /\ finished w1 = true
    /\ lrn_msg (learner (w_p w1)) = Some 4%nat
    /\ acc_msg (acceptor (w_p w1)) = Some 4%nat
    /\ m_a (msg_at w1 4)
       = Some (set_a_chosen true (sample_app_data app_type []))
    /\ handle_read copy_app_data_ok w1 3 = Some (emit (Ev_send_reply reply) w1)
    /\ m_op reply = learn_op
    /\ m_synode reply = m_synode (msg_at w1 3)
    /\ m_proposal reply = mk_ballot 5 0
    /\ m_a reply = Some (set_a_chosen true (sample_app_data app_type [])).
Proof.
  apply (learn_then_read copy_app_data_ok sample_history 1 sample_promised 4 3);
    try reflexivity.
  vm_compute. eauto.
Defined.

(** X7, witness: the machine that has accepted message 1 skips with
    message 2. *)
Lemma skip_learns_noop_witness :
  finished (handle_skip 1 sample_accepted 2) = true
  /\ lrn_msg (learner (w_p (handle_skip 1 sample_accepted 2))) = Some 2%nat.
Proof.
  destruct (skip_learns_noop 1 sample_accepted 2) as (A & B & _);
    [reflexivity |].
  split; [exact A | exact B].
Defined.

(** X8, witness: the tiny learn 5 has the ballot of the accepted
    message 1. *)
Lemma tiny_learn_confirms_accepted_witness :
  exists w1,
    handle_tiny_learn sample_history 1 sample_accepted 5 = Some w1
    /\ finished w1 = true
    /\ lrn_msg (learner (w_p w1)) = Some 1%nat
    /\ m_op (msg_at w1 1) = learn_op
    /\ m_proposal (msg_at w1 1) = mk_ballot 5 0
    /\ m_msg_type (msg_at w1 1) = no_op
    /\ m_a (msg_at w1 1) = None.
Proof.
  apply (tiny_learn_confirms_accepted sample_history 1 sample_accepted 5).
  - reflexivity.
  - vm_compute. eauto.
Defined.



(** X11, witness: in the same step nodes 0 and 1 of three form the
    majority. *)
Lemma learn_needs_majority_witness :
  match handle_simple_ack_accept None (Some sample_site3) sample_proposed 10 with
  | Some (w1, Some learn) =>
      prop_nodeset (proposer (w_p w1)) = [3]
      /\ prop_majority None (Some sample_site3) w1 = Some true
  | _ => False
  end.
Proof.
  destruct (handle_simple_ack_accept None (Some sample_site3) sample_proposed
              10) as [[w1 [learn |]] |] eqn:E;
    try (vm_compute in E; discriminate).
  destruct (learn_needs_majority None (Some sample_site3) sample_proposed w1
              10 learn E) as (_ & _ & _ & A & B).
  split; [rewrite A; reflexivity | exact B].
Defined.

(** X12, witness: the machine that has promised (5,0) pushes with ballot
    (6,0) and promises it. *)
Lemma pushed_ballot_is_fresh_witness :
  let r := push_msg_3p false (Some sample_site3) (w_p sample_promised)
             (sample_msg initial_op normal (mk_ballot 0 0) None)
             (mk_synode 1 7 0) normal in
  bal (proposer r.1) = mk_ballot 6 0
  /\ exists w2 reply,
       handle_simple_prepare copy_app_data_ok 1
         (mk_world r.1 (<[ 20%nat := r.2 ]> (w_msgs sample_promised))
            (w_out sample_promised)) 20 (mk_synode 1 7 0)
       = Some (w2, reply)
       /\ promise (acceptor (w_p w2)) = bal (proposer r.1).
Proof.
  split; [reflexivity |].
  apply (pushed_ballot_is_fresh copy_app_data_ok false 1 (Some sample_site3)
           sample_promised (sample_msg initial_op normal (mk_ballot 0 0) None)
           (mk_synode 1 7 0) normal 20 (mk_synode 1 7 0));
    try reflexivity; vm_compute; split; congruence.
Defined.

(** X13, witness: the proposer of message 3 pushes in two phases, and a
    fresh machine accepts the proposal. *)
Lemma two_phase_push_is_accepted_witness :
  match push_msg_2p (Some sample_site3) sample_prepared with
  | Some w1 =>
      exists wa' ack,
        handle_simple_accept copy_app_data_ok 1
          (mk_world sample_fresh_machine (w_msgs w1) []) 3 (mk_synode 1 7 0)
          false = Some (wa', Some ack)
        /\ acc_msg (acceptor (w_p wa')) = Some 3%nat
        /\ m_op ack = ack_accept_op
  | None => False
  end.
Proof.
  destruct (push_msg_2p (Some sample_site3) sample_prepared) as [w1 |] eqn:E;
    [| vm_compute in E; discriminate].
  destruct (two_phase_push_is_accepted copy_app_data_ok (Some sample_site3)
              sample_prepared w1 1
              (mk_world sample_fresh_machine (w_msgs w1) []) 3
              (mk_synode 1 7 0) false E) as (q & Hq & _ & _ & _ & _ & _ & H);
    [vm_compute; congruence |].
  assert (Eq3 : q = 3%nat).
  { vm_compute in E. injection E as <-. vm_compute in Hq. congruence. }
  subst q.
  destruct H as (wa' & ack & H1 & H2 & H3 & _); try reflexivity.
  exists wa', ack. split; [exact H1 |]. split; [exact H2 | exact H3].
Defined.

(** X14, witness: after the last node of message 7 comes node 0 of
    message 8. *)
Lemma incr_synode_is_successor_witness :
  incr_synode sample_history (mk_synode 1 7 2) = mk_synode 1 8 0
  /\ synode_gt (incr_synode sample_history (mk_synode 1 7 2)) (mk_synode 1 7 2)
     = true.
Proof.
  split; [reflexivity |].
  apply (incr_synode_is_successor sample_history (mk_synode 1 7 2));
    vm_compute; split; congruence.
Defined.

(** X15, witness: and back. *)
Lemma decr_incr_synode_witness :
  decr_synode sample_history (incr_synode sample_history (mk_synode 1 7 2))
  = mk_synode 1 7 2.
Proof.
  apply (decr_incr_synode sample_history (mk_synode 1 7 2));
    try reflexivity; vm_compute; split; congruence.
Defined.

(** X17, witness: the second node of three is removed. *)
Lemma remove_node_accepted_iff_members_witness :
  can_execute_cfgchange 10 200 7 (fun s => Some (s, 33061)) (fun _ => true)
    (fun _ => true) (fun _ _ => VOID_NODE_NO) (fun _ _ => false)
    sample_identity [sample_site3] (mk_synode 1 100 0) sample_remove_second
  = Some REQUEST_OK.
Proof.
  destruct (remove_node_accepted_iff_members 10 200 7
              (fun s => Some (s, 33061)) (fun _ => true) (fun _ => true)
              (fun _ _ => VOID_NODE_NO) (fun _ _ => false)
              sample_identity [sample_site3] (mk_synode 1 100 0)
              sample_remove_second
              (sample_app_data remove_node_type
                 [sample_node "10.0.0.2:33061"])
              (0%nat, sample_site3) eq_refl eq_refl eq_refl) as [H _].
  apply H; [reflexivity | left; reflexivity].
Defined.

(** X18, witness: the request names no group, and 25 lies between the
    bounds 10 and 200. *)
Lemma event_horizon_accepted_iff_in_range_witness :
  can_execute_cfgchange 10 200 7 (fun s => Some (s, 33061)) (fun _ => true)
    (fun _ => true) (fun _ _ => VOID_NODE_NO) (fun _ _ => false)
    sample_identity [sample_site3] (mk_synode 1 100 0) sample_set_event_horizon
  = Some REQUEST_OK.
Proof.
  apply (event_horizon_accepted_iff_in_range 10 200 7
           (fun s => Some (s, 33061)) (fun _ => true) (fun _ => true)
           (fun _ _ => VOID_NODE_NO) (fun _ _ => false)
           sample_identity [sample_site3] (mk_synode 1 100 0)
           sample_set_event_horizon
           (mk_app_data null_synode 0 0 null_synode cons_majority false
              set_event_horizon_type [] 25 "x")
           (0%nat, sample_site3) eq_refl eq_refl eq_refl eq_refl).
Defined.

(** X19, witness: site 13 is buried in a ring of four that holds 11
    and 12. *)
Lemma is_dead_site_iff_in_ring_witness :
  is_dead_site 4 13 (bury_site 4 13 sample_dead_sites) = true
  /\ is_dead_site 4 13 sample_dead_sites = false
  /\ is_dead_site 4 0 sample_dead_sites = true.
Proof.
  destruct (is_dead_site_iff_in_ring 4 13 sample_dead_sites) as (_ & _ & _ & H).
  - unfold dead_sites_wf. cbn. split; [lia |]. split; [reflexivity |].
    split; [repeat constructor; lia |]. left. repeat constructor.
  - split; [apply H; lia |]. split; reflexivity.
Defined.

(** X20, witness: site 13 is still dead after 14, 15 and 16 have been
    buried, which overwrites 11 and 12. *)
Lemma buried_site_stays_dead_witness :
  is_dead_site 4 13
    (foldl (fun d x => bury_site 4 x d) (bury_site 4 13 sample_dead_sites)
       [14; 15; 16]) = true
  /\ is_dead_site 4 11
       (foldl (fun d x => bury_site 4 x d) (bury_site 4 13 sample_dead_sites)
          [14; 15; 16]) = false.
Proof.
  split; [| reflexivity].
  apply (buried_site_stays_dead 4 13 sample_dead_sites [14; 15; 16]).
  - unfold dead_sites_wf. cbn. split; [lia |]. split; [reflexivity |].
    split; [repeat constructor; lia |]. left. repeat constructor.
  - lia.
  - repeat constructor; lia.
  - cbn. lia.
Defined.

(** X22, witness: three numbers from a counter that is still zero, with
    [max_synode] at message 60 on the first call. *)
Lemma assign_lsn_consecutive_witness :
  assign_lsns [mk_synode 1 60 0; mk_synode 1 90 0; mk_synode 1 10 0] 0
  = [61; 62; 63].
Proof.
  apply (assign_lsn_consecutive [mk_synode 1 90 0; mk_synode 1 10 0]
           (mk_synode 1 60 0) 0); cbn; lia.
Defined.

(** X23, witness: node 0 asks for its first free synode from (7, node 2)
    on. *)
Lemma first_free_synode_not_before_witness :
  first_free_synode sample_history (mk_synode 1 7 2) = Some (mk_synode 1 8 0)
  /\ synode_lt (mk_synode 1 8 0) (mk_synode 1 7 2) = false.
Proof.
  split; [reflexivity |].
  destruct (first_free_synode_not_before sample_history (mk_synode 1 7 2))
    as [H _]; [cbn; lia |].
  apply H. reflexivity.
Defined.

(** X25, witness: the three nodes of [sample_site3] are noted, in the
    order 0, 2, 1, in an array of eight. *)
Lemma got_all_snapshots_iff_all_noted_witness :
  got_all_snapshots [sample_site3]
    (foldl (fun s n => note_snapshot n s) (reset_snapshot_mask (repeat 7 8))
       [0; 2; 1]) = true
  /\ got_all_snapshots [sample_site3]
       (foldl (fun s n => note_snapshot n s) (reset_snapshot_mask (repeat 7 8))
          [0; 2]) = false.
Proof.
  split; [| reflexivity].
  apply (got_all_snapshots_iff_all_noted [sample_site3] (repeat 7 8) [0; 2; 1]).
  - cbn. lia.
  - vm_compute. discriminate.
  - repeat constructor; lia.
  - split; [cbn; lia |]. intros i Hi. cbn in Hi.
    assert (Hc : i = 0 \/ i = 1 \/ i = 2) by lia.
    clear Hi. destruct Hc as [-> | [-> | ->]];
      repeat (apply elem_of_cons; (left; reflexivity) || right).
Defined.

(** X27, witness: node 1 reports a no_op accepted with ballot (5,0); the
    proposer of a client value proposes the no_op instead. *)
Lemma proposer_adopts_reported_value_witness :
  match handle_ack_prepare None (Some sample_site3) sample_preparing 11 with
  | Some w' =>
      prop_msg (proposer (w_p w')) = Some 11%nat
      /\ exists sent,
           w_out w' = [Ev_send_propose_msg sent]
           /\ m_op sent = accept_op
           /\ m_proposal sent = mk_ballot 7 1
           /\ m_msg_type sent = no_op
           /\ m_a sent = None
  | None => False
  end.
Proof.
  destruct (handle_ack_prepare None (Some sample_site3) sample_preparing 11)
    as [w' |] eqn:E; [| vm_compute in E; discriminate].
  destruct (proposer_adopts_reported_value None (Some sample_site3)
              sample_preparing w' 11 12) as [A B];
    try reflexivity; [vm_compute; discriminate | exact E |].
  split; [exact A |].
  destruct B as [B | (sent & B1 & B2 & B3 & _ & B4 & B5)].
  - vm_compute in E. injection E as <-. vm_compute in B. discriminate.
  - exists sent. repeat split; assumption.
Defined.

(** X28, witness: the sample executor, with both cursors at node 0 of
    message 40, fetches. *)
Lemma executor_keeps_delivered_behind_witness :
  executed_msg (x_check_increment_fetch sample_globals sample_context).1
  = mk_synode 1 40 1
  /\ synode_gt
       (executed_msg (x_check_increment_fetch sample_globals sample_context).1)
       (delivered_msg (x_check_increment_fetch sample_globals sample_context).1)
     = true.
Proof.
  destruct (executor_keeps_delivered_behind sample_globals sample_context)
    as (H & _);
    [reflexivity | vm_compute; split; congruence
     | vm_compute; split; congruence | vm_compute; split; congruence
     | vm_compute; split; congruence |].
  destruct (H eq_refl) as (A & _ & C).
  split; [rewrite A; reflexivity | exact C].
Defined.

(** X29, witness: message 42 of [sample_history], where the horizon goes
    from 10 to 2 at message 45. *)
Lemma executed_msg_within_horizon_witness :
  too_far 10 sample_history (mk_synode 1 42 0) (mk_synode 1 42 0) = Some false.
Proof.
  apply (executed_msg_within_horizon 10 sample_history (mk_synode 1 42 0)
           (1%nat, sample_site3)); try reflexivity.
  - repeat constructor; cbn; lia.
  - cbn. lia.
Defined.

(** X30, witness: the first wait of get_xcom_message, with no median time
    measured yet, the random number 0.5 and the bound of 3 milliseconds: the
    start value 0.001 + 5.0 * 0.001 + 0.001 * 0.5 is brought within the
    bound. *)
Lemma wakeup_delay_for_perf_bounded_witness :
  exists k,
    (forall n, (k <= n)%nat ->
               wakeup_delay_for_perf n 0 0.5 0 0.003
               = Some (divided 1.31415926 k (0.001 + 5.0 * 0.001 + 0.001 * 0.5)))
    /\ PrimFloat.ltb 0.003
         (divided 1.31415926 k (0.001 + 5.0 * 0.001 + 0.001 * 0.5)) = false.
Proof.
  destruct (wakeup_delay_for_perf_bounded 0 0.5 0 0.003) as [H _].
  destruct H as (k & Hk & Hstop & _); [reflexivity | reflexivity |].
  exists k. split; [exact Hk | exact Hstop].
Defined.
